(** * Bulker consumer runtime: batch counters, stream options, batch and retry consumers

    A shallow embedding of the Go sources

      - bulkerlib/options.go                       (stream option registry)
      - bulkerapp/app/abstract_batch_consumer.go   (AbstractBatchConsumer, BatchCounters)
      - bulkerapp/app/retry_consumer.go            (RetryConsumer.processBatchImpl)
      - the StreamConsumer source of package app   (failure path of its message loop)

    Go values are modelled as follows: [int] and [int64] are [Z] with the
    two's-complement wrap-around of 64-bit arithmetic written out, [string] and
    [[]byte] are [string], [float64] is the kernel's binary64 [float], [any] is
    the inductive [any], Go maps are [gmap]s, [utils.Set[string]] is a
    [gset string], and a pair [(v, err)] returned by a Go function is a pair
    whose second component is an [option]. *)

From Stdlib Require Import ZArith Floats SpecFloat Uint63 Ascii String.
From Stdlib Require Import Decimal DecimalPos DecimalString.
From stdpp Require Import base option list gmap strings.

Local Open Scope Z_scope.
Set Warnings "-clear-no-such-hyp".

(** ** Machine integers *)

Definition int_min : Z := - 2 ^ 63.
Definition int_max : Z := 2 ^ 63 - 1.

(** [is_int z]: [z] is a value of Go's [int] (64 bits on the supported platforms). *)
Definition is_int (z : Z) : Prop := int_min <= z <= int_max.

(** Two's-complement reduction of an unbounded integer to 64 bits. *)
Definition wrap (z : Z) : Z := (z + 2 ^ 63) mod 2 ^ 64 - 2 ^ 63.

Definition int_add (a b : Z) : Z := wrap (a + b).
Definition int_sub (a b : Z) : Z := wrap (a - b).

(** ** BatchCounters (abstract_batch_consumer.go) *)

Record BatchCounters : Type := mkBatchCounters {
  consumed : Z;
  skipped : Z;
  processed : Z;
  notReadyReadded : Z;
  retryScheduled : Z;
  deadLettered : Z;
  failed : Z
}.

(** [BatchCounters{}] *)
Definition zeroCounters : BatchCounters := mkBatchCounters 0 0 0 0 0 0 0.

(** [func (bs *BatchCounters) accumulate(batchStats BatchCounters)]: the receiver
    after the call.  The source has no statement for [failed]. *)
Definition accumulate (bs batchStats : BatchCounters) : BatchCounters :=
  {| consumed := int_add (consumed bs) (consumed batchStats);
     skipped := int_add (skipped bs) (skipped batchStats);
     processed := int_add (processed bs) (processed batchStats);
     notReadyReadded := int_add (notReadyReadded bs) (notReadyReadded batchStats);
     retryScheduled := int_add (retryScheduled bs) (retryScheduled batchStats);
     deadLettered := int_add (deadLettered bs) (deadLettered batchStats);
     failed := failed bs |}.


(** ** Errors

    Go errors are values built with [fmt.Errorf] or the service's [NewError];
    one constructor per error site of the modelled sources stands for the
    formatted message. *)

Inductive error : Type :=
| ErrUnknownMode (v : string)              (* "unknown mode: %s" *)
| ErrInvalidModeType                       (* "invalid value type of mode option: %T" *)
| ErrFailedToParseOption (key : string) (cause : error)
                                           (* "failed to parse '%s' option: %v" *)
| ErrPrimaryKeyType                        (* "failed to parse 'primaryKey' option: ... incorrect type" *)
| ErrUnknownOption (name : string)         (* "unknown option %s" *)
| ErrNilParser                             (* call of a nil function value *)
| ErrExternal (msg : string)               (* an error of a helper outside the modelled sources *)
| ErrSyntax                                (* strconv.ErrSyntax *)
| ErrRange                                 (* strconv.ErrRange *)
| ErrConsumerRetired                       (* "Consumer is retired" *)
| ErrDestinationNotFound (id : string)     (* "destination not found: %s. Retiring consumer" *)
| ErrConsume (retriable : bool)            (* "Failed to consume event from topic. Retryable: %t: %v" *)
| ErrBeginTransaction                      (* "failed to begin kafka transaction: %v" *)
| ErrProduce                               (* "failed to put message to producer: %v" *)
| ErrGroupMetadata                         (* "failed to get consumer group metadata: %v" *)
| ErrSendOffsets                           (* "failed to send consumer offset to producer transaction: %v" *)
| ErrCommit                                (* "failed to commit kafka transaction for producer: %v" *)
| ErrKafka (retriable : bool)              (* a kafka.Error returned as is *)
| ErrParseTopic                            (* "Failed to parse topic: %v" *)
| ErrCreateConsumer                        (* "Error creating consumer: %v" *)
| ErrConsumerMetadata                      (* "Failed to get consumer metadata: %v" *)
| ErrInvalidPartitionCount                 (* "Topic has more than 1 partition. ..." *)
| ErrCreateProducer                        (* "error creating kafka producer: %v" *)
| ErrInitTransactions                      (* "error initializing kafka producer transactions ..." *)
| ErrSubscribe                             (* "Failed to subscribe to topic: %v" *)
| ErrNilDereference.                       (* run-time panic: nil pointer dereference *)

(** ** Stream options (bulkerlib/options.go) *)

Module bulker.

(** Modelled from the spec: the type [BulkMode] is declared outside options.go;
    the spec gives [mode ∈ {stream, batch, unknown}]. *)
Inductive BulkMode : Type := Unknown | Batch | Stream.

(** Go's [any]: the dynamic values that reach the option parsers and that the
    values map stores. *)
#[warnings="-register-all"]
Inductive any : Type :=
| any_nil
| any_bool (b : bool)
| any_int (n : Z)
| any_float64 (f : float)
| any_string (s : string)
| any_strings (l : list string)            (* []string *)
| any_slice (l : list any)                 (* []any *)
| any_map (m : list (string * any))        (* map[string]any *)
| any_BulkMode (m : BulkMode)
| any_Set (s : gset string).               (* utils.Set[string] *)

(** [type StreamOption func(so *StreamOptions)].  Every option of the package
    mutates the values map only, so a [StreamOption] is a function on the values
    map; [None] is Go's nil map. *)
Definition StreamOption : Type := option (gmap string any) -> option (gmap string any).

Record StreamOptions : Type := mkStreamOptions {
  valuesMap : option (gmap string any);
  Options : list StreamOption
}.

(** [option(so)] *)
Definition apply (option : StreamOption) (so : StreamOptions) : StreamOptions :=
  {| valuesMap := option (valuesMap so); Options := Options so |}.

(** [func (so *StreamOptions) Add(option StreamOption)] *)
Definition Add (so : StreamOptions) (option : StreamOption) : StreamOptions :=
  let so := apply option so in
  {| valuesMap := valuesMap so; Options := Options so ++ [option] |}.

(** The [Key] and [DefaultValue] of an [ImplementationOption[V]], with the two
    conversions that Go performs implicitly: storing a [V] in an [any] and the
    type assertion [.(V)].  [Get] and [Set] use nothing else, and
    [AdvancedParseFunc] receives this part of its own option. *)
Record OptionKey (V : Type) : Type := mkOptionKey {
  Key : string;
  DefaultValue : V;
  to_any : V -> any;
  assert_type : any -> option V
}.
Arguments Key {V} _.
Arguments DefaultValue {V} _.
Arguments to_any {V} _ _.
Arguments assert_type {V} _ _.

Record ImplementationOption (V : Type) : Type := mkImplementationOption {
  key_part :> OptionKey V;
  ParseFunc : option (any -> V * option error);
  AdvancedParseFunc : option (OptionKey V -> any -> option StreamOption * option error)
}.
Arguments key_part {V} _.
Arguments ParseFunc {V} _.
Arguments AdvancedParseFunc {V} _.

(** [func (io *ImplementationOption[V]) Get(so *StreamOptions) V], on the values map.
    Indexing a nil map yields the zero value, on which the assertion fails. *)
Definition Get_values {V} (io : OptionKey V) (values : option (gmap string any)) : V :=
  match values with
  | Some m =>
      match m !! Key io with
      | Some v => match assert_type io v with Some opt => opt | None => DefaultValue io end
      | None => DefaultValue io
      end
  | None => DefaultValue io
  end.

Definition Get {V} (io : ImplementationOption V) (so : StreamOptions) : V :=
  Get_values (key_part io) (valuesMap so).

(** [func (io *ImplementationOption[V]) Set(so *StreamOptions, value V)], on the values map. *)
Definition Set_values {V} (io : OptionKey V) (values : option (gmap string any)) (value : V)
  : option (gmap string any) :=
  match values with
  | None => Some {[ Key io := to_any io value ]}
  | Some m => Some (<[ Key io := to_any io value ]> m)
  end.

Definition Set_ {V} (io : ImplementationOption V) (so : StreamOptions) (value : V) : StreamOptions :=
  {| valuesMap := Set_values (key_part io) (valuesMap so) value; Options := Options so |}.

(** [func (io *ImplementationOption[V]) Parse(serializedValue any) (StreamOption, error)] *)
Definition Parse {V} (io : ImplementationOption V) (serializedValue : any)
  : option StreamOption * option error :=
  match ParseFunc io with
  | Some parseFunc =>
      match parseFunc serializedValue with
      | (_, Some err) => (None, Some (ErrFailedToParseOption (Key io) err))
      | (val, None) => (Some (fun options => Set_values io options val), None)
      end
  | None =>
      match AdvancedParseFunc io with
      | Some advancedParseFunc => advancedParseFunc (key_part io) serializedValue
      | None => (None, Some ErrNilParser)
      end
  end.

(** Modelled from the spec: [utils.NewSet(pkFields...)] and [set.PutAll(pkFields)]
    of [utils.Set[string]] are defined in package utils; the spec gives the
    primary key as a set of strings that parsing extends by set union. *)
Definition NewSet (values : list string) : gset string := list_to_set values.
Definition PutAll (set : gset string) (values : list string) : gset string :=
  set ∪ list_to_set values.

(** [func withPrimaryKey(o, pkFields ...string) StreamOption].  [set.PutAll]
    mutates in place the set object that [Get] returned; that object is the one
    held by the values map (with an empty [DefaultValue], [Get] falls back to the
    default only when [len(set) == 0]), so the mutation is the update of the
    entry under the option's key. *)
Definition withPrimaryKey (o : OptionKey (gset string)) (pkFields : list string) : StreamOption :=
  fun options =>
    let set := Get_values o options in
    if decide (size set = 0%nat) then Set_values o options (NewSet pkFields)
    else Set_values o options (PutAll set pkFields).

Definition intKey (key : string) (default : Z) : OptionKey Z :=
  {| Key := key; DefaultValue := default; to_any := any_int;
     assert_type := fun v => match v with any_int n => Some n | _ => None end |}.

Definition float64Key (key : string) (default : float) : OptionKey float :=
  {| Key := key; DefaultValue := default; to_any := any_float64;
     assert_type := fun v => match v with any_float64 f => Some f | _ => None end |}.

Definition boolKey (key : string) (default : bool) : OptionKey bool :=
  {| Key := key; DefaultValue := default; to_any := any_bool;
     assert_type := fun v => match v with any_bool b => Some b | _ => None end |}.

Definition stringKey (key : string) (default : string) : OptionKey string :=
  {| Key := key; DefaultValue := default; to_any := any_string;
     assert_type := fun v => match v with any_string s => Some s | _ => None end |}.

Definition anyKey (key : string) : OptionKey any :=
  {| Key := key; DefaultValue := any_nil; to_any := fun v => v;
     assert_type := fun v => match v with any_nil => None | _ => Some v end |}.

Definition modeKey : OptionKey BulkMode :=
  {| Key := "mode"; DefaultValue := Unknown; to_any := any_BulkMode;
     assert_type := fun v => match v with any_BulkMode m => Some m | _ => None end |}.

Definition primaryKeyKey : OptionKey (gset string) :=
  {| Key := "primaryKey"; DefaultValue := ∅; to_any := any_Set;
     assert_type := fun v => match v with any_Set s => Some s | _ => None end |}.

(** The parsers of package [utils] (jitsubase), which options.go only refers to. *)
Class Utils : Type := {
  ParseInt : any -> Z * option error;
  ParseFloat : any -> float * option error;
  ParseBool : any -> bool * option error;
  ParseString : any -> string * option error
}.

Section Registry.
Context `{Utils}.

Definition BatchSizeOption : ImplementationOption Z :=
  mkImplementationOption _ (intKey "batchSize" 0) (Some ParseInt) None.

Definition BatchFrequencyOption : ImplementationOption float :=
  mkImplementationOption _ (float64Key "frequency" 0%float) (Some ParseFloat) None.

Definition RetryBatchSizeOption : ImplementationOption Z :=
  mkImplementationOption _ (intKey "retryBatchSize" 0) (Some ParseInt) None.

Definition RetryFrequencyOption : ImplementationOption float :=
  mkImplementationOption _ (float64Key "retryFrequency" 0%float) (Some ParseFloat) None.

(** The [ParseFunc] of [ModeOption]. *)
Definition parseMode (serialized : any) : BulkMode * option error :=
  match serialized with
  | any_string v =>
      if String.eqb v "stream" then (Stream, None)
      else if String.eqb v "batch" then (Batch, None)
      else (Unknown, Some (ErrUnknownMode v))
  | _ => (Unknown, Some ErrInvalidModeType)
  end.

Definition ModeOption : ImplementationOption BulkMode :=
  mkImplementationOption _ modeKey (Some parseMode) None.

(** The [AdvancedParseFunc] of [PrimaryKeyOption]. *)
Definition parsePrimaryKey (o : OptionKey (gset string)) (serializedValue : any)
  : option StreamOption * option error :=
  match serializedValue with
  | any_strings v => (Some (withPrimaryKey o v), None)
  | any_string v =>
      if String.eqb v "" then (Some (fun options => options), None)
      else (Some (withPrimaryKey o [v]), None)
  | _ => (None, Some ErrPrimaryKeyType)
  end.

Definition PrimaryKeyOption : ImplementationOption (gset string) :=
  mkImplementationOption _ primaryKeyKey None (Some parsePrimaryKey).

Definition MergeRowsOption : ImplementationOption bool :=
  mkImplementationOption _ (boolKey "deduplicate" false) (Some ParseBool) None.

Definition PartitionIdOption : ImplementationOption string :=
  mkImplementationOption _ (stringKey "partitionId" "") (Some ParseString) None.

Definition TimestampOption : ImplementationOption string :=
  mkImplementationOption _ (stringKey "timestampColumn" "") (Some ParseString) None.

Definition FunctionsOption : ImplementationOption any :=
  mkImplementationOption _ (anyKey "functions") (Some (fun _ => (any_nil, None))) None.

Definition StreamsOption : ImplementationOption any :=
  mkImplementationOption _ (anyKey "streams") (Some (fun _ => (any_nil, None))) None.

Definition DataLayoutOption : ImplementationOption string :=
  mkImplementationOption _ (stringKey "dataLayout" "") (Some ParseString) None.

Definition EventsOption : ImplementationOption string :=
  mkImplementationOption _ (stringKey "events" "") (Some ParseString) None.

Definition HostsOption : ImplementationOption string :=
  mkImplementationOption _ (stringKey "hosts" "") (Some ParseString) None.

(** [func WithPrimaryKey(pkFields ...string) StreamOption] *)
Definition WithPrimaryKey (pkFields : list string) : StreamOption :=
  withPrimaryKey PrimaryKeyOption pkFields.

(** [func withMergeRows(o, b)], [WithMergeRows()] and [WithoutMergeRows()] *)
Definition withMergeRows (o : OptionKey bool) (b : bool) : StreamOption :=
  fun options => Set_values o options b.
Definition WithMergeRows : StreamOption := withMergeRows MergeRowsOption true.
Definition WithoutMergeRows : StreamOption := withMergeRows MergeRowsOption false.

(** [func withPartition(o, partitionId)] and [WithPartition(partitionId)] *)
Definition withPartition (o : OptionKey string) (partitionId : string) : StreamOption :=
  fun options => Set_values o options partitionId.
Definition WithPartition (partitionId : string) : StreamOption :=
  withPartition PartitionIdOption partitionId.

(** [func withTimestamp(o, timestampField)] and [WithTimestamp(timestampField)] *)
Definition withTimestamp (o : OptionKey string) (timestampField : string) : StreamOption :=
  fun options => Set_values o options timestampField.
Definition WithTimestamp (timestampField : string) : StreamOption :=
  withTimestamp TimestampOption timestampField.

(** [type ParseableOption interface { Parse(serialized any) (StreamOption, error) }] *)
Definition ParseableOption : Type := any -> option StreamOption * option error.

(** [func RegisterOption[V any](option *ImplementationOption[V])] *)
Definition RegisterOption {V} (option : ImplementationOption V)
    (registry : gmap string ParseableOption) : gmap string ParseableOption :=
  <[ Key option := Parse option ]> registry.

(** [optionsRegistry] after [init()]. *)
Definition optionsRegistry : gmap string ParseableOption :=
  RegisterOption HostsOption
  (RegisterOption EventsOption
  (RegisterOption DataLayoutOption
  (RegisterOption StreamsOption
  (RegisterOption FunctionsOption
  (RegisterOption TimestampOption
  (RegisterOption PartitionIdOption
  (RegisterOption MergeRowsOption
  (RegisterOption PrimaryKeyOption
  (RegisterOption RetryBatchSizeOption
  (RegisterOption RetryFrequencyOption
  (RegisterOption BatchFrequencyOption
  (RegisterOption BatchSizeOption
  (RegisterOption ModeOption ∅))))))))))))).

(** [func ParseOption(name string, serialized any) (StreamOption, error)] *)
Definition ParseOption (name : string) (serialized : any) : option StreamOption * option error :=
  match optionsRegistry !! name with
  | None => (None, Some (ErrUnknownOption name))
  | Some option => option serialized
  end.

End Registry.

(** The parsers of package [utils] read as total functions that accept the
    value of the expected dynamic type; used to run the model on examples. *)
Definition sampleUtils : Utils :=
  {| ParseInt := fun v => match v with any_int n => (n, None) | _ => (0, Some (ErrExternal "ParseInt")) end;
     ParseFloat := fun v => match v with any_float64 f => (f, None) | _ => (0%float, Some (ErrExternal "ParseFloat")) end;
     ParseBool := fun v => match v with any_bool b => (b, None) | _ => (false, Some (ErrExternal "ParseBool")) end;
     ParseString := fun v => match v with any_string s => (s, None) | _ => (""%string, Some (ErrExternal "ParseString")) end |}.

End bulker.

(** ** The message-bus client (confluent-kafka-go), as far as the consumers use it *)

Module kafka.

(** [kafka.Header{Key, Value}] *)
Module Header.
Record t : Type := mk { Key : string; Value : string }.
End Header.

(** [kafka.TopicPartition{Topic, Partition, Offset}] *)
Module TopicPartition.
Record t : Type := mk { Topic : string; Partition : Z; Offset : Z }.
End TopicPartition.

(** [kafka.Message{TopicPartition, Value, Key, Headers}] *)
Module Message.
Record t : Type := mk {
  TopicPartition : TopicPartition.t;
  Value : string;
  Key : string;
  Headers : list Header.t
}.
End Message.

(** [kafka.PartitionAny] *)
Definition PartitionAny : Z := -1.

(** [kafka.Error]: its [Code()] (only [ErrTimedOut] is told apart) and [IsRetriable()]. *)
Inductive ErrorCode : Type := ErrTimedOut | ErrOther.

Module Error.
Record t : Type := mk { Code : ErrorCode; IsRetriable : bool }.
End Error.

(** [kafka.TopicMetadata{Topic, Partitions}] and [kafka.Metadata{Topics}]; the
    [Topics] map is listed in the order in which [range] visits it. *)
Module TopicMetadata.
Record t : Type := mk { Topic : string; Partitions : list Z }.
End TopicMetadata.

Module Metadata.
Record t : Type := mk { Topics : list (string * TopicMetadata.t) }.
End Metadata.

End kafka.

(** ** Package app: configuration and the helpers of the retry pipeline *)

(** [const retryTimeHeader], [retriesCountHeader], [originalTopicHeader]
    (abstract_batch_consumer.go) *)
Definition retryTimeHeader : string := "retry_time".
Definition retriesCountHeader : string := "retries".
Definition originalTopicHeader : string := "original_topic".

(** An instant of [time.Time], in nanoseconds since the zero value of the type. *)
Definition Instant : Type := Z.

(** [t.IsZero()] and [t.After(u)] *)
Definition IsZero (t : Instant) : bool := t =? 0.
Definition After (t u : Instant) : bool := u <? t.

(** Modelled from the spec: the struct [Config] is declared in config.go; these
    are the fields that the modelled files read, with the types of their uses. *)
Record Config : Type := mkConfig {
  InstanceId : string;
  BatchRunnerWaitForMessagesSec : Z;
  BatchRunnerDefaultBatchSize : Z;
  BatchRunnerDefaultRetryBatchFraction : float;
  MessagesRetryCount : Z;
  KafkaConsumerPartitionsAssigmentStrategy : string
}.

(** Functions and constants of the repository that the modelled files call and
    that are defined in other files (topic ids, timestamps, back-off). *)
Class Helpers : Type := {
  (** [MakeTopicId(destinationId, mode, tableName, checkLength) (string, error)] *)
  MakeTopicId : string -> string -> string -> bool -> string * option error;
  (** [ParseTopicId(topicId) (destinationId, mode, tableName, err)] *)
  ParseTopicId : string -> string * string * string * option error;
  retryTopicMode : string;
  deadTopicMode : string;
  allTablesToken : string;
  (** [timestamp.ParseISOFormat] and [timestamp.ToISOFormat] *)
  ParseISOFormat : string -> Instant * option error;
  ToISOFormat : Instant -> string;
  (** [RetryBackOffTime(config, attempt) time.Time] *)
  RetryBackOffTime : Config -> Z -> Instant
}.

(** [strconv.Atoi]: an optional sign followed by one or more decimal digits;
    [ErrSyntax] with value 0 otherwise, [ErrRange] with the nearest bound when
    the number does not fit 64 bits. *)
Definition Atoi (s : string) : Z * option error :=
  let '(neg, digits) :=
    match s with
    | String c rest =>
        if Ascii.eqb c "+" then (false, rest)
        else if Ascii.eqb c "-" then (true, rest)
        else (false, s)
    | EmptyString => (false, s)
    end in
  match NilZero.uint_of_string digits with
  | None => (0, Some ErrSyntax)
  | Some d =>
      let n := if neg then - Z.of_uint d else Z.of_uint d in
      if n <? int_min then (int_min, Some ErrRange)
      else if int_max <? n then (int_max, Some ErrRange)
      else (n, None)
  end.

(** [strconv.Itoa] *)
Definition Itoa (n : Z) : string := NilZero.string_of_int (Z.to_int n).

(** Modelled from the spec: [GetKafkaHeader] is defined outside the modelled
    files.  It returns the value of the header named [key] as a string, and the
    empty string when the message has none (the retry consumer tests
    [topic == ""] for a missing [original_topic]). *)
Fixpoint headerValue (headers : list kafka.Header.t) (key : string) : string :=
  match headers with
  | [] => ""
  | h :: rest =>
      if String.eqb (kafka.Header.Key h) key then kafka.Header.Value h
      else headerValue rest key
  end.

Definition GetKafkaHeader (message : kafka.Message.t) (key : string) : string :=
  headerValue (kafka.Message.Headers message) key.

(** Modelled from the spec: [GetKafkaIntHeader] is defined outside the modelled
    files.  The [retries] header is a decimal integer; a header that is not one
    is an error; a message without the header counts as 0 prior attempts (the
    first failure of a message is recorded with [retries=0]). *)
Definition GetKafkaIntHeader (message : kafka.Message.t) (name : string) : Z * option error :=
  let v := GetKafkaHeader message name in
  if String.eqb v "" then (0, None) else Atoi v.

Section WithHelpers.
Context `{Helpers}.

(** Modelled from the spec: [GetKafkaTimeHeader] is defined outside the modelled
    files.  [retry_time] is an ISO-8601 UTC timestamp; "unset" and "unparseable"
    are told apart: an unset header is the zero time, an unparseable one an error. *)
Definition GetKafkaTimeHeader (message : kafka.Message.t) (name : string)
  : Instant * option error :=
  let v := GetKafkaHeader message name in
  if String.eqb v "" then (0, None) else ParseISOFormat v.

End WithHelpers.

(** ** The world of one batch consumer

    The consumer's atomic flags, the broker as seen through the kafka consumer
    and the transactional producer, the destination repository, the outcomes
    that the environment will give to the fallible client calls, and the calls
    issued so far. *)

Inductive Call : Type :=
| CallQueryWatermarkOffsets (topic : string) (partition : Z)
| CallReadMessage
| CallSeekPartitions (positions : list kafka.TopicPartition.t)
| CallBeginTransaction
| CallProduce (message : kafka.Message.t)
| CallGetConsumerGroupMetadata
| CallSendOffsetsToTransaction (offsets : list kafka.TopicPartition.t)
| CallCommitTransaction
| CallAbortTransaction
| CallAssignment
| CallPause
| CallResume
| CallCloseConsumer
| CallLeaseDestination (id : string)
| CallRelease (id : string)
| CallCountersMetric (counters : BatchCounters)
| CallConsumerRuns (status : string).

(** How a call of [resume()] meets the pause loop. *)
Inductive ResumeOutcome : Type :=
| ResumeAssignmentFailed                      (* Assignment() returned an error *)
| ResumeAccepted (err : option kafka.Error.t) (* the token was taken; the result of Resume(partitions) *)
| ResumeTimeout.                              (* no receiver within 3 heartbeats *)

(** The outcomes the environment gives to the fallible calls, one entry per
    call and per kind of call, oldest first.  When a list is used up the call
    succeeds.  [SeekPartitions] and [AbortTransaction] have no entry: the
    sources discard their results. *)
Record Script : Type := mkScript {
  watermarks : list (Z * Z * option kafka.Error.t);
  readFaults : list (option kafka.Error.t);
  beginFaults : list (option kafka.Error.t);
  produceFaults : list (option kafka.Error.t);
  metadataFaults : list (option kafka.Error.t);
  sendOffsetsFaults : list (option kafka.Error.t);
  commitFaults : list (option kafka.Error.t);
  resumeOutcomes : list ResumeOutcome;
  (* time.Now(): the value of the n-th reading, in nanoseconds after the zero
     time (the wall clock never precedes it), and the number of readings so far *)
  clock : nat -> N;
  clockReads : nat
}.

(** A record of the source partition: key, value and headers; its offset is its
    index in the log. *)
Record Payload : Type := mkPayload {
  payloadKey : string;
  payloadValue : string;
  payloadHeaders : list kafka.Header.t
}.

(** Modelled from the spec: [Destination] is declared in repository.go; its id
    and its parsed stream options are what the batch consumer reads. *)
Record Destination : Type := mkDestination {
  destinationId_of : string;
  streamOptions : bulker.StreamOptions
}.

Record World : Type := mkWorld {
  (* AbstractBatchConsumer: retired, idle, paused (atomic.Bool) and the closed channel *)
  retired : bool;
  idle : bool;
  paused : bool;
  closed : bool;
  (* repository: the destination of this consumer, if configured, and its lease count *)
  repository : option Destination;
  leaseCount : Z;
  (* consumer side of the broker: partition 0 of the subscribed topic *)
  log : list Payload;
  position : Z;
  fetchPaused : bool;
  groupOffsets : list kafka.TopicPartition.t;
  (* transactional producer *)
  inTransaction : bool;
  txMessages : list kafka.Message.t;
  txOffsets : list kafka.TopicPartition.t;
  delivered : list kafka.Message.t;
  (* environment and trace *)
  script : Script;
  calls : list Call
}.

(** Field updates. *)
Definition with_flags (retired' idle' paused' closed' : bool) (w : World) : World :=
  mkWorld retired' idle' paused' closed' (repository w) (leaseCount w) (log w) (position w)
    (fetchPaused w) (groupOffsets w) (inTransaction w) (txMessages w) (txOffsets w)
    (delivered w) (script w) (calls w).

Definition with_leaseCount (n : Z) (w : World) : World :=
  mkWorld (retired w) (idle w) (paused w) (closed w) (repository w) n (log w) (position w)
    (fetchPaused w) (groupOffsets w) (inTransaction w) (txMessages w) (txOffsets w)
    (delivered w) (script w) (calls w).

Definition with_consumer (position' : Z) (fetchPaused' : bool) (w : World) : World :=
  mkWorld (retired w) (idle w) (paused w) (closed w) (repository w) (leaseCount w) (log w)
    position' fetchPaused' (groupOffsets w) (inTransaction w) (txMessages w) (txOffsets w)
    (delivered w) (script w) (calls w).

Definition with_producer (groupOffsets' : list kafka.TopicPartition.t) (inTransaction' : bool)
    (txMessages' : list kafka.Message.t) (txOffsets' : list kafka.TopicPartition.t)
    (delivered' : list kafka.Message.t) (w : World) : World :=
  mkWorld (retired w) (idle w) (paused w) (closed w) (repository w) (leaseCount w) (log w)
    (position w) (fetchPaused w) groupOffsets' inTransaction' txMessages' txOffsets'
    delivered' (script w) (calls w).

Definition with_script (s : Script) (w : World) : World :=
  mkWorld (retired w) (idle w) (paused w) (closed w) (repository w) (leaseCount w) (log w)
    (position w) (fetchPaused w) (groupOffsets w) (inTransaction w) (txMessages w)
    (txOffsets w) (delivered w) s (calls w).

Definition record_call (c : Call) (w : World) : World :=
  mkWorld (retired w) (idle w) (paused w) (closed w) (repository w) (leaseCount w) (log w)
    (position w) (fetchPaused w) (groupOffsets w) (inTransaction w) (txMessages w)
    (txOffsets w) (delivered w) (script w) (calls w ++ [c]).

(** The next scripted outcome of a kind of call. *)
Definition next_fault (l : list (option kafka.Error.t)) : option kafka.Error.t * list (option kafka.Error.t) :=
  match l with
  | [] => (None, [])
  | o :: rest => (o, rest)
  end.

Definition timedOut : kafka.Error.t := kafka.Error.mk kafka.ErrTimedOut true.

(** ** Client calls on the world *)

Section Client.
Variable topicId : string.

(** [consumer.QueryWatermarkOffsets(topic, partition, timeoutMs) (low, high, err)] *)
Definition QueryWatermarkOffsets (topic : string) (partition : Z) (w : World)
  : (Z * Z * option kafka.Error.t) * World :=
  let w := record_call (CallQueryWatermarkOffsets topic partition) w in
  let s := script w in
  match watermarks s with
  | [] => ((0, Z.of_nat (length (log w)), None), w)
  | o :: rest =>
      (o, with_script (mkScript rest (readFaults s) (beginFaults s) (produceFaults s)
                         (metadataFaults s) (sendOffsetsFaults s) (commitFaults s)
                         (resumeOutcomes s) (clock s) (clockReads s)) w)
  end.

(** The message at the consumer's position, if the log has one. *)
Definition fetch (w : World) : option kafka.Message.t :=
  if position w <? 0 then None
  else
    match log w !! Z.to_nat (position w) with
    | Some p =>
        Some (kafka.Message.mk (kafka.TopicPartition.mk topicId 0 (position w))
                (payloadValue p) (payloadKey p) (payloadHeaders p))
    | None => None
    end.

(** [consumer.ReadMessage(timeout)]: a scripted error, else the
    message at the position (which then advances), else [ErrTimedOut] when the
    partition is paused or has no further message. *)
Definition ReadMessage (w : World) : (kafka.Message.t + kafka.Error.t) * World :=
  let w := record_call CallReadMessage w in
  let s := script w in
  let '(fault, rest) := next_fault (readFaults s) in
  let w := with_script (mkScript (watermarks s) rest (beginFaults s) (produceFaults s)
                          (metadataFaults s) (sendOffsetsFaults s) (commitFaults s)
                          (resumeOutcomes s) (clock s) (clockReads s)) w in
  match fault with
  | Some e => (inr e, w)
  | None =>
      if fetchPaused w then (inr timedOut, w)
      else
        match fetch w with
        | Some m => (inl m, with_consumer (int_add (position w) 1) (fetchPaused w) w)
        | None => (inr timedOut, w)
        end
  end.

(** [consumer.SeekPartitions(positions)]: the fetch position moves to the offset
    given for the partition. *)
Definition SeekPartitions (positions : list kafka.TopicPartition.t) (w : World) : World :=
  let w := record_call (CallSeekPartitions positions) w in
  match positions with
  | tp :: _ => with_consumer (kafka.TopicPartition.Offset tp) (fetchPaused w) w
  | [] => w
  end.

(** [producer.BeginTransaction()] *)
Definition BeginTransaction (w : World) : option kafka.Error.t * World :=
  let w := record_call CallBeginTransaction w in
  let s := script w in
  let '(fault, rest) := next_fault (beginFaults s) in
  let w := with_script (mkScript (watermarks s) (readFaults s) rest (produceFaults s)
                          (metadataFaults s) (sendOffsetsFaults s) (commitFaults s)
                          (resumeOutcomes s) (clock s) (clockReads s)) w in
  match fault with
  | Some e => (Some e, w)
  | None => (None, with_producer (groupOffsets w) true [] [] (delivered w) w)
  end.

(** [producer.Produce(message, nil)]: inside a transaction the message stays
    invisible to [read_committed] readers until the commit. *)
Definition Produce (message : kafka.Message.t) (w : World) : option kafka.Error.t * World :=
  let w := record_call (CallProduce message) w in
  let s := script w in
  let '(fault, rest) := next_fault (produceFaults s) in
  let w := with_script (mkScript (watermarks s) (readFaults s) (beginFaults s) rest
                          (metadataFaults s) (sendOffsetsFaults s) (commitFaults s)
                          (resumeOutcomes s) (clock s) (clockReads s)) w in
  match fault with
  | Some e => (Some e, w)
  | None =>
      (None, with_producer (groupOffsets w) (inTransaction w) (txMessages w ++ [message])
               (txOffsets w) (delivered w) w)
  end.

(** [consumer.GetConsumerGroupMetadata()] *)
Definition GetConsumerGroupMetadata (w : World) : option kafka.Error.t * World :=
  let w := record_call CallGetConsumerGroupMetadata w in
  let s := script w in
  let '(fault, rest) := next_fault (metadataFaults s) in
  (fault, with_script (mkScript (watermarks s) (readFaults s) (beginFaults s) (produceFaults s)
                         rest (sendOffsetsFaults s) (commitFaults s)
                         (resumeOutcomes s) (clock s) (clockReads s)) w).

(** [producer.SendOffsetsToTransaction(ctx, offsets, groupMetadata)] *)
Definition SendOffsetsToTransaction (offsets : list kafka.TopicPartition.t) (w : World)
  : option kafka.Error.t * World :=
  let w := record_call (CallSendOffsetsToTransaction offsets) w in
  let s := script w in
  let '(fault, rest) := next_fault (sendOffsetsFaults s) in
  let w := with_script (mkScript (watermarks s) (readFaults s) (beginFaults s) (produceFaults s)
                          (metadataFaults s) rest (commitFaults s)
                          (resumeOutcomes s) (clock s) (clockReads s)) w in
  match fault with
  | Some e => (Some e, w)
  | None =>
      (None, with_producer (groupOffsets w) (inTransaction w) (txMessages w) offsets
               (delivered w) w)
  end.

(** [producer.CommitTransaction(ctx)]: the produced messages become visible and
    the offsets sent to the transaction become the group's committed offsets,
    atomically. *)
Definition CommitTransaction (w : World) : option kafka.Error.t * World :=
  let w := record_call CallCommitTransaction w in
  let s := script w in
  let '(fault, rest) := next_fault (commitFaults s) in
  let w := with_script (mkScript (watermarks s) (readFaults s) (beginFaults s) (produceFaults s)
                          (metadataFaults s) (sendOffsetsFaults s) rest
                          (resumeOutcomes s) (clock s) (clockReads s)) w in
  match fault with
  | Some e => (Some e, w)
  | None =>
      let committed := match txOffsets w with [] => groupOffsets w | offsets => offsets end in
      (None, with_producer committed false [] [] (delivered w ++ txMessages w) w)
  end.

(** [producer.AbortTransaction(ctx)]: the messages and offsets of the open
    transaction are discarded. *)
Definition AbortTransaction (w : World) : World :=
  let w := record_call CallAbortTransaction w in
  with_producer (groupOffsets w) false [] [] (delivered w) w.

(** [time.Now()] *)
Definition Now (w : World) : Instant * World :=
  let s := script w in
  (Z.of_N (clock s (clockReads s)),
   with_script (mkScript (watermarks s) (readFaults s) (beginFaults s) (produceFaults s)
                  (metadataFaults s) (sendOffsetsFaults s) (commitFaults s)
                  (resumeOutcomes s) (clock s) (S (clockReads s))) w).

End Client.

(** ** AbstractBatchConsumer and RetryConsumer *)

(** The fields of [AbstractBatchConsumer] that are set at construction; the
    atomic flags and the kafka clients are in the [World]. *)
Record AbstractBatchConsumer : Type := mkAbstractBatchConsumer {
  config : Config;
  destinationId : string;
  batchPeriodSec : Z;
  topicId : string;
  mode : string;
  tableName : string;
  waitForMessages : Z
}.

(** The results [(counters, nextBatch, err)] of a [BatchFunction]. *)
Definition BatchResult : Type := BatchCounters * bool * option error.

(** [type BatchFunction func(destination, batchNum, batchSize, retryBatchSize)] *)
Definition BatchFunction : Type :=
  Destination -> Z -> Z -> Z -> World -> BatchResult * World.

(** The variables of [processBatchImpl] that outlive one loop iteration: the
    locals [firstPosition], [lastPosition], [txOpened] and the named results. *)
Record Locals : Type := mkLocals {
  firstPosition : option kafka.TopicPartition.t;
  lastPosition : option kafka.TopicPartition.t;
  txOpened : bool;
  counters : BatchCounters;
  nextBatch : bool;
  err : option error
}.

Definition with_nextBatch (b : bool) (l : Locals) : Locals :=
  mkLocals (firstPosition l) (lastPosition l) (txOpened l) (counters l) b (err l).
Definition with_err (e : option error) (l : Locals) : Locals :=
  mkLocals (firstPosition l) (lastPosition l) (txOpened l) (counters l) (nextBatch l) e.
Definition with_counters (c : BatchCounters) (l : Locals) : Locals :=
  mkLocals (firstPosition l) (lastPosition l) (txOpened l) c (nextBatch l) (err l).
Definition with_lastPosition (p : kafka.TopicPartition.t) (l : Locals) : Locals :=
  mkLocals (firstPosition l) (Some p) (txOpened l) (counters l) (nextBatch l) (err l).
Definition with_firstPosition (p : kafka.TopicPartition.t) (l : Locals) : Locals :=
  mkLocals (Some p) (lastPosition l) (txOpened l) (counters l) (nextBatch l) (err l).
Definition with_txOpened (b : bool) (l : Locals) : Locals :=
  mkLocals (firstPosition l) (lastPosition l) b (counters l) (nextBatch l) (err l).

(** [c.consumed++], [c.skipped++], ... *)
Definition incr_consumed (c : BatchCounters) : BatchCounters :=
  mkBatchCounters (int_add (consumed c) 1) (skipped c) (processed c) (notReadyReadded c)
    (retryScheduled c) (deadLettered c) (failed c).
Definition incr_skipped (c : BatchCounters) : BatchCounters :=
  mkBatchCounters (consumed c) (int_add (skipped c) 1) (processed c) (notReadyReadded c)
    (retryScheduled c) (deadLettered c) (failed c).
Definition incr_notReadyReadded (c : BatchCounters) : BatchCounters :=
  mkBatchCounters (consumed c) (skipped c) (processed c) (int_add (notReadyReadded c) 1)
    (retryScheduled c) (deadLettered c) (failed c).
Definition incr_retryScheduled (c : BatchCounters) : BatchCounters :=
  mkBatchCounters (consumed c) (skipped c) (processed c) (notReadyReadded c)
    (int_add (retryScheduled c) 1) (deadLettered c) (failed c).
Definition incr_deadLettered (c : BatchCounters) : BatchCounters :=
  mkBatchCounters (consumed c) (skipped c) (processed c) (notReadyReadded c)
    (retryScheduled c) (int_add (deadLettered c) 1) (failed c).

(** How one iteration of the [for] loop ends: at its closing brace or a
    [continue], at a [break], or at a [return] with the given results. *)
Inductive Step : Type :=
| Next (l : Locals)
| Break (l : Locals)
| Return (l : Locals) (results : BatchResult).

(** The conversion of a [kafka.Error] to the [error] interface. *)
Definition as_error (e : option kafka.Error.t) : option error :=
  match e with
  | Some k => Some (ErrKafka (kafka.Error.IsRetriable k))
  | None => None
  end.

Section RetryConsumer.
Context `{Helpers}.
Variable rc : AbstractBatchConsumer.

(** [func (rc *RetryConsumer) isTimeToRetry(message *kafka.Message) bool] *)
Definition isTimeToRetry (message : kafka.Message.t) (w : World) : bool * World :=
  match GetKafkaTimeHeader message retryTimeHeader with
  | (_, Some _) => (true, w)
  | (retryTime, None) =>
      if IsZero retryTime then (true, w)
      else
        let '(now, w) := Now w in
        (if After now retryTime then true else false, w)
  end.

(** retry_consumer.go, lines 93-114: the message handed to [Produce] and the
    counter of the decision, for a message with an [original_topic] and a
    well-formed [retries] header. *)
Definition reclassify (message : kafka.Message.t) (originalTopic : string) (retries : Z)
    (w : World) : kafka.Message.t * BatchCounters * World :=
  let singleCount := zeroCounters in
  let topic := originalTopic in
  let headers : list kafka.Header.t := [] in
  let '(topic, headers, retries, singleCount, w) :=
    if MessagesRetryCount (config rc) <=? retries then
      (* no attempts left - send to dead-letter topic *)
      (fst (MakeTopicId (destinationId rc) deadTopicMode allTablesToken false),
       headers, retries, incr_deadLettered singleCount, w)
    else
      let '(ready, w) := isTimeToRetry message w in
      if negb ready then
        (* retry time is not yet come. requeueing message *)
        (topicId rc,
         headers ++ [kafka.Header.mk retryTimeHeader (GetKafkaHeader message retryTimeHeader)],
         retries, incr_notReadyReadded singleCount, w)
      else
        (topic, headers, int_add retries 1, incr_retryScheduled singleCount, w) in
  let headers := headers ++ [kafka.Header.mk originalTopicHeader originalTopic] in
  let headers := headers ++ [kafka.Header.mk retriesCountHeader (Itoa retries)] in
  (kafka.Message.mk (kafka.TopicPartition.mk topic kafka.PartitionAny 0)
     (kafka.Message.Value message) (kafka.Message.Key message) headers,
   singleCount, w).

(** retry_consumer.go, lines 78-118: the part of the loop body after the
    transaction has been opened. *)
Definition processMessage (message : kafka.Message.t) (l : Locals) (w : World) : Step * World :=
  let singleCount := zeroCounters in
  let originalTopic := GetKafkaHeader message originalTopicHeader in
  let topic := originalTopic in
  if String.eqb topic "" then
    let singleCount := incr_skipped singleCount in
    (* continue: [counters.accumulate(singleCount)] is not reached *)
    (Next l, w)
  else
    match GetKafkaIntHeader message retriesCountHeader with
    | (_, Some _) =>
        let singleCount := incr_skipped singleCount in
        (* continue: [counters.accumulate(singleCount)] is not reached *)
        (Next l, w)
    | (retries, None) =>
        let '(out, singleCount, w) := reclassify message originalTopic retries w in
        match Produce out w with
        | (Some _, w) => (Return l (counters l, false, Some ErrProduce), w)
        | (None, w) => (Next (with_counters (accumulate (counters l) singleCount) l), w)
        end
    end.

(** One iteration of the loop of [processBatchImpl] (lines 49-119). *)
Definition iteration (highOffset : Z) (l : Locals) (w : World) : Step * World :=
  if retired w then (Return l (counters l, nextBatch l, err l), w)
  else if match lastPosition l with
          | Some p => kafka.TopicPartition.Offset p =? int_sub highOffset 1
          | None => false
          end
  then (Break (with_nextBatch false l), w)
  else
    match ReadMessage (topicId rc) w with
    | (inr kafkaErr, w) =>
        match kafka.Error.Code kafkaErr with
        | kafka.ErrTimedOut => (Break (with_nextBatch false l), w)
        | _ => (Return l (zeroCounters, false,
                          Some (ErrConsume (kafka.Error.IsRetriable kafkaErr))), w)
        end
    | (inl message, w) =>
        let l := with_counters (incr_consumed (counters l)) l in
        let l := with_lastPosition (kafka.Message.TopicPartition message) l in
        if consumed (counters l) =? 1 then
          let l := with_firstPosition (kafka.Message.TopicPartition message) l in
          match BeginTransaction w with
          | (Some _, w) => (Return l (zeroCounters, false, Some ErrBeginTransaction), w)
          | (None, w) => processMessage message (with_txOpened true l) w
          end
        else processMessage message l w
    end.

(** [for i := 0; i < retryBatchSize; i++ { ... }] with [n] iterations left. *)
Fixpoint loop (highOffset : Z) (n : nat) (l : Locals) (w : World) : Step * World :=
  match n with
  | O => (Next l, w)
  | S n' =>
      match iteration highOffset l w with
      | (Next l', w') => loop highOffset n' l' w'
      | other => other
      end
  end.

(** The statements after the loop (lines 121-139). *)
Definition afterLoop (l : Locals) (w : World) : Locals * BatchResult * World :=
  if negb (txOpened l) then (l, (counters l, nextBatch l, err l), w)
  else
    let '(e, w) := GetConsumerGroupMetadata w in
    let l := with_err (as_error e) l in
    match e with
    | Some _ => (l, (zeroCounters, false, Some ErrGroupMetadata), w)
    | None =>
        match lastPosition l with
        | None => (l, (counters l, nextBatch l, Some ErrNilDereference), w)
        | Some p =>
            let offset :=
              kafka.TopicPartition.mk (kafka.TopicPartition.Topic p)
                (kafka.TopicPartition.Partition p)
                (int_add (kafka.TopicPartition.Offset p) 1) in
            let '(e, w) := SendOffsetsToTransaction [offset] w in
            let l := with_err (as_error e) l in
            match e with
            | Some _ => (l, (zeroCounters, false, Some ErrSendOffsets), w)
            | None =>
                let '(e, w) := CommitTransaction w in
                let l := with_err (as_error e) l in
                match e with
                | Some _ => (l, (zeroCounters, false, Some ErrCommit), w)
                | None => (l, (counters l, nextBatch l, err l), w)
                end
            end
        end
    end.

(** The deferred function of [processBatchImpl] (lines 33-44). *)
Definition cleanup (l : Locals) (results : BatchResult) (w : World) : BatchResult * World :=
  match results with
  | (c, _, Some e) =>
      let w := match firstPosition l with
               | Some p => SeekPartitions [p] w
               | None => w
               end in
      let w := if txOpened l then AbortTransaction w else w in
      ((c, false, Some e), w)
  | (_, _, None) => (results, w)
  end.

(** [func (rc *RetryConsumer) processBatchImpl(_ *Destination, _, _, retryBatchSize int)] *)
Definition processBatchImpl (retryBatchSize : Z) (w : World) : BatchResult * World :=
  let l := mkLocals None None false zeroCounters false None in
  let '((_, highOffset, e), w) := QueryWatermarkOffsets (topicId rc) 0 w in
  let l := with_err (as_error e) l in
  let l := with_nextBatch true l in
  let '(l, results, w) :=
    match loop highOffset (Z.to_nat retryBatchSize) l w with
    | (Return l results, w) => (l, results, w)
    | (Next l, w) | (Break l, w) => afterLoop l w
    end in
  cleanup l results w.

End RetryConsumer.

(** ** Conversions between [int] and [float64] *)

(** [float64(n)] for an [int] [n]: the nearest binary64 value. *)
Definition float64_of_int (n : Z) : float :=
  if n =? int_min then PrimFloat.opp (PrimFloat.mul (PrimFloat.of_uint63 (Uint63.of_Z (2 ^ 62))) 2%float)
  else if n <? 0 then PrimFloat.opp (PrimFloat.of_uint63 (Uint63.of_Z (- n)))
  else PrimFloat.of_uint63 (Uint63.of_Z n).

(** [int(f)] for a [float64] [f]: the fraction is discarded (truncation towards
    zero).  For a NaN, an infinity or a value outside the range of [int] Go
    leaves the result to the implementation; amd64 yields the least [int]. *)
Definition int_of_float64 (f : float) : Z :=
  match Prim2SF f with
  | S754_zero _ => 0
  | S754_finite s m e =>
      let magnitude := if 0 <=? e then Z.shiftl (Z.pos m) e else Z.shiftr (Z.pos m) (- e) in
      let n := if s then - magnitude else magnitude in
      if (int_min <=? n) && (n <=? int_max) then n else int_min
  | _ => int_min
  end.

(** ** AbstractBatchConsumer: ConsumeAll, pause, resume, Retire *)

Section BatchConsumer.
Context `{bulker.Utils}.
Variable bc : AbstractBatchConsumer.
Variable batchFunc : BatchFunction.

(** [func (bc *AbstractBatchConsumer) BatchPeriodSec() int] *)
Definition BatchPeriodSec : Z := batchPeriodSec bc.

(** [func (bc *AbstractBatchConsumer) UpdateBatchPeriod(batchPeriodSec int)] *)
Definition UpdateBatchPeriod (batchPeriodSec' : Z) : AbstractBatchConsumer :=
  mkAbstractBatchConsumer (config bc) (destinationId bc) batchPeriodSec' (topicId bc)
    (mode bc) (tableName bc) (waitForMessages bc).

(** [func (bc *AbstractBatchConsumer) TopicId() string] *)
Definition TopicId : string := topicId bc.

(** [func (bc *AbstractBatchConsumer) Retire()] *)
Definition Retire (w : World) : World :=
  with_flags true (idle w) (paused w) (closed w) w.

(** [func (bc *AbstractBatchConsumer) close() error] *)
Definition close (w : World) : World :=
  let w := with_flags (retired w) (idle w) (paused w) true w in
  record_call CallCloseConsumer w.

(** [func (bc *AbstractBatchConsumer) pauseKafkaConsumer()]: the assigned
    partition is paused. *)
Definition pauseKafkaConsumer (w : World) : World :=
  let w := record_call CallAssignment w in
  let w := record_call CallPause w in
  with_consumer (position w) true w.

(** [func (bc *AbstractBatchConsumer) pause()].  The heartbeat loop that the
    function starts runs beside the caller; what it does to the flags on a
    resume token is part of [resume]. *)
Definition pause (w : World) : World :=
  if idle w && retired w then close w
  else if paused w then w
  else
    let w := with_flags (retired w) (idle w) true (closed w) w in
    pauseKafkaConsumer w.

(** [func (bc *AbstractBatchConsumer) resume()] *)
Definition resume (w : World) : World :=
  if negb (paused w) then w
  else
    let w := record_call CallAssignment w in
    let s := script w in
    let '(outcome, rest) :=
      match resumeOutcomes s with
      | [] => (ResumeAccepted None, [])
      | o :: rest => (o, rest)
      end in
    let w := with_script (mkScript (watermarks s) (readFaults s) (beginFaults s)
                            (produceFaults s) (metadataFaults s) (sendOffsetsFaults s)
                            (commitFaults s) rest (clock s) (clockReads s)) w in
    match outcome with
    | ResumeAssignmentFailed => w
    | ResumeTimeout => w
    | ResumeAccepted e =>
        (* the pause loop took the token: bc.paused.Store(false) *)
        let w := with_flags (retired w) (idle w) false (closed w) w in
        let w := record_call CallResume w in
        match e with
        | Some _ => w
        | None => with_consumer (position w) false w
        end
    end.

(** [func (bc *AbstractBatchConsumer) processBatch(destination, batchNum, batchSize, retryBatchSize)] *)
Definition processBatch (destination : Destination) (batchNum batchSize retryBatchSize : Z)
    (w : World) : BatchResult * World :=
  let w := resume w in
  batchFunc destination batchNum batchSize retryBatchSize w.

(** Modelled from the spec: [Repository.LeaseDestination] and
    [Destination.Release] are defined in repository.go.  Lease and release
    increment and decrement the destination's reference count; leasing an
    unknown destination yields nil. *)
Definition LeaseDestination (id : string) (w : World) : option Destination * World :=
  let w := record_call (CallLeaseDestination id) w in
  match repository w with
  | Some d =>
      if String.eqb (destinationId_of d) id
      then (Some d, with_leaseCount (int_add (leaseCount w) 1) w)
      else (None, w)
  | None => (None, w)
  end.

Definition Release (d : Destination) (w : World) : World :=
  let w := record_call (CallRelease (destinationId_of d)) w in
  with_leaseCount (int_sub (leaseCount w) 1) w.

(** abstract_batch_consumer.go, lines 228-236: the batch sizes handed to the
    batch function. *)
Definition effectiveBatchSizes (streamOptions : bulker.StreamOptions) : Z * Z :=
  let maxBatchSize := bulker.Get bulker.BatchSizeOption streamOptions in
  let maxBatchSize :=
    if maxBatchSize <=? 0 then BatchRunnerDefaultBatchSize (config bc) else maxBatchSize in
  let retryBatchSize := bulker.Get bulker.RetryBatchSizeOption streamOptions in
  let retryBatchSize :=
    if retryBatchSize <=? 0
    then int_of_float64 (PrimFloat.mul (float64_of_int maxBatchSize)
                           (BatchRunnerDefaultRetryBatchFraction (config bc)))
    else retryBatchSize in
  (maxBatchSize, retryBatchSize).

(** The first deferred function of [ConsumeAll] (lines 197-218). *)
Definition consumeAllDeferred (results : BatchCounters * option error) (w : World)
  : (BatchCounters * option error) * World :=
  let w := with_flags (retired w) true (paused w) (closed w) w in
  let w := pause w in
  let w := record_call (CallCountersMetric (fst results)) w in
  let w := record_call (CallConsumerRuns (match snd results with
                                          | Some _ => "fail"
                                          | None => "success"
                                          end)) w in
  (results, w).

(** The [for] loop of [ConsumeAll] (lines 239-255); [None] when the loop has
    not returned within [fuel] iterations. *)
Fixpoint batchLoop (fuel : nat) (destination : Destination)
    (batchNumber maxBatchSize retryBatchSize : Z) (counters : BatchCounters) (w : World)
  : option ((BatchCounters * option error) * World) :=
  match fuel with
  | O => None
  | S fuel' =>
      if retired w then Some ((counters, None), w)
      else
        let '((batchStats, nextBatch, err2), w) :=
          processBatch destination batchNumber maxBatchSize retryBatchSize w in
        let counters := accumulate counters batchStats in
        if negb nextBatch then Some ((counters, err2), w)
        else batchLoop fuel' destination (int_add batchNumber 1) maxBatchSize retryBatchSize
               counters w
  end.

(** [func (bc *AbstractBatchConsumer) ConsumeAll() (counters BatchCounters, err error)].
    The mutex makes the call atomic with respect to other calls. *)
Definition ConsumeAll (fuel : nat) (w : World)
  : option ((BatchCounters * option error) * World) :=
  if retired w then Some ((zeroCounters, Some ErrConsumerRetired), w)
  else
    let w := with_flags (retired w) false (paused w) (closed w) w in
    match LeaseDestination (destinationId bc) w with
    | (None, w) =>
        let w := Retire w in
        Some (consumeAllDeferred
                (zeroCounters, Some (ErrDestinationNotFound (destinationId bc))) w)
    | (Some destination, w) =>
        let '(maxBatchSize, retryBatchSize) :=
          effectiveBatchSizes (streamOptions destination) in
        match batchLoop fuel destination 1 maxBatchSize retryBatchSize zeroCounters w with
        | None => None
        | Some (results, w) =>
            let w := Release destination w in
            Some (consumeAllDeferred results w)
        end
    end.

(** [func (bc *AbstractBatchConsumer) RunJob()] *)
Definition RunJob (fuel : nat) (w : World) : option World :=
  match ConsumeAll fuel w with
  | Some (_, w) => Some w
  | None => None
  end.

End BatchConsumer.

(** ** Construction of batch consumers *)

(** The results of the client calls made during construction. *)
Record ClientOutcomes : Type := mkClientOutcomes {
  newConsumer : option kafka.Error.t;
  getMetadata : kafka.Metadata.t * option kafka.Error.t;
  newProducer : option kafka.Error.t;
  initTransactions : option kafka.Error.t;
  subscribe : option kafka.Error.t
}.

(** What a failed construction leaves behind: the error metric it increments
    (by its error-type label) and the consumer it closes. *)
Inductive ConstructionEvent : Type :=
| EvConsumerErrors (errorType : string)
| EvCloseConsumer.

(** abstract_batch_consumer.go, lines 93-101: the loop over [metadata.Topics];
    [true] when it returns the partition-count error. *)
Fixpoint tooManyPartitions (topics : list (string * kafka.TopicMetadata.t)) (topicId : string)
  : bool :=
  match topics with
  | [] => false
  | (_, topic) :: rest =>
      if String.eqb (kafka.TopicMetadata.Topic topic) topicId
      then (1 <? length (kafka.TopicMetadata.Partitions topic))%nat
      else tooManyPartitions rest topicId
  end.

Section Construction.
Context `{Helpers}.

(** [func NewAbstractBatchConsumer(repository, destinationId, batchPeriodSec,
    topicId, mode, config, kafkaConfig) (..., error)].  [broker] is the world
    the new consumer is attached to; the contents of the client configuration
    maps are left out. *)
Definition NewAbstractBatchConsumer (outcomes : ClientOutcomes) (broker : World)
    (destinationId : string) (batchPeriodSec : Z) (topicId mode : string) (config : Config)
  : option (AbstractBatchConsumer * World) * option error * list ConstructionEvent :=
  let '(_, _, tableName, err) := ParseTopicId topicId in
  match err with
  | Some _ => (None, Some ErrParseTopic, [EvConsumerErrors "failed to parse topic"])
  | None =>
  match newConsumer outcomes with
  | Some _ => (None, Some ErrCreateConsumer, [EvConsumerErrors "kafka_error"])
  | None =>
  (* check topic partitions count *)
  match getMetadata outcomes with
  | (_, Some _) => (None, Some ErrConsumerMetadata, [EvConsumerErrors "kafka_error"])
  | (metadata, None) =>
  if tooManyPartitions (kafka.Metadata.Topics metadata) topicId
  then (None, Some ErrInvalidPartitionCount, [EvConsumerErrors "invalid_partitions_count"])
  else
  match newProducer outcomes with
  | Some _ => (None, Some ErrCreateProducer, [EvConsumerErrors "kafka_error"; EvCloseConsumer])
  | None =>
  match initTransactions outcomes with
  | Some _ => (None, Some ErrInitTransactions, [EvConsumerErrors "kafka_error"; EvCloseConsumer])
  | None =>
      let bc :=
        mkAbstractBatchConsumer config destinationId batchPeriodSec topicId mode tableName
          (wrap (BatchRunnerWaitForMessagesSec config * 1000000000)) in
      (* bc.idle.Store(true); retired and paused have their zero value *)
      let w := with_flags false true false false broker in
      match subscribe outcomes with
      | Some _ => (None, Some ErrSubscribe, [EvConsumerErrors "kafka_error"; EvCloseConsumer])
      | None => (Some (bc, w), None, [])
      end
  end end end end end.

(** [func NewRetryConsumer(...)]: the base consumer with
    [batchFunc = processBatchImpl], paused. *)
Definition NewRetryConsumer (outcomes : ClientOutcomes) (broker : World)
    (destinationId : string) (batchPeriodSec : Z) (topicId : string) (config : Config)
  : option (AbstractBatchConsumer * World) * option error * list ConstructionEvent :=
  match NewAbstractBatchConsumer outcomes broker destinationId batchPeriodSec topicId "retry"
          config with
  | (Some (base, w), None, events) => (Some (base, pause w), None, events)
  | (_, err, events) => (None, err, events)
  end.

End Construction.

(** ** StreamConsumer: the failure path of the message loop *)

Module StreamConsumer.

(** The fields of [StreamConsumer] that the failure path reads;
    [destinationId] is [sc.destination.Id()]. *)
Record t : Type := mk {
  config : Config;
  topicId : string;
  tableName : string;
  destinationId : string
}.

Section FailurePath.
Context `{Helpers}.
Variable sc : t.

(** [StreamConsumer.start], the block [if err != nil { ... }] at the end of a
    loop iteration, up to the call of [ProduceSync]: the topic, the message and
    the status label. *)
Definition retryMessage (message : kafka.Message.t) : string * kafka.Message.t * string :=
  let failedTopic := fst (MakeTopicId (destinationId sc) retryTopicMode allTablesToken false) in
  let '(retries, _) := GetKafkaIntHeader message retriesCountHeader in
  let status := "retryScheduled" in
  let '(status, failedTopic) :=
    if MessagesRetryCount (config sc) <=? retries then
      (* no attempts left - send to dead-letter topic *)
      ("deadLettered", fst (MakeTopicId (destinationId sc) deadTopicMode allTablesToken false))
    else (status, failedTopic) in
  (failedTopic,
   kafka.Message.mk (kafka.TopicPartition.mk failedTopic kafka.PartitionAny 0)
     (kafka.Message.Value message) (kafka.Message.Key message)
     [kafka.Header.mk retriesCountHeader (Itoa retries);
      kafka.Header.mk originalTopicHeader (topicId sc);
      kafka.Header.mk retryTimeHeader
        (ToISOFormat (RetryBackOffTime (config sc) (int_add retries 1)))],
   status).

(** The same block with the call [sc.bulkerProducer.ProduceSync(failedTopic,
    retryMessage)], whose result is [produceSync]: the message offered to the
    producer and the labels of the [ConsumerMessages] metrics incremented. *)
Definition failurePath (produceSync : string -> kafka.Message.t -> option error)
    (message : kafka.Message.t) : (string * kafka.Message.t) * list string :=
  let '(failedTopic, retry, status) := retryMessage message in
  match produceSync failedTopic retry with
  | Some _ => ((failedTopic, retry), ["LOST"])
  | None => ((failedTopic, retry), ["failed"; status])
  end.

End FailurePath.
End StreamConsumer.

(** ** Sample inputs

    Concrete helpers, configuration and worlds on which the model is run in the
    examples below.  The sample helpers stand for the functions defined outside
    the modelled files: topic ids are written [in.id.<destination>.m.<mode>.t.<table>],
    and the sample timestamp parser knows two instants. *)

Definition instant_2024 : Instant := 738885 * 86400 * 1000000000.
Definition instant_2030 : Instant := 741077 * 86400 * 1000000000.

Definition sampleHelpers : Helpers :=
  {| MakeTopicId := fun destinationId mode tableName _ =>
       ("in.id." +:+ destinationId +:+ ".m." +:+ mode +:+ ".t." +:+ tableName, None);
     ParseTopicId := fun topicId => ("dst", "retry", "_all_", None);
     retryTopicMode := "retry";
     deadTopicMode := "dead";
     allTablesToken := "_all_";
     ParseISOFormat := fun s =>
       if String.eqb s "2024-01-01T00:00:00.000000Z" then (instant_2024, None)
       else if String.eqb s "2030-01-01T00:00:00.000000Z" then (instant_2030, None)
       else (0, Some (ErrExternal "parsing time"));
     ToISOFormat := fun t =>
       if t =? instant_2024 then "2024-01-01T00:00:00.000000Z"
       else "2030-01-01T00:00:00.000000Z";
     RetryBackOffTime := fun _ _ => instant_2030 |}.

Definition sampleConfig : Config :=
  {| InstanceId := "bulker-1";
     BatchRunnerWaitForMessagesSec := 5;
     BatchRunnerDefaultBatchSize := 1000;
     BatchRunnerDefaultRetryBatchFraction := 0.25%float;
     MessagesRetryCount := 5;
     KafkaConsumerPartitionsAssigmentStrategy := "cooperative-sticky" |}.

Definition sampleRetryTopic : string := "in.id.dst.m.retry.t._all_".
Definition sampleDeadTopic : string := "in.id.dst.m.dead.t._all_".

Definition sampleConsumer : AbstractBatchConsumer :=
  {| config := sampleConfig;
     destinationId := "dst";
     batchPeriodSec := 300;
     topicId := sampleRetryTopic;
     mode := "retry";
     tableName := "_all_";
     waitForMessages := 5000000000 |}.

(** A script without faults, with the clock fixed at a day in 2025. *)
Definition instant_2025 : Instant := 739300 * 86400 * 1000000000.

Definition quietScript : Script :=
  mkScript [] [] [] [] [] [] [] [] (fun _ => Z.to_N instant_2025) 0.

Definition sampleDestination : Destination :=
  {| destinationId_of := "dst";
     streamOptions := bulker.mkStreamOptions None [] |}.

(** A world whose source partition holds [log], with an idle, running consumer
    at offset 0. *)
Definition sampleWorld (log : list Payload) (script : Script) : World :=
  {| retired := false; idle := true; paused := false; closed := false;
     repository := Some sampleDestination; leaseCount := 0;
     log := log; position := 0; fetchPaused := false; groupOffsets := [];
     inTransaction := false; txMessages := []; txOffsets := []; delivered := [];
     script := script; calls := [] |}.

(** Retry-topic records: one ready for redelivery, one without
    [original_topic], one whose [retries] is not a number, one out of attempts
    (with a deadline in the future), and one whose deadline is in the future. *)
Definition readyRecord : Payload :=
  mkPayload "k1" "{}" [kafka.Header.mk "original_topic" "in.id.dst.m.batch.t.events";
                       kafka.Header.mk "retries" "1";
                       kafka.Header.mk "retry_time" "2024-01-01T00:00:00.000000Z"].
Definition noTopicRecord : Payload :=
  mkPayload "k2" "{}" [kafka.Header.mk "retries" "5"].
Definition badRetriesRecord : Payload :=
  mkPayload "k3" "{}" [kafka.Header.mk "original_topic" "in.id.dst.m.batch.t.events";
                       kafka.Header.mk "retries" "many"].
Definition exhaustedRecord : Payload :=
  mkPayload "k4" "{}" [kafka.Header.mk "original_topic" "in.id.dst.m.batch.t.events";
                       kafka.Header.mk "retries" "5";
                       kafka.Header.mk "retry_time" "2030-01-01T00:00:00.000000Z"].
Definition notReadyRecord : Payload :=
  mkPayload "k5" "{}" [kafka.Header.mk "original_topic" "in.id.dst.m.batch.t.events";
                       kafka.Header.mk "retries" "2";
                       kafka.Header.mk "retry_time" "2030-01-01T00:00:00.000000Z"].

(** The message that [ReadMessage] builds from a record at an offset. *)
Definition messageAt (topicId : string) (offset : Z) (p : Payload) : kafka.Message.t :=
  kafka.Message.mk (kafka.TopicPartition.mk topicId 0 offset)
    (payloadValue p) (payloadKey p) (payloadHeaders p).

(** Client outcomes of a construction in which every call succeeds and the
    metadata lists the sample retry topic with the given partitions. *)
Definition outcomesWithPartitions (partitions : list Z) : ClientOutcomes :=
  {| newConsumer := None;
     getMetadata :=
       (kafka.Metadata.mk
          [(sampleRetryTopic, kafka.TopicMetadata.mk sampleRetryTopic partitions)], None);
     newProducer := None;
     initTransactions := None;
     subscribe := None |}.

(** ** Predicates on the state of a retry batch

    Used to state what a batch leaves behind; [w0] is the world in which the
    batch begins to read. *)

(** The messages handed to [Produce], in the order of the calls. *)
Fixpoint produced (calls : list Call) : list kafka.Message.t :=
  match calls with
  | [] => []
  | CallProduce message :: rest => message :: produced rest
  | _ :: rest => produced rest
  end.

(** What a client call other than a commit leaves untouched: the [retired]
    flag, the source partition, the committed offsets of the group and the
    messages visible downstream. *)
Definition same_committed (w w' : World) : Prop :=
  retired w' = retired w /\ log w' = log w /\
  delivered w' = delivered w /\ groupOffsets w' = groupOffsets w.

(** A call that also leaves the position, the open transaction and the list of
    produced messages as they are. *)
Definition same_transaction (w w' : World) : Prop :=
  same_committed w w' /\ position w' = position w /\
  inTransaction w' = inTransaction w /\ txMessages w' = txMessages w /\
  produced (calls w') = produced (calls w).







(** ** The messages of the retry contract

    Following the spec's words (section 4.4): a message out of attempts goes to
    the dead-letter topic of the destination, and a message whose retry time has
    not come goes back to the retry topic with its [retry_time]; both carry
    [original_topic] and the unchanged [retries]. *)

Section RetryContract.
Context `{Helpers}.
Variable rc : AbstractBatchConsumer.

Definition deadLetterTopic : string :=
  fst (MakeTopicId (destinationId rc) deadTopicMode allTablesToken false).

Definition deadLetterMessage (message : kafka.Message.t) (retries : Z) : kafka.Message.t :=
  kafka.Message.mk
    (kafka.TopicPartition.mk deadLetterTopic kafka.PartitionAny 0)
    (kafka.Message.Value message) (kafka.Message.Key message)
    [kafka.Header.mk originalTopicHeader (GetKafkaHeader message originalTopicHeader);
     kafka.Header.mk retriesCountHeader (Itoa retries)].

Definition requeuedMessage (message : kafka.Message.t) (retries : Z) : kafka.Message.t :=
  kafka.Message.mk
    (kafka.TopicPartition.mk (topicId rc) kafka.PartitionAny 0)
    (kafka.Message.Value message) (kafka.Message.Key message)
    [kafka.Header.mk retryTimeHeader (GetKafkaHeader message retryTimeHeader);
     kafka.Header.mk originalTopicHeader (GetKafkaHeader message originalTopicHeader);
     kafka.Header.mk retriesCountHeader (Itoa retries)].

End RetryContract.

(** The stream consumer of the sample destination, reading its batch topic. *)
Definition sampleStreamConsumer : StreamConsumer.t :=
  StreamConsumer.mk sampleConfig "in.id.dst.m.batch.t.events" "events" "dst".

(** A script in which the third call of [Produce] fails. *)
Definition thirdProduceFails : Script :=
  mkScript [] [] [] [None; None; Some (kafka.Error.mk kafka.ErrOther false)] [] [] [] []
    (fun _ => Z.to_N instant_2025) 0.

(** A script in which the first call of [Produce] fails. *)
Definition firstProduceFails : Script :=
  mkScript [] [] [] [Some (kafka.Error.mk kafka.ErrOther false)] [] [] [] []
    (fun _ => Z.to_N instant_2025) 0.

(** The locals of [processBatchImpl] when the loop starts. *)
Definition initialLocals : Locals := mkLocals None None false zeroCounters true None.

(** A retry-topic record without [original_topic] whose deadline is in the future. *)
Definition orphanRecord : Payload :=
  mkPayload "k6" "{}" [kafka.Header.mk "retries" "1";
                       kafka.Header.mk "retry_time" "2030-01-01T00:00:00.000000Z"].

(** ** Replaying stream options *)

(** The values map of a [StreamOptions] to which the options of [options] are
    applied in order, starting from the zero value: what [CreateStream] builds
    from the [Options] slice that it is passed. *)
Definition replay (options : list bulker.StreamOption) : option (gmap string bulker.any) :=
  fold_left (fun values option => option values) options None.

(** The [StreamOptions] values that a program obtains from the zero value by
    calls of [Add]. *)
Inductive built : bulker.StreamOptions -> Prop :=
| built_zero : built (bulker.mkStreamOptions None [])
| built_Add so option : built so -> built (bulker.Add so option).

(** ** The log line and the metric of the counters *)

(** The fields of [BatchCounters] with their names, in the order of the
    declaration, as [reflect] lists them. *)
Definition counterFields (c : BatchCounters) : list (string * Z) :=
  [("consumed", consumed c); ("skipped", skipped c); ("processed", processed c);
   ("notReadyReadded", notReadyReadded c); ("retryScheduled", retryScheduled c);
   ("deadLettered", deadLettered c); ("failed", failed c)]%string.

(** [func (bs *BatchCounters) String() string]: [fmt.Sprintf("%s: %d ", name, value)]
    for every field with a positive value. *)
Definition BatchCounters_String (bs : BatchCounters) : string :=
  fold_left (fun sb field =>
               if 0 <? snd field
               then (sb +:+ fst field +:+ ": " +:+ Itoa (snd field) +:+ " ")%string
               else sb)
    (counterFields bs) ""%string.

(** [func (bc *AbstractBatchConsumer) countersMetric(counters BatchCounters)]:
    the [ConsumerMessages] counters that are incremented, by their label, with
    the amounts added. *)
Definition countersMetric (counters : BatchCounters) : list (string * float) :=
  omap (fun field =>
          if 0 <? snd field then Some (fst field, float64_of_int (snd field)) else None)
    (counterFields counters).

(** ** The retry consumer as a batch consumer *)

(** The batch function of a retry consumer: [NewRetryConsumer] sets
    [rc.batchFunc = rc.processBatchImpl], which ignores its first three
    arguments. *)
Definition retryBatchFunc `{Helpers} (rc : AbstractBatchConsumer) : BatchFunction :=
  fun _ _ _ retryBatchSize => processBatchImpl rc retryBatchSize.

(** ** Predicates on the accounting of a retry batch *)

(** What no client call of a batch changes: the flags of the consumer, its
    repository and lease, the pause of the partition and the source log. *)
Definition same_consumer (w w' : World) : Prop :=
  retired w' = retired w /\ idle w' = idle w /\ paused w' = paused w /\
  closed w' = closed w /\ repository w' = repository w /\
  leaseCount w' = leaseCount w /\ fetchPaused w' = fetchPaused w /\ log w' = log w.

(** Counters in which the three decisions of the retry consumer add up to [n],
    the number of messages handed over to the producer, and nothing else is
    counted. *)
Definition tallied (c : BatchCounters) (n : Z) : Prop :=
  skipped c = 0 /\ processed c = 0 /\ failed c = 0 /\
  0 <= deadLettered c /\ 0 <= notReadyReadded c /\ 0 <= retryScheduled c /\
  deadLettered c + notReadyReadded c + retryScheduled c = n.

(** Counters of a batch of at most [bound] messages. *)
Definition bounded (bound : Z) (c : BatchCounters) : Prop :=
  exists n, tallied c n /\ n <= consumed c /\ 0 <= consumed c <= bound.

(** After [i] iterations that have ended at the closing brace or a [continue]:
    [i] messages are consumed, and the decisions counted are the messages of
    the open transaction. *)
Definition tally_inv (w0 : World) (i : nat) (l : Locals) (w : World) : Prop :=
  same_committed w0 w /\ same_consumer w0 w /\
  consumed (counters l) = Z.of_nat i /\
  (retired w0 = true -> i = 0%nat) /\
  (txOpened l = false -> counters l = zeroCounters) /\
  (txOpened l = true ->
   0 < consumed (counters l) /\
   tallied (counters l) (Z.of_nat (length (txMessages w))) /\
   Z.of_nat (length (txMessages w)) <= consumed (counters l)).

(** At a [return] from the loop of a batch of at most [bound] messages. *)
Definition tally_return (w0 : World) (bound : Z) (results : BatchResult) (w : World) : Prop :=
  bounded bound (fst (fst results)) /\ same_committed w0 w /\ same_consumer w0 w /\
  (snd results = None -> fst (fst results) = zeroCounters) /\
  (retired w0 = false -> snd (fst results) = false /\ is_Some (snd results)).

Definition tally_post (w0 : World) (i : nat) (nb : bool) (result : Step * World) : Prop :=
  match result with
  | (Next l, w) => tally_inv w0 (S i) l w /\ nextBatch l = nb /\ retired w0 = false
  | (Break l, w) => tally_inv w0 i l w /\ nextBatch l = false
  | (Return l results, w) => tally_return w0 (Z.of_nat (S i)) results w
  end.

(** ** Further sample inputs *)

(** A world like [sampleWorld] whose repository holds [destination], if any. *)
Definition worldWith (destination : option Destination) (log : list Payload) (script : Script)
  : World :=
  {| retired := false; idle := true; paused := false; closed := false;
     repository := destination; leaseCount := 0;
     log := log; position := 0; fetchPaused := false; groupOffsets := [];
     inTransaction := false; txMessages := []; txOffsets := []; delivered := [];
     script := script; calls := [] |}.

(** The sample destination with [batchSize = 3]: with the default fraction of
    0.25 its retry batch size is [int(0.75) = 0]. *)
Definition smallBatchDestination : Destination :=
  {| destinationId_of := "dst";
     streamOptions :=
       bulker.Set_ (bulker.BatchSizeOption (H := bulker.sampleUtils))
         (bulker.mkStreamOptions None []) 3 |}.

(** A script without faults whose clock stands just after the second instant
    that the sample timestamp parser knows. *)
Definition lateScript : Script :=
  mkScript [] [] [] [] [] [] [] [] (fun _ => Z.to_N (instant_2030 + 1)) 0.

(** A message of the batch topic of the sample destination that has not failed
    before. *)
Definition freshMessage : kafka.Message.t :=
  kafka.Message.mk (kafka.TopicPartition.mk "in.id.dst.m.batch.t.events" 0 7) "{}" "k9" [].

(** ** A run without faults *)

(** A script in which every call succeeds: no outcome is scripted for any kind
    of call. *)
Definition quiet (s : Script) : Prop :=
  watermarks s = [] /\ readFaults s = [] /\ beginFaults s = [] /\ produceFaults s = [] /\
  metadataFaults s = [] /\ sendOffsetsFaults s = [] /\ commitFaults s = [] /\
  resumeOutcomes s = [].

(** A batch without faults that started in [w0], after [i] messages, with
    [nextBatch = nb]: the consumer stands [i] records further, the last position
    is that of the [i]-th message, and the transaction is open as soon as a
    message is read. *)
Definition quiet_inv (rc : AbstractBatchConsumer) (w0 : World) (nb : bool) (i : nat)
    (l : Locals) (w : World) : Prop :=
  same_consumer w0 w /\ quiet (script w) /\
  position w = position w0 + Z.of_nat i /\
  consumed (counters l) = Z.of_nat i /\ nextBatch l = nb /\ err l = None /\
  (i = 0%nat -> lastPosition l = None /\ txOpened l = false) /\
  (i <> 0%nat ->
   lastPosition l
   = Some (kafka.TopicPartition.mk (topicId rc) 0 (position w0 + Z.of_nat i - 1)) /\
   txOpened l = true).

(** * Properties *)

(** ** 64-bit arithmetic *)

Lemma wrap_id (z : Z) : is_int z -> wrap z = z.
Proof.
  unfold is_int, int_min, int_max, wrap. intros Hz.
  rewrite Z.mod_small; lia.
Qed.

Lemma wrap_is_int (z : Z) : is_int (wrap z).
Proof.
  unfold is_int, int_min, int_max, wrap.
  pose proof (Z.mod_pos_bound (z + 2 ^ 63) (2 ^ 64) ltac:(lia)). lia.
Qed.

Lemma int_add_small (a b : Z) : is_int (a + b) -> int_add a b = a + b.
Proof. apply wrap_id. Qed.

Lemma int_add_0_r (a : Z) : is_int a -> int_add a 0 = a.
Proof. intros Ha. unfold int_add. rewrite Z.add_0_r. by apply wrap_id. Qed.

(** ** BatchCounters *)

(** C2 (the code departs from the claim): [accumulate] adds six of the seven
    counters; the [failed] counter of the argument is dropped.  Evaluated at a
    receiver of zeros and an argument whose every field is 1: the first six
    fields become 1, [failed] stays 0. *)
Lemma accumulate_drops_failed :
  accumulate zeroCounters (mkBatchCounters 1 1 1 1 1 1 1)
  = mkBatchCounters 1 1 1 1 1 1 0.
Proof. reflexivity. Qed.

(** The six counters that [accumulate] covers are added (modulo 2^64), and
    [failed] keeps the receiver's value, for all pairs of counters. *)
Lemma accumulate_fields (bs batchStats : BatchCounters) :
  consumed (accumulate bs batchStats) = int_add (consumed bs) (consumed batchStats) /\
  skipped (accumulate bs batchStats) = int_add (skipped bs) (skipped batchStats) /\
  processed (accumulate bs batchStats) = int_add (processed bs) (processed batchStats) /\
  notReadyReadded (accumulate bs batchStats)
    = int_add (notReadyReadded bs) (notReadyReadded batchStats) /\
  retryScheduled (accumulate bs batchStats)
    = int_add (retryScheduled bs) (retryScheduled batchStats) /\
  deadLettered (accumulate bs batchStats)
    = int_add (deadLettered bs) (deadLettered batchStats) /\
  failed (accumulate bs batchStats) = failed bs.
Proof. repeat split. Qed.

(** ** Stream options *)

Section OptionProperties.
Context {utils : bulker.Utils}.

(** Reading an option back after [Set]. *)
Lemma Get_values_Set_values {V} (io : bulker.OptionKey V) values (value : V) :
  (forall v, bulker.assert_type io (bulker.to_any io v) = Some v) ->
  bulker.Get_values io (bulker.Set_values io values value) = value.
Proof.
  intros Hbox. unfold bulker.Get_values, bulker.Set_values.
  destruct values as [m|].
  - by rewrite lookup_insert_eq, Hbox.
  - by rewrite lookup_singleton_eq, Hbox.
Qed.

(** [Set] under one key does not change what [Get] reads under another. *)
Lemma Get_values_Set_values_ne {V W} (io : bulker.OptionKey V) (io' : bulker.OptionKey W)
    values (value : W) :
  bulker.Key io <> bulker.Key io' ->
  bulker.Get_values io (bulker.Set_values io' values value) = bulker.Get_values io values.
Proof.
  intros Hne. unfold bulker.Get_values, bulker.Set_values.
  destruct values as [m|].
  - by rewrite lookup_insert_ne.
  - by rewrite lookup_singleton_ne.
Qed.

(** The registry maps ["mode"] and ["primaryKey"] to the [Parse] method of
    their options. *)
Lemma ParseOption_mode serialized :
  bulker.ParseOption "mode" serialized = bulker.Parse bulker.ModeOption serialized.
Proof. reflexivity. Qed.

Lemma ParseOption_primaryKey serialized :
  bulker.ParseOption "primaryKey" serialized
  = bulker.parsePrimaryKey bulker.primaryKeyKey serialized.
Proof. reflexivity. Qed.

(** C3 (amended): for a string other than "stream" and "batch" the parse
    function of the mode option returns the value [Unknown] together with the
    error "unknown mode", so parsing the option fails with a parse error and
    yields no mutator; for an input that is not a string it returns [Unknown]
    with the error "invalid value type", and parsing fails likewise. *)
Theorem mode_parse_unrecognized (v : string) (serialized : bulker.any) :
  (v <> "stream"%string -> v <> "batch"%string ->
     bulker.parseMode (bulker.any_string v) = (bulker.Unknown, Some (ErrUnknownMode v)) /\
     bulker.ParseOption "mode" (bulker.any_string v)
     = (None, Some (ErrFailedToParseOption "mode" (ErrUnknownMode v)))) /\
  ((forall s, serialized <> bulker.any_string s) ->
     bulker.parseMode serialized = (bulker.Unknown, Some ErrInvalidModeType) /\
     bulker.ParseOption "mode" serialized
     = (None, Some (ErrFailedToParseOption "mode" ErrInvalidModeType))).
Proof.
  split.
  - intros Hs Hb. rewrite ParseOption_mode. unfold bulker.Parse. simpl.
    destruct (String.eqb_spec v "stream") as [->|_]; [done|].
    destruct (String.eqb_spec v "batch") as [->|_]; [done|]. done.
  - intros Hns. rewrite ParseOption_mode. unfold bulker.Parse. simpl.
    destruct serialized; try done. by destruct (Hns s).
Qed.

Lemma primaryKey_assert (s : gset string) :
  bulker.assert_type bulker.primaryKeyKey (bulker.to_any bulker.primaryKeyKey s) = Some s.
Proof. reflexivity. Qed.

(** What [withPrimaryKey] does to the primary key read by [Get]: the fields are
    added to the set. *)
Lemma withPrimaryKey_Get (pkFields : list string) values :
  bulker.Get_values bulker.primaryKeyKey
    (bulker.withPrimaryKey bulker.primaryKeyKey pkFields values)
  = bulker.Get_values bulker.primaryKeyKey values ∪ list_to_set pkFields.
Proof.
  unfold bulker.withPrimaryKey.
  destruct (decide _) as [Hz|Hnz]; rewrite Get_values_Set_values by apply primaryKey_assert.
  - apply size_empty_iff, leibniz_equiv in Hz. rewrite Hz. unfold bulker.NewSet. set_solver.
  - reflexivity.
Qed.

(** C7: the mutator parsed from ["a","b"] followed by the mutator parsed from
    "c" adds a, b and c to the primary key of the same StreamOptions, which on
    a StreamOptions without a primary key is the set {a,b,c}; the empty string
    parses to a mutator that leaves the values unchanged; every input that is
    neither a string nor a slice of strings is rejected. *)
Theorem primaryKey_accumulation :
  exists ab c e : bulker.StreamOption,
    bulker.ParseOption "primaryKey" (bulker.any_strings ["a"; "b"]%string) = (Some ab, None) /\
    bulker.ParseOption "primaryKey" (bulker.any_string "c") = (Some c, None) /\
    bulker.ParseOption "primaryKey" (bulker.any_string "") = (Some e, None) /\
    (forall so,
       bulker.Get bulker.PrimaryKeyOption (bulker.Add (bulker.Add so ab) c)
       = bulker.Get bulker.PrimaryKeyOption so ∪ {["a"; "b"; "c"]}%string) /\
    bulker.Get bulker.PrimaryKeyOption
      (bulker.Add (bulker.Add (bulker.mkStreamOptions None []) ab) c)
    = ({["a"; "b"; "c"]}%string : gset string) /\
    (forall so, bulker.valuesMap (bulker.Add so e) = bulker.valuesMap so) /\
    (forall serialized,
       match serialized with
       | bulker.any_string _ | bulker.any_strings _ => True
       | _ => bulker.ParseOption "primaryKey" serialized = (None, Some ErrPrimaryKeyType)
       end).
Proof.
  eexists _, _, _. rewrite !ParseOption_primaryKey. simpl.
  split; [reflexivity|]. split; [reflexivity|]. split; [reflexivity|].
  assert (Hgen : forall so,
            bulker.Get bulker.PrimaryKeyOption
              (bulker.Add (bulker.Add so (bulker.withPrimaryKey bulker.primaryKeyKey ["a"; "b"]%string))
                 (bulker.withPrimaryKey bulker.primaryKeyKey ["c"]%string))
            = bulker.Get bulker.PrimaryKeyOption so ∪ {["a"; "b"; "c"]}%string).
  { intros so. unfold bulker.Get, bulker.Add, bulker.apply. simpl.
    rewrite !withPrimaryKey_Get. simpl. set_solver. }
  split; [exact Hgen|]. split.
  - rewrite Hgen. unfold bulker.Get, bulker.Get_values. simpl. set_solver.
  - split; [reflexivity|]. intros serialized. rewrite ParseOption_primaryKey.
    by destruct serialized.
Qed.

End OptionProperties.

(** ** Effective batch sizes *)

Section BatchSizeProperties.
Context {utils : bulker.Utils}.
Variable bc : AbstractBatchConsumer.

(** C1 (amended): [maxBatchSize] is the [batchSize] option when that is
    positive and [BatchRunnerDefaultBatchSize] otherwise; [retryBatchSize] is
    the [retryBatchSize] option when that is positive and otherwise
    [int(float64(maxBatchSize) * BatchRunnerDefaultRetryBatchFraction)], the
    float64 product truncated towards zero.  This holds for the values read
    from any stream options, and options in which the two values have been set
    carry exactly those values.  The first component is the maximum of option
    and default exactly when the option is positive and at least the default,
    or non-positive and at most the default. *)
Theorem effectiveBatchSizes_guarded (so : bulker.StreamOptions) (batchSize retryBatchSize : Z) :
  let resolved (b r : Z) :=
    let maxBatchSize := if 0 <? b then b else BatchRunnerDefaultBatchSize (config bc) in
    (maxBatchSize,
     if 0 <? r then r
     else int_of_float64 (PrimFloat.mul (float64_of_int maxBatchSize)
                            (BatchRunnerDefaultRetryBatchFraction (config bc)))) in
  let so' :=
    bulker.Set_ bulker.RetryBatchSizeOption
      (bulker.Set_ bulker.BatchSizeOption so batchSize) retryBatchSize in
  effectiveBatchSizes bc so
  = resolved (bulker.Get bulker.BatchSizeOption so) (bulker.Get bulker.RetryBatchSizeOption so)
  /\ bulker.Get bulker.BatchSizeOption so' = batchSize
  /\ bulker.Get bulker.RetryBatchSizeOption so' = retryBatchSize
  /\ effectiveBatchSizes bc so' = resolved batchSize retryBatchSize
  /\ (fst (effectiveBatchSizes bc so')
        = Z.max batchSize (BatchRunnerDefaultBatchSize (config bc))
      <-> (0 < batchSize /\ BatchRunnerDefaultBatchSize (config bc) <= batchSize)
          \/ (batchSize <= 0 /\ batchSize <= BatchRunnerDefaultBatchSize (config bc))).
Proof.
  intros resolved so'.
  assert (Hgen : forall o,
            effectiveBatchSizes bc o
            = resolved (bulker.Get bulker.BatchSizeOption o)
                (bulker.Get bulker.RetryBatchSizeOption o)).
  { intros o. unfold effectiveBatchSizes, resolved.
    destruct (Z.leb_spec (bulker.Get bulker.BatchSizeOption o) 0) as [Hb|Hb];
      destruct (Z.ltb_spec 0 (bulker.Get bulker.BatchSizeOption o)) as [Hb'|Hb']; try lia;
      destruct (Z.leb_spec (bulker.Get bulker.RetryBatchSizeOption o) 0) as [Hr|Hr];
      destruct (Z.ltb_spec 0 (bulker.Get bulker.RetryBatchSizeOption o)) as [Hr'|Hr'];
      try lia; reflexivity. }
  assert (Hb : bulker.Get bulker.BatchSizeOption so' = batchSize).
  { unfold bulker.Get, so', bulker.Set_. simpl.
    rewrite Get_values_Set_values_ne by (simpl; discriminate).
    by apply Get_values_Set_values. }
  assert (Hr : bulker.Get bulker.RetryBatchSizeOption so' = retryBatchSize).
  { unfold bulker.Get, so', bulker.Set_. simpl. by apply Get_values_Set_values. }
  split; [apply Hgen|]. split; [exact Hb|]. split; [exact Hr|].
  rewrite Hgen, Hb, Hr. split; [reflexivity|].
  unfold resolved. simpl. destruct (Z.ltb_spec 0 batchSize); lia.
Qed.

End BatchSizeProperties.

(** C1 (the claim as stated fails): with [batchSize = 5] and a default batch
    size of 1000 the batch size handed to the batch function is 5, not the
    maximum 1000; with [retryBatchSize = 3] and a default fraction of 0.25 the
    retry batch size is 3, not the maximum of 3 and 250. *)
Lemma effectiveBatchSizes_not_max :
  let unset := bulker.mkStreamOptions None [] in
  let so5 := bulker.Set_ (bulker.BatchSizeOption (H := bulker.sampleUtils)) unset 5 in
  let so3 := bulker.Set_ (bulker.RetryBatchSizeOption (H := bulker.sampleUtils)) unset 3 in
  effectiveBatchSizes (H := bulker.sampleUtils) sampleConsumer so5 = (5, 1) /\
  fst (effectiveBatchSizes (H := bulker.sampleUtils) sampleConsumer so5)
    <> Z.max 5 (BatchRunnerDefaultBatchSize (config sampleConsumer)) /\
  effectiveBatchSizes (H := bulker.sampleUtils) sampleConsumer so3 = (1000, 3) /\
  snd (effectiveBatchSizes (H := bulker.sampleUtils) sampleConsumer so3) <> Z.max 3 250.
Proof. vm_compute. repeat split; discriminate. Qed.

(** C3 (the claim as stated fails): parsing the mode option from the string
    "upsert" is not a successful parse; it yields no mutator and an error. *)
Lemma mode_parse_unknown_string_fails :
  bulker.ParseOption (H := bulker.sampleUtils) "mode" (bulker.any_string "upsert")
  = (None, Some (ErrFailedToParseOption "mode" (ErrUnknownMode "upsert"))) /\
  ~ (exists mutator,
       bulker.ParseOption (H := bulker.sampleUtils) "mode" (bulker.any_string "upsert")
       = (Some mutator, None)).
Proof. split; [reflexivity|]. intros [mutator Hm]. discriminate Hm. Qed.

(** ** Decimal rendering and parsing of integers *)

(** The digits of a positive number parse back to it, and start with no sign. *)
Lemma Atoi_digits (d : Decimal.uint) (neg : bool) :
  d <> Decimal.Nil ->
  exists c rest,
    NilEmpty.string_of_uint d = String c rest /\
    Ascii.eqb c "+" = false /\ Ascii.eqb c "-" = false /\
    NilZero.uint_of_string (String c rest) = Some d.
Proof.
  intros Hd.
  assert (Hs : NilZero.uint_of_string (NilZero.string_of_uint d) = Some d)
    by (by apply NilZero.usu).
  destruct d; try done; simpl in *; eexists _, _; (split; [reflexivity|]); repeat split; exact Hs.
Qed.

Lemma Atoi_Itoa (n : Z) : is_int n -> Atoi (Itoa n) = (n, None).
Proof.
  intros [Hlo Hhi]. unfold Itoa.
  assert (Hrange : forall m, int_min <= m <= int_max ->
            (if m <? int_min then (int_min, Some ErrRange)
             else if int_max <? m then (int_max, Some ErrRange) else (m, None : option error))
            = (m, None)).
  { intros m [H1 H2]. destruct (Z.ltb_spec m int_min); [lia|].
    destruct (Z.ltb_spec int_max m); [lia|]. done. }
  destruct n as [|p|p]; [reflexivity| |].
  - simpl Z.to_int. simpl NilZero.string_of_int. unfold NilZero.string_of_uint.
    pose proof (Unsigned.to_uint_nonnil p) as Hnn.
    destruct (Atoi_digits (Pos.to_uint p) false Hnn) as (c & rest & Hstr & Hplus & Hminus & Hparse).
    destruct (Pos.to_uint p) eqn:Hp; try done; rewrite Hstr; unfold Atoi;
      rewrite Hplus, Hminus, Hparse; rewrite <- Hp;
      unfold Z.of_uint; rewrite Unsigned.of_to; simpl Z.of_N; by apply Hrange.
  - simpl Z.to_int. simpl NilZero.string_of_int. unfold NilZero.string_of_uint.
    pose proof (Unsigned.to_uint_nonnil p) as Hnn.
    destruct (Atoi_digits (Pos.to_uint p) true Hnn) as (c & rest & Hstr & Hplus & Hminus & Hparse).
    destruct (Pos.to_uint p) eqn:Hp; try done; rewrite Hstr; unfold Atoi;
      change (Ascii.eqb "-" "+") with false; change (Ascii.eqb "-" "-") with true; cbv iota;
      rewrite Hparse; rewrite <- Hp;
      unfold Z.of_uint; rewrite Unsigned.of_to; simpl Z.of_N; simpl Z.opp; by apply Hrange.
Qed.

Lemma Atoi_is_int (s : string) (n : Z) : Atoi s = (n, None) -> is_int n.
Proof.
  unfold Atoi.
  destruct (match s with
            | String c rest => if Ascii.eqb c "+" then (false, rest)
                               else if Ascii.eqb c "-" then (true, rest) else (false, s)
            | EmptyString => (false, s)
            end) as [neg digits].
  destruct (NilZero.uint_of_string digits) as [d|]; [|discriminate].
  set (m := if neg then - Z.of_uint d else Z.of_uint d).
  destruct (Z.ltb_spec m int_min); [discriminate|].
  destruct (Z.ltb_spec int_max m); [discriminate|].
  intros [= <-]. split; lia.
Qed.

Lemma Itoa_nonempty (n : Z) : String.eqb (Itoa n) "" = false.
Proof.
  unfold Itoa. destruct n as [|p|p]; [reflexivity| |reflexivity].
  simpl. unfold NilZero.string_of_uint.
  pose proof (Unsigned.to_uint_nonnil p) as Hnn.
  destruct (Pos.to_uint p); done.
Qed.

Lemma GetKafkaIntHeader_is_int (message : kafka.Message.t) (name : string) (n : Z) :
  GetKafkaIntHeader message name = (n, None) -> is_int n.
Proof.
  unfold GetKafkaIntHeader. destruct (String.eqb _ ""); [|apply Atoi_is_int].
  intros [= <-]. by compute.
Qed.

(** ** Construction: the single-partition guard *)

Section ConstructionProperties.
Context {helpers : Helpers}.

Lemma tooManyPartitions_many topics topicId :
  (exists entry, In entry topics /\ kafka.TopicMetadata.Topic (snd entry) = topicId) ->
  (forall entry, In entry topics -> kafka.TopicMetadata.Topic (snd entry) = topicId ->
                 (2 <= length (kafka.TopicMetadata.Partitions (snd entry)))%nat) ->
  tooManyPartitions topics topicId = true.
Proof.
  induction topics as [|[key topic] rest IH]; intros [entry [Hin Hname]] Hall.
  - destruct Hin.
  - simpl. destruct (String.eqb_spec (kafka.TopicMetadata.Topic topic) topicId) as [Heq|Hne].
    + specialize (Hall (key, topic) (or_introl eq_refl) Heq). simpl in Hall.
      apply Nat.ltb_lt. lia.
    + apply IH.
      * destruct Hin as [<-|Hin]; [done|]. by exists entry.
      * intros e He. apply Hall. by right.
Qed.

Lemma tooManyPartitions_single topics topicId :
  (forall entry, In entry topics -> kafka.TopicMetadata.Topic (snd entry) = topicId ->
                 (length (kafka.TopicMetadata.Partitions (snd entry)) <= 1)%nat) ->
  tooManyPartitions topics topicId = false.
Proof.
  induction topics as [|[key topic] rest IH]; intros Hall; [done|].
  simpl. destruct (String.eqb_spec (kafka.TopicMetadata.Topic topic) topicId) as [Heq|Hne].
  - specialize (Hall (key, topic) (or_introl eq_refl) Heq). simpl in Hall.
    apply Nat.ltb_ge. lia.
  - apply IH. intros e He. apply Hall. by right.
Qed.

(** C8: when the topic id parses, the kafka consumer is created and the
    metadata is fetched, a topic that the metadata reports with two or more
    partitions makes the construction fail with the partition-count error, no
    consumer object being returned; a topic reported with one partition passes
    the check: the construction does not fail with that error, and returns a
    consumer (not retired, idle) when the remaining client calls succeed. *)
Theorem single_partition_guard (outcomes : ClientOutcomes) (broker : World)
    (destinationId : string) (batchPeriodSec : Z) (topic mode : string) (config : Config)
    (metadata : kafka.Metadata.t) :
  snd (ParseTopicId topic) = None ->
  newConsumer outcomes = None ->
  getMetadata outcomes = (metadata, None) ->
  let result :=
    NewAbstractBatchConsumer outcomes broker destinationId batchPeriodSec topic mode config in
  let reports (P : nat -> Prop) :=
    forall entry, In entry (kafka.Metadata.Topics metadata) ->
                  kafka.TopicMetadata.Topic (snd entry) = topic ->
                  P (length (kafka.TopicMetadata.Partitions (snd entry))) in
  ((exists entry, In entry (kafka.Metadata.Topics metadata) /\
                  kafka.TopicMetadata.Topic (snd entry) = topic) ->
   reports (fun n => 2 <= n)%nat ->
   result = (None, Some ErrInvalidPartitionCount, [EvConsumerErrors "invalid_partitions_count"]))
  /\
  (reports (fun n => n = 1)%nat ->
   snd (fst result) <> Some ErrInvalidPartitionCount /\
   (newProducer outcomes = None -> initTransactions outcomes = None ->
    subscribe outcomes = None ->
    exists bc w,
      result = (Some (bc, w), None, []) /\ topicId bc = topic /\
      retired w = false /\ idle w = true)).
Proof.
  intros Hparse Hconsumer Hmetadata result reports.
  subst result. unfold NewAbstractBatchConsumer.
  destruct (ParseTopicId topic) as [[[d m] tableName] parseErr]. simpl in Hparse. subst parseErr.
  rewrite Hconsumer, Hmetadata. split.
  - intros Hex Hmany. by rewrite (tooManyPartitions_many _ _ Hex Hmany).
  - intros Hone. rewrite tooManyPartitions_single.
    2:{ intros e He Ht. rewrite (Hone e He Ht). lia. }
    split.
    + destruct (newProducer outcomes); [done|].
      destruct (initTransactions outcomes); [done|].
      by destruct (subscribe outcomes).
    + intros -> -> ->. by eexists _, _.
Qed.

End ConstructionProperties.

(** [single_partition_guard] at the sample retry topic: reported with
    partitions 0 and 1 the construction fails with the partition-count error. *)
Lemma single_partition_guard_witness :
  NewAbstractBatchConsumer (H := sampleHelpers) (outcomesWithPartitions [0; 1])
    (sampleWorld [] quietScript) "dst" 300 sampleRetryTopic "retry" sampleConfig
  = (None, Some ErrInvalidPartitionCount, [EvConsumerErrors "invalid_partitions_count"]).
Proof.
  refine (proj1 (single_partition_guard (helpers := sampleHelpers)
                   (outcomesWithPartitions [0; 1]) (sampleWorld [] quietScript)
                   "dst" 300 sampleRetryTopic "retry" sampleConfig
                   (fst (getMetadata (outcomesWithPartitions [0; 1])))
                   eq_refl eq_refl eq_refl) _ _).
  - eexists. split; [left; reflexivity | reflexivity].
  - intros entry [<-|[]] _. simpl. lia.
Defined.

(** With one partition the same construction returns a consumer. *)
Example single_partition_accepted :
  exists bc w,
    NewAbstractBatchConsumer (H := sampleHelpers) (outcomesWithPartitions [0])
      (sampleWorld [] quietScript) "dst" 300 sampleRetryTopic "retry" sampleConfig
    = (Some (bc, w), None, []).
Proof. by eexists _, _. Qed.

(** ** Retirement *)

Section RetirementProperties.
Context {utils : bulker.Utils}.
Variable bc : AbstractBatchConsumer.
Variable batchFunc : BatchFunction.

Lemma Retire_retired (w : World) : retired (Retire w) = true.
Proof. reflexivity. Qed.

(** The operations of the consumer never clear the [retired] flag. *)
Lemma retired_one_way (w : World) :
  retired w = true ->
  retired (Retire w) = true /\ retired (close w) = true /\
  retired (pause w) = true /\ retired (resume w) = true.
Proof.
  intros Hr. repeat split; try done.
  - unfold pause. destruct (idle w && retired w); [done|]. by destruct (paused w).
  - unfold resume. destruct (negb (paused w)); [done|].
    destruct (resumeOutcomes _) as [|[| [e|] |] rest]; done.
Qed.

(** C10: on a retired consumer [ConsumeAll] returns the error "Consumer is
    retired" with empty counters and leaves the world as it was, whatever the
    batch function and for every bound on the number of batches: no lease is
    taken, no client call is made, and the flags [idle] and [paused] keep their
    values; hence any number of further runs changes nothing.  [Retire] sets the
    flag, and no operation of the consumer clears it. *)
Theorem ConsumeAll_retired_noop (w : World) (fuel : nat) (fuels : list nat) :
  retired w = true ->
  ConsumeAll bc batchFunc fuel w = Some ((zeroCounters, Some ErrConsumerRetired), w)
  /\ fold_left (fun w' fuel' => default w' (RunJob bc batchFunc fuel' w')) fuels w = w
  /\ retired (Retire w) = true /\ retired (close w) = true
  /\ retired (pause w) = true /\ retired (resume w) = true.
Proof.
  intros Hr.
  assert (Hcall : forall fuel', ConsumeAll bc batchFunc fuel' w
                                = Some ((zeroCounters, Some ErrConsumerRetired), w)).
  { intros fuel'. unfold ConsumeAll. by rewrite Hr. }
  split; [apply Hcall|]. split; [|by apply retired_one_way].
  induction fuels as [|fuel' rest IH]; [done|].
  simpl. unfold RunJob at 2. rewrite Hcall. simpl. exact IH.
Qed.

End RetirementProperties.

(** [ConsumeAll_retired_noop] after [Retire()] on the sample retry consumer,
    whose topic holds a record ready for redelivery: the call reports the error
    and the world, its trace of client calls included, is the retired world. *)
Lemma ConsumeAll_retired_noop_witness :
  let batchFunc : BatchFunction :=
    fun _ _ _ retryBatchSize => processBatchImpl (H := sampleHelpers) sampleConsumer retryBatchSize in
  let w := Retire (sampleWorld [readyRecord] quietScript) in
  ConsumeAll (H := bulker.sampleUtils) sampleConsumer batchFunc 3 w
  = Some ((zeroCounters, Some ErrConsumerRetired), w).
Proof.
  intros batchFunc w.
  exact (proj1 (ConsumeAll_retired_noop (utils := bulker.sampleUtils) sampleConsumer batchFunc
                  w 3 [] eq_refl)).
Defined.

(** The same consumer before [Retire()]: the run leases the destination,
    redelivers the record and commits offset 1. *)
Example ConsumeAll_running :
  let batchFunc : BatchFunction :=
    fun _ _ _ retryBatchSize => processBatchImpl (H := sampleHelpers) sampleConsumer retryBatchSize in
  match ConsumeAll (H := bulker.sampleUtils) sampleConsumer batchFunc 3
          (sampleWorld [readyRecord] quietScript) with
  | Some ((counters, err), w) =>
      consumed counters = 1 /\ retryScheduled counters = 1 /\ err = None /\
      leaseCount w = 0 /\ idle w = true /\ paused w = true /\
      In (CallLeaseDestination "dst") (calls w) /\
      kafka.TopicPartition.Offset <$> groupOffsets w = [1]
  | None => False
  end.
Proof. vm_compute. repeat split; auto. Qed.

(** ** Effects of the client calls *)

Lemma produced_app (a b : list Call) : produced (a ++ b) = produced a ++ produced b.
Proof.
  induction a as [|c a IH]; [done|]. destruct c; simpl; by rewrite ?IH.
Qed.

(** Reduces the fields of a world after a client call. *)
Ltac effect :=
  unfold same_transaction, same_committed; simpl;
  rewrite ?produced_app; simpl; rewrite ?app_nil_r; repeat split; try done.

Lemma same_committed_refl w : same_committed w w.
Proof. done. Qed.

Lemma same_committed_trans w1 w2 w3 :
  same_committed w1 w2 -> same_committed w2 w3 -> same_committed w1 w3.
Proof. unfold same_committed. intros (?&?&?&?) (?&?&?&?). repeat split; congruence. Qed.

Lemma same_transaction_trans w1 w2 w3 :
  same_transaction w1 w2 -> same_transaction w2 w3 -> same_transaction w1 w3.
Proof.
  unfold same_transaction. intros (?&?&?&?&?) (?&?&?&?&?).
  split; [eauto using same_committed_trans|]. repeat split; congruence.
Qed.

Lemma QueryWatermarkOffsets_effect topic partition w :
  same_transaction w (snd (QueryWatermarkOffsets topic partition w)).
Proof. unfold QueryWatermarkOffsets. destruct (watermarks _); effect. Qed.

Lemma ReadMessage_effect topic w :
  let '(r, w') := ReadMessage topic w in
  same_committed w w' /\ inTransaction w' = inTransaction w /\
  txMessages w' = txMessages w /\ produced (calls w') = produced (calls w) /\
  match r with
  | inl message =>
      kafka.Message.TopicPartition message = kafka.TopicPartition.mk topic 0 (position w) /\
      position w' = int_add (position w) 1 /\
      0 <= position w < Z.of_nat (length (log w))
  | inr _ => position w' = position w
  end.
Proof.
  unfold ReadMessage. destruct (next_fault _) as [[e|] rest]; [effect|]. simpl.
  destruct (fetchPaused w); [effect|]. unfold fetch. simpl.
  destruct (Z.ltb_spec (position w) 0); [effect|].
  destruct (log w !! _) eqn:Hlookup; [|effect].
  apply lookup_lt_Some in Hlookup. effect. lia.
Qed.

Lemma BeginTransaction_effect w :
  let '(e, w') := BeginTransaction w in
  same_committed w w' /\ position w' = position w /\
  produced (calls w') = produced (calls w) /\
  match e with
  | Some _ => inTransaction w' = inTransaction w /\ txMessages w' = txMessages w
  | None => inTransaction w' = true /\ txMessages w' = []
  end.
Proof. unfold BeginTransaction. destruct (next_fault _) as [[e|] rest]; effect. Qed.

Lemma Produce_effect message w :
  let '(e, w') := Produce message w in
  same_committed w w' /\ position w' = position w /\ inTransaction w' = inTransaction w /\
  match e with
  | Some _ => True
  | None =>
      txMessages w' = txMessages w ++ [message] /\
      produced (calls w') = produced (calls w) ++ [message]
  end.
Proof. unfold Produce. destruct (next_fault _) as [[e|] rest]; effect. Qed.

Lemma Now_effect w : same_transaction w (snd (Now w)).
Proof. effect. Qed.

Lemma GetConsumerGroupMetadata_effect w :
  same_transaction w (snd (GetConsumerGroupMetadata w)).
Proof. unfold GetConsumerGroupMetadata. destruct (next_fault _) as [[e|] rest]; effect. Qed.

Lemma SendOffsetsToTransaction_effect offsets w :
  let '(e, w') := SendOffsetsToTransaction offsets w in
  same_transaction w w' /\
  match e with
  | Some _ => True
  | None => txOffsets w' = offsets
  end.
Proof. unfold SendOffsetsToTransaction. destruct (next_fault _) as [[e|] rest]; effect. Qed.

Lemma CommitTransaction_effect w :
  let '(e, w') := CommitTransaction w in
  match e with
  | Some _ => same_transaction w w'
  | None =>
      retired w' = retired w /\ log w' = log w /\ position w' = position w /\
      inTransaction w' = false /\ txMessages w' = [] /\
      produced (calls w') = produced (calls w) /\
      delivered w' = delivered w ++ txMessages w /\
      groupOffsets w' = match txOffsets w with
                        | [] => groupOffsets w
                        | offsets => offsets
                        end
  end.
Proof. unfold CommitTransaction. destruct (next_fault _) as [[e|] rest]; effect. Qed.

Lemma SeekPartitions_effect tp w :
  let w' := SeekPartitions [tp] w in
  same_committed w w' /\ position w' = kafka.TopicPartition.Offset tp /\
  inTransaction w' = inTransaction w /\ calls w' = calls w ++ [CallSeekPartitions [tp]].
Proof. done. Qed.

Lemma AbortTransaction_effect w :
  let w' := AbortTransaction w in
  same_committed w w' /\ position w' = position w /\ inTransaction w' = false /\
  txMessages w' = [] /\ calls w' = calls w ++ [CallAbortTransaction].
Proof. done. Qed.

(** ** The retry consumer: the loop *)

Section RetryLoopProperties.
Context {helpers : Helpers}.
Variable rc : AbstractBatchConsumer.

Lemma isTimeToRetry_effect message w :
  same_transaction w (snd (isTimeToRetry message w)).
Proof.
  unfold isTimeToRetry. destruct (GetKafkaTimeHeader _ _) as [t [e|]]; [effect|].
  destruct (IsZero t); effect.
Qed.

Lemma reclassify_effect message originalTopic retries w :
  let '(out, singleCount, w') := reclassify rc message originalTopic retries w in
  consumed singleCount = 0 /\ same_transaction w w'.
Proof.
  unfold reclassify. destruct (_ <=? _); [effect|].
  pose proof (isTimeToRetry_effect message w) as Heff.
  destruct (isTimeToRetry message w) as [ready w']. simpl in Heff.
  by destruct ready.
Qed.














End RetryLoopProperties.

(** ** The retry consumer: one message *)

Section RetryMessageProperties.
Context {helpers : Helpers}.
Variable rc : AbstractBatchConsumer.

(** A message without [original_topic], or with a [retries] header that is not
    a number, ends the iteration at once: nothing is produced and the counters
    are those of before ([singleCount] is dropped at the [continue]). *)
Lemma processMessage_skipped (message : kafka.Message.t) (l : Locals) (w : World) :
  GetKafkaHeader message originalTopicHeader = ""%string \/
  snd (GetKafkaIntHeader message retriesCountHeader) <> None ->
  processMessage rc message l w = (Next l, w).
Proof.
  intros Hskip. unfold processMessage.
  destruct (String.eqb_spec (GetKafkaHeader message originalTopicHeader) "") as [_|Hne]; [done|].
  destruct Hskip as [Hempty|Herr]; [done|].
  destruct (GetKafkaIntHeader message retriesCountHeader) as [retries [e|]]; done.
Qed.

Lemma headerValue_after_other (h : kafka.Header.t) (rest : list kafka.Header.t) (key : string) :
  String.eqb (kafka.Header.Key h) key = false ->
  headerValue (h :: rest) key = headerValue rest key.
Proof. intros Hne. simpl. by rewrite Hne. Qed.

(** The [retries] header written by [strconv.Itoa] reads back as the number. *)
Lemma retries_header_roundtrip (m : kafka.Message.t) (n : Z) :
  is_int n ->
  GetKafkaHeader m retriesCountHeader = Itoa n ->
  GetKafkaIntHeader m retriesCountHeader = (n, None).
Proof.
  intros Hn Hv. unfold GetKafkaIntHeader. rewrite Hv, Itoa_nonempty. by apply Atoi_Itoa.
Qed.

(** What the loop body does with a message that has an [original_topic] and a
    well-formed [retries] header: the message built by [reclassify] goes to
    [Produce], and its counter is accumulated when [Produce] accepts it. *)
Lemma processMessage_reclassified (message : kafka.Message.t) (l : Locals) (w : World)
    (retries : Z) :
  GetKafkaHeader message originalTopicHeader <> ""%string ->
  GetKafkaIntHeader message retriesCountHeader = (retries, None) ->
  processMessage rc message l w
  = let '(out, singleCount, w1) :=
      reclassify rc message (GetKafkaHeader message originalTopicHeader) retries w in
    match Produce out w1 with
    | (Some _, w2) => (Return l (counters l, false, Some ErrProduce), w2)
    | (None, w2) => (Next (with_counters (accumulate (counters l) singleCount) l), w2)
    end.
Proof.
  intros Htopic Hretries. unfold processMessage.
  destruct (String.eqb_spec (GetKafkaHeader message originalTopicHeader) "") as [Heq|_]; [done|].
  by rewrite Hretries.
Qed.

(** Every message that an iteration of the loop reads is consumed from the
    retry topic of the consumer, at the consumer's position, and is handed to
    [processMessage]: at once when the transaction is already open, and after
    [BeginTransaction] has succeeded when it is the first message of the batch. *)
Lemma iteration_message (highOffset : Z) (l : Locals) (w w1 : World)
    (message : kafka.Message.t) :
  retired w = false ->
  (forall p, lastPosition l = Some p ->
             kafka.TopicPartition.Offset p <> int_sub highOffset 1) ->
  ReadMessage (topicId rc) w = (inl message, w1) ->
  let l1 := with_lastPosition (kafka.Message.TopicPartition message)
              (with_counters (incr_consumed (counters l)) l) in
  kafka.Message.TopicPartition message = kafka.TopicPartition.mk (topicId rc) 0 (position w) /\
  iteration rc highOffset l w
  = if consumed (counters l1) =? 1 then
      let l2 := with_firstPosition (kafka.Message.TopicPartition message) l1 in
      match BeginTransaction w1 with
      | (Some _, w2) => (Return l2 (zeroCounters, false, Some ErrBeginTransaction), w2)
      | (None, w2) => processMessage rc message (with_txOpened true l2) w2
      end
    else processMessage rc message l1 w1.
Proof.
  intros Hretired Hwatermark Hread l1. split.
  - pose proof (ReadMessage_effect (topicId rc) w) as Heff. rewrite Hread in Heff.
    by destruct Heff as (_ & _ & _ & _ & Htp & _).
  - unfold iteration. rewrite Hretired.
    destruct (lastPosition l) as [p|] eqn:Hlast.
    + destruct (Z.eqb_spec (kafka.TopicPartition.Offset p) (int_sub highOffset 1)) as [Heq|_].
      * by destruct (Hwatermark p eq_refl).
      * by rewrite Hread.
    + by rewrite Hread.
Qed.

Lemma reclassify_dead (message : kafka.Message.t) (retries : Z) (w : World) :
  MessagesRetryCount (config rc) <= retries ->
  reclassify rc message (GetKafkaHeader message originalTopicHeader) retries w
  = (deadLetterMessage rc message retries, incr_deadLettered zeroCounters, w).
Proof.
  intros Hge. unfold reclassify.
  destruct (Z.leb_spec (MessagesRetryCount (config rc)) retries); [done|lia].
Qed.

Lemma isTimeToRetry_future (message : kafka.Message.t) (retryTime : Instant) (w : World) :
  GetKafkaTimeHeader message retryTimeHeader = (retryTime, None) ->
  Z.of_N (clock (script w) (clockReads (script w))) < retryTime ->
  isTimeToRetry message w = (false, snd (Now w)).
Proof.
  intros Hparse Hfuture. unfold isTimeToRetry. rewrite Hparse.
  unfold IsZero. destruct (Z.eqb_spec retryTime 0) as [Hz|_]; [lia|].
  unfold Now, After at 1. simpl.
  destruct (Z.ltb_spec retryTime (Z.of_N (clock (script w) (clockReads (script w))))); [lia|done].
Qed.

Lemma reclassify_not_ready (message : kafka.Message.t) (retries : Z) (retryTime : Instant)
    (w : World) :
  retries < MessagesRetryCount (config rc) ->
  GetKafkaTimeHeader message retryTimeHeader = (retryTime, None) ->
  Z.of_N (clock (script w) (clockReads (script w))) < retryTime ->
  reclassify rc message (GetKafkaHeader message originalTopicHeader) retries w
  = (requeuedMessage rc message retries, incr_notReadyReadded zeroCounters, snd (Now w)).
Proof.
  intros Hlt Hparse Hfuture. unfold reclassify.
  destruct (Z.leb_spec (MessagesRetryCount (config rc)) retries); [lia|].
  by rewrite (isTimeToRetry_future _ _ _ Hparse Hfuture).
Qed.


(** C5 (amended): for every message whose [retries] header is a number that is
    greater than or equal to [MessagesRetryCount], the failure path of the
    stream consumer addresses the message to the dead-letter topic of the
    destination with status "deadLettered"; the batch function of the retry
    consumer does so when the message carries an [original_topic] header: the
    message it hands to [Produce] is addressed to the dead-letter topic (not to
    the original topic) and its [retries] header reads back as the same number,
    and when [Produce] accepts it the [deadLettered] counter grows by one while
    [retryScheduled] gets nothing added. *)
Theorem dead_letter_cutoff (sc : StreamConsumer.t) (message : kafka.Message.t) (retries : Z)
    (l : Locals) (w : World) :
  GetKafkaIntHeader message retriesCountHeader = (retries, None) ->
  (MessagesRetryCount (StreamConsumer.config sc) <= retries ->
   let deadTopic :=
     fst (MakeTopicId (StreamConsumer.destinationId sc) deadTopicMode allTablesToken false) in
   exists out,
     StreamConsumer.retryMessage sc message = (deadTopic, out, "deadLettered"%string) /\
     kafka.TopicPartition.Topic (kafka.Message.TopicPartition out) = deadTopic /\
     GetKafkaIntHeader out retriesCountHeader = (retries, None))
  /\
  (MessagesRetryCount (config rc) <= retries ->
   GetKafkaHeader message originalTopicHeader <> ""%string ->
   let out := deadLetterMessage rc message retries in
   let counted := accumulate (counters l) (incr_deadLettered zeroCounters) in
   processMessage rc message l w
   = match Produce out w with
     | (Some _, w') => (Return l (counters l, false, Some ErrProduce), w')
     | (None, w') => (Next (with_counters counted l), w')
     end /\
   kafka.TopicPartition.Topic (kafka.Message.TopicPartition out) = deadLetterTopic rc /\
   GetKafkaHeader out originalTopicHeader = GetKafkaHeader message originalTopicHeader /\
   GetKafkaIntHeader out retriesCountHeader = (retries, None) /\
   deadLettered counted = int_add (deadLettered (counters l)) 1 /\
   retryScheduled counted = int_add (retryScheduled (counters l)) 0).
Proof.
  intros Hretries. pose proof (GetKafkaIntHeader_is_int _ _ _ Hretries) as Hint. split.
  - intros Hge deadTopic. unfold StreamConsumer.retryMessage. rewrite Hretries.
    destruct (Z.leb_spec (MessagesRetryCount (StreamConsumer.config sc)) retries); [|lia].
    eexists. split; [reflexivity|]. split; [reflexivity|].
    by apply retries_header_roundtrip.
  - intros Hge Htopic out counted.
    split.
    { rewrite (processMessage_reclassified _ _ _ _ Htopic Hretries).
      by rewrite (reclassify_dead _ _ _ Hge). }
    split; [reflexivity|]. split; [reflexivity|].
    split; [by apply retries_header_roundtrip|]. split; reflexivity.
Qed.

(** C6 (amended): for every message in a retry batch that carries an
    [original_topic] header and a [retries] header that is a number below
    [MessagesRetryCount], and whose [retry_time] header parses to an instant
    after the current time, the message handed to [Produce] is addressed to the
    retry topic of the consumer, its [retry_time] header is the original one,
    byte for byte, and its [retries] header reads back as the same number; when
    [Produce] accepts it the [notReadyReadded] counter grows by one and
    [retryScheduled] gets nothing added. *)
Theorem not_ready_requeue (message : kafka.Message.t) (retries : Z) (retryTime : Instant)
    (l : Locals) (w : World) :
  GetKafkaHeader message originalTopicHeader <> ""%string ->
  GetKafkaIntHeader message retriesCountHeader = (retries, None) ->
  retries < MessagesRetryCount (config rc) ->
  GetKafkaTimeHeader message retryTimeHeader = (retryTime, None) ->
  Z.of_N (clock (script w) (clockReads (script w))) < retryTime ->
  let out := requeuedMessage rc message retries in
  let counted := accumulate (counters l) (incr_notReadyReadded zeroCounters) in
  processMessage rc message l w
  = match Produce out (snd (Now w)) with
    | (Some _, w') => (Return l (counters l, false, Some ErrProduce), w')
    | (None, w') => (Next (with_counters counted l), w')
    end /\
  kafka.TopicPartition.Topic (kafka.Message.TopicPartition out) = topicId rc /\
  GetKafkaHeader out retryTimeHeader = GetKafkaHeader message retryTimeHeader /\
  GetKafkaHeader out originalTopicHeader = GetKafkaHeader message originalTopicHeader /\
  GetKafkaIntHeader out retriesCountHeader = (retries, None) /\
  notReadyReadded counted = int_add (notReadyReadded (counters l)) 1 /\
  retryScheduled counted = int_add (retryScheduled (counters l)) 0.
Proof.
  intros Htopic Hretries Hlt Hparse Hfuture out counted.
  pose proof (GetKafkaIntHeader_is_int _ _ _ Hretries) as Hint.
  split.
  { rewrite (processMessage_reclassified _ _ _ _ Htopic Hretries).
    by rewrite (reclassify_not_ready _ _ _ _ Hlt Hparse Hfuture). }
  split; [reflexivity|]. split; [reflexivity|]. split; [reflexivity|].
  split; [by apply retries_header_roundtrip|]. split; reflexivity.
Qed.

End RetryMessageProperties.

(** ** The retry consumer on the sample inputs *)


(** The same batch evaluated: the error is the failure of [Produce], no message
    is visible downstream, no offset is committed, the position is back at 0
    and the batch function reports [nextBatch=false]. *)
Example third_produce_fails :
  let '((c, nb, e), w') :=
    processBatchImpl (H := sampleHelpers) sampleConsumer 10
      (sampleWorld [readyRecord; notReadyRecord; readyRecord; exhaustedRecord; readyRecord]
         thirdProduceFails) in
  e = Some ErrProduce /\ nb = false /\ position w' = 0 /\ delivered w' = [] /\
  groupOffsets w' = [] /\ inTransaction w' = false.
Proof. vm_compute. repeat split. Qed.

(** A batch of three reclassifiable records without faults, evaluated: it ends
    without error after consuming three messages, as [retry_batch_commits]
    supposes; the three messages handed to [Produce] are visible downstream,
    offset 3 is committed and no transaction is left open. *)
Example three_records_commit :
  let '((c, nb, e), w') :=
    processBatchImpl (H := sampleHelpers) sampleConsumer 10
      (sampleWorld [readyRecord; notReadyRecord; exhaustedRecord] quietScript) in
  e = None /\ consumed c = 3 /\ inTransaction w' = false /\
  produced (calls w') = delivered w' /\ length (delivered w') = 3%nat /\
  groupOffsets w' = [kafka.TopicPartition.mk sampleRetryTopic 0 3] /\ position w' = 3.
Proof. vm_compute. repeat split. Qed.

(** [dead_letter_cutoff] at a record with [retries = 5 = MessagesRetryCount]. *)
Lemma dead_letter_cutoff_witness :
  let message := messageAt sampleRetryTopic 3 exhaustedRecord in
  let w := sampleWorld [] quietScript in
  GetKafkaIntHeader message retriesCountHeader = (5, None) /\
  (exists out,
     StreamConsumer.retryMessage (H := sampleHelpers) sampleStreamConsumer message
     = (sampleDeadTopic, out, "deadLettered"%string) /\
     kafka.TopicPartition.Topic (kafka.Message.TopicPartition out) = sampleDeadTopic /\
     GetKafkaIntHeader out retriesCountHeader = (5, None)) /\
  (let out := deadLetterMessage (H := sampleHelpers) sampleConsumer message 5 in
   let counted := accumulate (counters initialLocals) (incr_deadLettered zeroCounters) in
   processMessage (H := sampleHelpers) sampleConsumer message initialLocals w
   = match Produce out w with
     | (Some _, w') => (Return initialLocals (counters initialLocals, false, Some ErrProduce), w')
     | (None, w') => (Next (with_counters counted initialLocals), w')
     end /\
   kafka.TopicPartition.Topic (kafka.Message.TopicPartition out) = sampleDeadTopic /\
   GetKafkaHeader out originalTopicHeader = "in.id.dst.m.batch.t.events"%string /\
   GetKafkaIntHeader out retriesCountHeader = (5, None) /\
   deadLettered counted = 1 /\ retryScheduled counted = 0).
Proof.
  intros message w.
  pose proof (dead_letter_cutoff (helpers := sampleHelpers) sampleConsumer sampleStreamConsumer
                message 5 initialLocals w eq_refl) as [Hstream Hretry].
  split; [reflexivity|]. split.
  - apply Hstream. vm_compute. discriminate.
  - apply Hretry; [vm_compute; discriminate | discriminate].
Defined.

(** C5 (the claim as stated fails): a retry-topic record with [retries = 5 =
    MessagesRetryCount] and no [original_topic] header is not routed to the
    dead-letter topic by the retry consumer: the batch produces nothing and
    counts no dead letter; and a record out of attempts is not counted as
    [deadLettered] when [Produce] refuses it. *)
Lemma dead_letter_requires_original_topic :
  GetKafkaIntHeader (messageAt sampleRetryTopic 0 noTopicRecord) retriesCountHeader = (5, None) /\
  MessagesRetryCount (config sampleConsumer) <= 5 /\
  (let '((c, nb, e), w') :=
     processBatchImpl (H := sampleHelpers) sampleConsumer 10
       (sampleWorld [noTopicRecord] quietScript) in
   e = None /\ deadLettered c = 0 /\ deadLettered c <> 1 /\ delivered w' = [] /\
   List.filter (fun call => match call with CallProduce _ => true | _ => false end) (calls w')
   = []) /\
  (let '((c, nb, e), w') :=
     processBatchImpl (H := sampleHelpers) sampleConsumer 10
       (sampleWorld [exhaustedRecord] firstProduceFails) in
   e = Some ErrProduce /\ deadLettered c = 0 /\ deadLettered c <> 1 /\ delivered w' = []).
Proof. vm_compute. repeat split; discriminate. Qed.

(** [not_ready_requeue] at a record with [retries = 2] and a deadline in 2030,
    read in 2025. *)
Lemma not_ready_requeue_witness :
  let message := messageAt sampleRetryTopic 4 notReadyRecord in
  let w := sampleWorld [] quietScript in
  GetKafkaHeader message originalTopicHeader <> ""%string /\
  GetKafkaIntHeader message retriesCountHeader = (2, None) /\
  2 < MessagesRetryCount (config sampleConsumer) /\
  GetKafkaTimeHeader (H := sampleHelpers) message retryTimeHeader = (instant_2030, None) /\
  Z.of_N (clock (script w) (clockReads (script w))) < instant_2030 /\
  (let out := requeuedMessage sampleConsumer message 2 in
   let counted := accumulate (counters initialLocals) (incr_notReadyReadded zeroCounters) in
   processMessage (H := sampleHelpers) sampleConsumer message initialLocals w
   = match Produce out (snd (Now w)) with
     | (Some _, w') => (Return initialLocals (counters initialLocals, false, Some ErrProduce), w')
     | (None, w') => (Next (with_counters counted initialLocals), w')
     end /\
   kafka.TopicPartition.Topic (kafka.Message.TopicPartition out) = sampleRetryTopic /\
   GetKafkaHeader out retryTimeHeader = "2030-01-01T00:00:00.000000Z"%string /\
   GetKafkaHeader out originalTopicHeader = "in.id.dst.m.batch.t.events"%string /\
   GetKafkaIntHeader out retriesCountHeader = (2, None) /\
   notReadyReadded counted = 1 /\ retryScheduled counted = 0).
Proof.
  intros message w.
  assert (H1 : GetKafkaHeader message originalTopicHeader <> ""%string) by discriminate.
  assert (H3 : 2 < MessagesRetryCount (config sampleConsumer)) by (vm_compute; reflexivity).
  assert (H5 : Z.of_N (clock (script w) (clockReads (script w))) < instant_2030)
    by (vm_compute; reflexivity).
  split; [exact H1|]. split; [reflexivity|]. split; [exact H3|]. split; [reflexivity|].
  split; [exact H5|].
  exact (not_ready_requeue (helpers := sampleHelpers) sampleConsumer message 2 instant_2030
           initialLocals w H1 eq_refl H3 eq_refl H5).
Defined.

(** C6 (the claim as stated fails): a record whose [retry_time] parses to an
    instant in the future is not requeued when it is out of attempts (it goes
    to the dead-letter topic, without a [retry_time] header), nor when it has no
    [original_topic] header (it is skipped and nothing is produced). *)
Lemma future_retry_time_not_requeued :
  GetKafkaTimeHeader (H := sampleHelpers) (messageAt sampleRetryTopic 0 exhaustedRecord)
    retryTimeHeader = (instant_2030, None) /\
  GetKafkaTimeHeader (H := sampleHelpers) (messageAt sampleRetryTopic 0 orphanRecord)
    retryTimeHeader = (instant_2030, None) /\
  Z.of_N (clock quietScript 0) < instant_2030 /\
  (let '((c, nb, e), w') :=
     processBatchImpl (H := sampleHelpers) sampleConsumer 10
       (sampleWorld [exhaustedRecord] quietScript) in
   e = None /\ notReadyReadded c = 0 /\ deadLettered c = 1 /\
   (fun m => kafka.TopicPartition.Topic (kafka.Message.TopicPartition m)) <$> delivered w'
   = [sampleDeadTopic] /\
   sampleDeadTopic <> topicId sampleConsumer /\
   (fun m => GetKafkaHeader m retryTimeHeader) <$> delivered w' = [""%string]) /\
  (let '((c, nb, e), w') :=
     processBatchImpl (H := sampleHelpers) sampleConsumer 10
       (sampleWorld [orphanRecord] quietScript) in
   e = None /\ notReadyReadded c = 0 /\ delivered w' = []).
Proof. vm_compute. repeat split; discriminate. Qed.

(** C9 (the code departs from the claim): a batch of three messages out of a
    topic of four, the first without [original_topic], the second with a
    malformed [retries] header, the third ready for redelivery.  The batch goes
    on after the two unclassifiable messages: it ends without error and with
    [nextBatch=true], produces only the third message and commits offset 3, past
    all three; but the [skipped] counter is 0, not 2: the increment is made on a
    local counter that is dropped at the [continue]. *)
Lemma skipped_messages_are_not_counted :
  let '((c, nb, e), w') :=
    processBatchImpl (H := sampleHelpers) sampleConsumer 3
      (sampleWorld [noTopicRecord; badRetriesRecord; readyRecord; readyRecord] quietScript) in
  c = mkBatchCounters 3 0 0 0 1 0 0 /\ skipped c = 0 /\ nb = true /\ e = None /\
  (fun m => kafka.Message.Key m) <$> delivered w' = ["k1"%string] /\
  kafka.TopicPartition.Offset <$> groupOffsets w' = [3].
Proof. vm_compute. repeat split. Qed.

(** ** Stream options: the registry and the mutators *)

Section OptionExtras.
Context {utils : bulker.Utils}.

Lemma Parse_not_unknown {V} (io : bulker.ImplementationOption V) serialized name :
  bulker.ParseFunc io <> None ->
  bulker.Parse io serialized <> (None, Some (ErrUnknownOption name)).
Proof.
  intros Hf. unfold bulker.Parse. destruct (bulker.ParseFunc io) as [f|]; [|done].
  destruct (f serialized) as [val [e|]]; discriminate.
Qed.

Lemma parsePrimaryKey_not_unknown o serialized name :
  bulker.parsePrimaryKey o serialized <> (None, Some (ErrUnknownOption name)).
Proof. destruct serialized; simpl; try discriminate. destruct (String.eqb _ _); discriminate. Qed.

(** X1: [ParseOption] answers "unknown option" exactly for the names outside the
    fourteen keys registered by [init], whatever the serialized value; under a
    registered name the outcome is that of the option's own parser. *)
Theorem ParseOption_unknown_iff (name : string) (serialized : bulker.any) :
  bulker.ParseOption name serialized = (None, Some (ErrUnknownOption name))
  <-> name ∉ ["mode"; "batchSize"; "frequency"; "retryFrequency"; "retryBatchSize";
              "primaryKey"; "deduplicate"; "partitionId"; "timestampColumn";
              "functions"; "streams"; "dataLayout"; "events"; "hosts"]%string.
Proof.
  unfold bulker.ParseOption, bulker.optionsRegistry, bulker.RegisterOption.
  cbn [bulker.Key bulker.key_part bulker.HostsOption bulker.EventsOption
       bulker.DataLayoutOption bulker.StreamsOption bulker.FunctionsOption
       bulker.TimestampOption bulker.PartitionIdOption bulker.MergeRowsOption
       bulker.PrimaryKeyOption bulker.RetryBatchSizeOption bulker.RetryFrequencyOption
       bulker.BatchFrequencyOption bulker.BatchSizeOption bulker.ModeOption
       bulker.stringKey bulker.anyKey bulker.boolKey bulker.primaryKeyKey bulker.intKey
       bulker.float64Key bulker.modeKey].
  repeat
    (match goal with
     | |- context [ <[?k := ?p]> ?m !! name ] =>
         destruct (decide (name = k)) as [->|?];
         [ rewrite lookup_insert_eq; split;
           [ intros Habs; exfalso; revert Habs;
             first [ apply parsePrimaryKey_not_unknown | by apply Parse_not_unknown ]
           | intros Hnot; exfalso; apply Hnot; rewrite !elem_of_cons; tauto ]
         | rewrite lookup_insert_ne by done ]
     end).
  rewrite lookup_empty. split; [|done]. intros _.
  rewrite !not_elem_of_cons. repeat split; try done. apply not_elem_of_nil.
Qed.


(** X3: The options with one value keep the last one written: of two [WithPartition]
    (or [WithTimestamp]) the second wins, [WithoutMergeRows] undoes
    [WithMergeRows] and the other way round, and a mutator of one option leaves
    the value of another as it is. *)
Theorem scalar_options_last_write_wins (so : bulker.StreamOptions) (a b : string) :
  bulker.Get bulker.PartitionIdOption
    (bulker.Add (bulker.Add so (bulker.WithPartition a)) (bulker.WithPartition b)) = b /\
  bulker.Get bulker.TimestampOption
    (bulker.Add (bulker.Add so (bulker.WithTimestamp a)) (bulker.WithTimestamp b)) = b /\
  bulker.Get bulker.MergeRowsOption
    (bulker.Add (bulker.Add so bulker.WithMergeRows) bulker.WithoutMergeRows) = false /\
  bulker.Get bulker.MergeRowsOption
    (bulker.Add (bulker.Add so bulker.WithoutMergeRows) bulker.WithMergeRows) = true /\
  bulker.Get bulker.PartitionIdOption (bulker.Add so (bulker.WithTimestamp a))
  = bulker.Get bulker.PartitionIdOption so /\
  bulker.Get bulker.PrimaryKeyOption (bulker.Add so (bulker.WithPartition a))
  = bulker.Get bulker.PrimaryKeyOption so.
Proof.
  unfold bulker.Get, bulker.Add, bulker.apply, bulker.WithPartition, bulker.WithTimestamp,
    bulker.WithMergeRows, bulker.WithoutMergeRows, bulker.withPartition, bulker.withTimestamp,
    bulker.withMergeRows. simpl.
  repeat split; try (by apply Get_values_Set_values);
    by apply Get_values_Set_values_ne.
Qed.

(** X4: The primary key only grows: two [WithPrimaryKey] add both lists of fields
    to the key, in either order with the same result; adding the same fields
    twice is adding them once, and adding no field changes nothing. *)
Theorem primaryKey_mutators_commute (so : bulker.StreamOptions) (a b : list string) :
  bulker.Get bulker.PrimaryKeyOption
    (bulker.Add (bulker.Add so (bulker.WithPrimaryKey a)) (bulker.WithPrimaryKey b))
  = bulker.Get bulker.PrimaryKeyOption so ∪ list_to_set a ∪ list_to_set b /\
  bulker.Get bulker.PrimaryKeyOption
    (bulker.Add (bulker.Add so (bulker.WithPrimaryKey a)) (bulker.WithPrimaryKey b))
  = bulker.Get bulker.PrimaryKeyOption
      (bulker.Add (bulker.Add so (bulker.WithPrimaryKey b)) (bulker.WithPrimaryKey a)) /\
  bulker.Get bulker.PrimaryKeyOption
    (bulker.Add (bulker.Add so (bulker.WithPrimaryKey a)) (bulker.WithPrimaryKey a))
  = bulker.Get bulker.PrimaryKeyOption (bulker.Add so (bulker.WithPrimaryKey a)) /\
  bulker.Get bulker.PrimaryKeyOption (bulker.Add so (bulker.WithPrimaryKey []))
  = bulker.Get bulker.PrimaryKeyOption so.
Proof.
  unfold bulker.Get, bulker.Add, bulker.apply, bulker.WithPrimaryKey. simpl.
  rewrite !withPrimaryKey_Get. repeat split; set_solver.
Qed.

End OptionExtras.

Lemma replay_snoc options option : replay (options ++ [option]) = option (replay options).
Proof. unfold replay. by rewrite fold_left_app. Qed.

(** X5: The [Options] slice is a faithful record of the mutators: for every
    [StreamOptions] built from the zero value by calls of [Add], applying the
    recorded options in order to a new [StreamOptions] gives the same values
    map. *)
Theorem Options_replay (so : bulker.StreamOptions) :
  built so -> bulker.valuesMap so = replay (bulker.Options so).
Proof.
  induction 1 as [|so option Hbuilt IH]; [done|].
  unfold bulker.Add, bulker.apply. simpl. by rewrite replay_snoc, IH.
Qed.

(** ** The log line and the metric of the counters *)

Lemma append_empty (a b : string) : (a +:+ b)%string = ""%string -> a = ""%string /\ b = ""%string.
Proof. destruct a; simpl; [done|discriminate]. Qed.

Lemma String_fold_empty (fields : list (string * Z)) (sb : string) :
  fold_left (fun sb field =>
               if 0 <? snd field
               then (sb +:+ fst field +:+ ": " +:+ Itoa (snd field) +:+ " ")%string
               else sb) fields sb = ""%string
  <-> sb = ""%string /\ Forall (fun field => snd field <= 0) fields.
Proof.
  revert sb. induction fields as [|[name value] fields IH]; intros sb; simpl.
  { split; [by intros ->|by intros [-> _]]. }
  rewrite IH. destruct (Z.ltb_spec 0 value) as [Hpos|Hneg].
  - split.
    + intros [Habs _]. apply append_empty in Habs as [_ Habs].
      apply append_empty in Habs as [_ Habs]. discriminate Habs.
    + intros [_ Hall]. inversion Hall; subst. simpl in *. lia.
  - split.
    + intros [-> Hall]. split; [done|]. by constructor.
    + intros [-> Hall]. split; [done|]. by inversion Hall.
Qed.

(** X6: The log line of the counters is empty exactly when no counter is positive,
    which is exactly when the run reports no metric; the metric is reported
    for the positive counters only, [failed] included, under the name of the
    field and in the order of the declaration. *)
Theorem counters_reported_when_positive (c : BatchCounters) :
  (BatchCounters_String c = ""%string
   <-> Forall (fun field => snd field <= 0) (counterFields c)) /\
  (countersMetric c = [] <-> BatchCounters_String c = ""%string) /\
  (forall name,
     name ∈ (fst <$> countersMetric c)
     <-> exists value, (name, value) ∈ counterFields c /\ 0 < value) /\
  fst <$> countersMetric c
  = fst <$> List.filter (fun field => 0 <? snd field) (counterFields c).
Proof.
  assert (Hnames : forall fields : list (string * Z),
            fst <$> omap (fun field => if 0 <? snd field
                                       then Some (fst field, float64_of_int (snd field))
                                       else None) fields
            = fst <$> List.filter (fun field => 0 <? snd field) fields).
  { induction fields as [|[name value] fields IH]; [done|]. simpl.
    destruct (0 <? value); simpl; [f_equal|]; apply IH. }
  assert (Hempty : forall fields : list (string * Z),
            omap (fun field => if 0 <? snd field
                               then Some (fst field, float64_of_int (snd field))
                               else None) fields = []
            <-> Forall (fun field => snd field <= 0) fields).
  { induction fields as [|[name value] fields IH]; [done|]. simpl.
    destruct (Z.ltb_spec 0 value) as [Hpos|Hneg]; simpl.
    - split; [done|]. intros Hall. inversion Hall; subst. simpl in *. lia.
    - rewrite IH. split; [by constructor|]. intros Hall. by inversion Hall. }
  assert (Hstring : BatchCounters_String c = ""%string
                    <-> Forall (fun field => snd field <= 0) (counterFields c)).
  { unfold BatchCounters_String. rewrite String_fold_empty. split; [by intros [_ ?]|done]. }
  split; [exact Hstring|]. split.
  { unfold countersMetric. by rewrite Hempty, Hstring. }
  split; [|apply Hnames].
  intros name. unfold countersMetric. rewrite Hnames, list_elem_of_fmap. split.
  - intros [[name' value] [-> Hin]]. apply list_elem_of_In, filter_In in Hin as [Hin Hpos].
    exists value. split; [by apply list_elem_of_In|]. simpl in Hpos. lia.
  - intros [value [Hin Hpos]]. exists (name, value). split; [done|].
    apply list_elem_of_In, filter_In. split; [by apply list_elem_of_In|]. simpl. lia.
Qed.

(** ** Construction: what a failure leaves behind *)

Section ConstructionExtras.
Context {helpers : Helpers}.

(** X7: A construction succeeds exactly when every step does; a failed
    construction increments the error metric once, and it closes the kafka
    consumer it has created only when the failure is that of the producer, of
    its transactions or of the subscription: after a failure of the metadata
    request or of the partition check the consumer is left open. *)
Theorem construction_failure_cleanup (outcomes : ClientOutcomes) (broker : World)
    (destinationId : string) (batchPeriodSec : Z) (topic mode : string) (config : Config) :
  let result :=
    NewAbstractBatchConsumer outcomes broker destinationId batchPeriodSec topic mode config in
  let consumer := fst (fst result) in
  let err := snd (fst result) in
  let events := snd result in
  (is_Some consumer <-> err = None) /\
  (err = None <->
   snd (ParseTopicId topic) = None /\ newConsumer outcomes = None /\
   snd (getMetadata outcomes) = None /\
   tooManyPartitions (kafka.Metadata.Topics (fst (getMetadata outcomes))) topic = false /\
   newProducer outcomes = None /\ initTransactions outcomes = None /\
   subscribe outcomes = None) /\
  (err = None -> events = []) /\
  (err <> None ->
   exists errorType,
     events = [EvConsumerErrors errorType] \/
     events = [EvConsumerErrors errorType; EvCloseConsumer]) /\
  ((exists errorType, events = [EvConsumerErrors errorType; EvCloseConsumer]) <->
   err = Some ErrCreateProducer \/ err = Some ErrInitTransactions \/ err = Some ErrSubscribe) /\
  (err = Some ErrConsumerMetadata \/ err = Some ErrInvalidPartitionCount ->
   newConsumer outcomes = None /\ exists errorType, events = [EvConsumerErrors errorType]).
Proof.
  unfold NewAbstractBatchConsumer.
  destruct (ParseTopicId topic) as [[[d m] tableName] [parseErr|]]; simpl;
    [unfold is_Some; naive_solver|].
  destruct (newConsumer outcomes) as [e1|]; simpl; [unfold is_Some; naive_solver|].
  destruct (getMetadata outcomes) as [metadata [e2|]]; simpl; [unfold is_Some; naive_solver|].
  destruct (tooManyPartitions (kafka.Metadata.Topics metadata) topic); simpl;
    [unfold is_Some; naive_solver|].
  destruct (newProducer outcomes) as [e3|]; simpl; [unfold is_Some; naive_solver|].
  destruct (initTransactions outcomes) as [e4|]; simpl; [unfold is_Some; naive_solver|].
  destruct (subscribe outcomes) as [e5|]; simpl; unfold is_Some; naive_solver.
Qed.

(** A successful construction returns the broker's world with the flags of a
    new consumer, and a consumer comes with no error. *)
Lemma construction_ok (outcomes : ClientOutcomes) (broker : World)
    (destinationId : string) (batchPeriodSec : Z) (topic modeName : string)
    (config : Config) :
  let result :=
    NewAbstractBatchConsumer outcomes broker destinationId batchPeriodSec topic modeName config in
  (forall bc w,
     fst (fst result) = Some (bc, w) ->
     w = with_flags false true false false broker /\ mode bc = modeName /\
     topicId bc = topic) /\
  (is_Some (fst (fst result)) <-> snd (fst result) = None).
Proof.
  unfold NewAbstractBatchConsumer.
  destruct (ParseTopicId topic) as [[[d m] tableName] [parseErr|]]; simpl;
    [split; [done|split; [by intros [? ?]|done]]|].
  destruct (newConsumer outcomes); simpl; [split; [done|split; [by intros [? ?]|done]]|].
  destruct (getMetadata outcomes) as [metadata [e2|]]; simpl;
    [split; [done|split; [by intros [? ?]|done]]|].
  destruct (tooManyPartitions _ _); simpl; [split; [done|split; [by intros [? ?]|done]]|].
  destruct (newProducer outcomes); simpl; [split; [done|split; [by intros [? ?]|done]]|].
  destruct (initTransactions outcomes); simpl; [split; [done|split; [by intros [? ?]|done]]|].
  destruct (subscribe outcomes); simpl; [split; [done|split; [by intros [? ?]|done]]|].
  split; [by intros bc w [= <- <-]|]. split; [done|by eexists].
Qed.

(** X8: A retry consumer is born paused: when the construction succeeds the
    consumer is in mode "retry", idle, not retired, not closed and paused, and
    the broker is as it was; when the construction of the base consumer fails,
    its error and its metric are returned as they are, without a consumer. *)
Theorem NewRetryConsumer_starts_paused (outcomes : ClientOutcomes) (broker : World)
    (destinationId : string) (batchPeriodSec : Z) (topic : string) (config : Config) :
  let base :=
    NewAbstractBatchConsumer outcomes broker destinationId batchPeriodSec topic "retry" config in
  let result :=
    NewRetryConsumer outcomes broker destinationId batchPeriodSec topic config in
  snd (fst result) = snd (fst base) /\ snd result = snd base /\
  (is_Some (fst (fst result)) <-> snd (fst base) = None) /\
  (forall rc w,
     fst (fst result) = Some (rc, w) ->
     mode rc = "retry"%string /\ topicId rc = topic /\
     retired w = false /\ idle w = true /\ closed w = false /\ paused w = true /\
     position w = position broker /\ log w = log broker /\
     delivered w = delivered broker /\ groupOffsets w = groupOffsets broker).
Proof.
  pose proof (construction_ok outcomes broker destinationId batchPeriodSec topic "retry" config)
    as Hok.
  unfold NewRetryConsumer.
  destruct (NewAbstractBatchConsumer _ _ _ _ _ _ _) as [[[[bc w0]|] [e|]] events]; simpl in *.
  - destruct Hok as [_ Habs]. by destruct Habs.
  - destruct Hok as [Hw _]. destruct (Hw bc w0 eq_refl) as (-> & Hm & Ht).
    split; [done|]. split; [done|]. split; [split; [done|by eexists]|].
    intros rc w [= <- <-]. unfold pause. simpl. by repeat split.
  - split; [done|]. split; [done|]. split; [split; [by intros [? ?]|done]|]. by intros rc w.
  - destruct Hok as [_ Habs]. by destruct Habs.
Qed.

End ConstructionExtras.

(** ** The retry consumer: accounting *)

Lemma same_consumer_refl w : same_consumer w w.
Proof. done. Qed.

Lemma same_consumer_trans w1 w2 w3 :
  same_consumer w1 w2 -> same_consumer w2 w3 -> same_consumer w1 w3.
Proof.
  unfold same_consumer. intros (?&?&?&?&?&?&?&?) (?&?&?&?&?&?&?&?).
  repeat split; congruence.
Qed.

Lemma QueryWatermarkOffsets_consumer topic partition w :
  same_consumer w (snd (QueryWatermarkOffsets topic partition w)).
Proof. unfold QueryWatermarkOffsets. by destruct (watermarks _). Qed.

Lemma ReadMessage_consumer topic w : same_consumer w (snd (ReadMessage topic w)).
Proof.
  unfold ReadMessage. destruct (next_fault _) as [[e|] rest]; [done|]. simpl.
  destruct (fetchPaused w) eqn:Hp; [done|]. by destruct (fetch _ _).
Qed.

Lemma BeginTransaction_consumer w : same_consumer w (snd (BeginTransaction w)).
Proof. unfold BeginTransaction. by destruct (next_fault _) as [[e|] rest]. Qed.

Lemma Produce_consumer message w : same_consumer w (snd (Produce message w)).
Proof. unfold Produce. by destruct (next_fault _) as [[e|] rest]. Qed.

Lemma GetConsumerGroupMetadata_consumer w :
  same_consumer w (snd (GetConsumerGroupMetadata w)).
Proof. unfold GetConsumerGroupMetadata. by destruct (next_fault _) as [[e|] rest]. Qed.

Lemma SendOffsetsToTransaction_consumer offsets w :
  same_consumer w (snd (SendOffsetsToTransaction offsets w)).
Proof. unfold SendOffsetsToTransaction. by destruct (next_fault _) as [[e|] rest]. Qed.

Lemma CommitTransaction_consumer w : same_consumer w (snd (CommitTransaction w)).
Proof. unfold CommitTransaction. by destruct (next_fault _) as [[e|] rest]. Qed.

Lemma SeekPartitions_consumer positions w : same_consumer w (SeekPartitions positions w).
Proof. unfold SeekPartitions. by destruct positions. Qed.

Lemma AbortTransaction_consumer w : same_consumer w (AbortTransaction w).
Proof. done. Qed.

Lemma tallied_zero : tallied zeroCounters 0.
Proof. by compute. Qed.

Lemma bounded_zero bound : 0 <= bound -> bounded bound zeroCounters.
Proof.
  intros Hb. exists 0. split; [apply tallied_zero|].
  change (consumed zeroCounters) with 0. lia.
Qed.

Lemma bounded_weaken bound bound' c : bound <= bound' -> bounded bound c -> bounded bound' c.
Proof. intros Hle (n & Ht & Hn & Hc). exists n. split; [done|]. lia. Qed.

Section RetryTallyProperties.
Context {helpers : Helpers}.
Variable rc : AbstractBatchConsumer.

Lemma isTimeToRetry_consumer message w : same_consumer w (snd (isTimeToRetry message w)).
Proof.
  unfold isTimeToRetry. destruct (GetKafkaTimeHeader _ _) as [t [e|]]; [done|].
  by destruct (IsZero t).
Qed.

(** The decision of [reclassify] is one of the three single counters. *)
Lemma reclassify_decision message originalTopic retries w :
  let '(out, singleCount, w') := reclassify rc message originalTopic retries w in
  same_consumer w w' /\
  (singleCount = incr_deadLettered zeroCounters \/
   singleCount = incr_notReadyReadded zeroCounters \/
   singleCount = incr_retryScheduled zeroCounters).
Proof.
  unfold reclassify. destruct (_ <=? _); [split; [done|by left]|].
  pose proof (isTimeToRetry_consumer message w) as Heff.
  destruct (isTimeToRetry message w) as [ready w']. simpl in Heff.
  destruct ready; simpl; (split; [done|]); [right; by right|right; by left].
Qed.

Lemma accumulate_tallied c singleCount n :
  tallied c n -> n < int_max -> 0 <= consumed c <= int_max ->
  singleCount = incr_deadLettered zeroCounters \/
  singleCount = incr_notReadyReadded zeroCounters \/
  singleCount = incr_retryScheduled zeroCounters ->
  tallied (accumulate c singleCount) (n + 1) /\
  consumed (accumulate c singleCount) = consumed c.
Proof.
  intros (Hs & Hp & Hf & Hd & Hn & Hr & Hsum) Hlt Hc Hsingle.
  assert (Hint : forall x, 0 <= x <= n -> int_add x 0 = x /\ int_add x 1 = x + 1).
  { intros x Hx. split; [apply int_add_0_r|apply int_add_small];
      unfold is_int, int_min, int_max in *; lia. }
  assert (Hc0 : int_add (consumed c) 0 = consumed c).
  { apply int_add_0_r. unfold is_int, int_min, int_max in *. lia. }
  destruct (Hint (deadLettered c) ltac:(lia)) as [Hd0 Hd1].
  destruct (Hint (notReadyReadded c) ltac:(lia)) as [Hn0 Hn1].
  destruct (Hint (retryScheduled c) ltac:(lia)) as [Hr0 Hr1].
  unfold tallied.
  destruct Hsingle as [-> | [-> | ->]]; simpl;
    change (int_add 0 1) with 1; rewrite ?Hs, ?Hp, ?Hf, ?Hc0, ?Hd0, ?Hd1, ?Hn0, ?Hn1, ?Hr0, ?Hr1;
    change (int_add 0 0) with 0; repeat split; try done; lia.
Qed.

Lemma processMessage_tally w0 i nb message l w :
  same_committed w0 w -> same_consumer w0 w -> retired w0 = false ->
  consumed (counters l) = Z.of_nat (S i) -> Z.of_nat (S i) <= int_max ->
  txOpened l = true -> nextBatch l = nb ->
  tallied (counters l) (Z.of_nat (length (txMessages w))) ->
  Z.of_nat (length (txMessages w)) < consumed (counters l) ->
  tally_post w0 i nb (processMessage rc message l w).
Proof.
  intros Hsame Hcons Hlive Hcount Hmax Hopen Hnb Htally Hlen.
  assert (Hskip : tally_post w0 i nb (Next l, w)).
  { split; [|done]. split; [done|]. split; [done|]. split; [done|].
    split; [congruence|]. split; [congruence|]. intros _. split; [lia|]. split; [done|lia]. }
  unfold processMessage.
  destruct (String.eqb _ ""); [exact Hskip|].
  destruct (GetKafkaIntHeader _ _) as [retries [e|]]; [exact Hskip|].
  pose proof (reclassify_effect rc message (GetKafkaHeader message originalTopicHeader) retries w)
    as Heff.
  pose proof (reclassify_decision message (GetKafkaHeader message originalTopicHeader) retries w)
    as Hdec.
  destruct (reclassify _ _ _ _ _) as [[out singleCount] w1].
  destruct Heff as (_ & Hsame1 & _ & _ & Hmsgs1 & _). destruct Hdec as (Hcons1 & Hsingle).
  pose proof (Produce_effect out w1) as Heff2.
  pose proof (Produce_consumer out w1) as Hcons2.
  destruct (Produce out w1) as [[e|] w2]; destruct Heff2 as (Hsame2 & _ & _ & Hmsgs2);
    simpl in Hcons2.
  - (* Produce failed *)
    split.
    { exists (Z.of_nat (length (txMessages w))). simpl. split; [done|]. lia. }
    split; [eauto using same_committed_trans|].
    split; [eauto using same_consumer_trans|]. split; [done|]. intros _. split; [done|by eexists].
  - (* Produce accepted the message *)
    destruct Hmsgs2 as (Hmsgs2 & _).
    destruct (accumulate_tallied (counters l) singleCount (Z.of_nat (length (txMessages w))))
      as (Htally' & Hcount'); [done|lia|lia|done|].
    split; [|done].
    split; [eauto using same_committed_trans|].
    split; [eauto using same_consumer_trans|].
    simpl counters. rewrite Hcount'.
    split; [done|]. split; [congruence|]. split; [simpl; congruence|]. intros _.
    rewrite Hmsgs2, Hmsgs1, length_app. simpl length.
    replace (Z.of_nat (length (txMessages w) + 1)) with (Z.of_nat (length (txMessages w)) + 1)
      by lia.
    split; [lia|]. split; [done|lia].
Qed.

Lemma tally_inv_bounded w0 i l w :
  tally_inv w0 i l w -> bounded (Z.of_nat i) (counters l).
Proof.
  intros (_ & _ & Hcount & _ & Hclosed & Hopen).
  destruct (txOpened l).
  - destruct (Hopen eq_refl) as (Hpos & Htally & Hlen). eexists. split; [exact Htally|]. lia.
  - rewrite (Hclosed eq_refl). apply bounded_zero. lia.
Qed.

Lemma iteration_tally w0 i highOffset l w :
  tally_inv w0 i l w -> Z.of_nat (S i) <= int_max ->
  tally_post w0 i (nextBatch l) (iteration rc highOffset l w).
Proof.
  intros Hinv Hmax. pose proof (tally_inv_bounded _ _ _ _ Hinv) as Hbounded.
  pose proof Hinv as (Hsame & Hcons & Hcount & Hret & Hclosed & Hopen).
  unfold iteration. destruct (retired w) eqn:Hretired.
  { (* retired: a bare return *)
    assert (Hr0 : retired w0 = true) by (destruct Hsame as (Hr & _); congruence).
    split; [apply (bounded_weaken (Z.of_nat i)); [lia|done]|].
    split; [done|]. split; [done|]. split; [|congruence]. intros _. simpl.
    specialize (Hret Hr0). subst i.
    destruct (txOpened l); [|by apply Hclosed]. destruct (Hopen eq_refl). lia. }
  assert (Hlive : retired w0 = false) by (destruct Hsame as (Hr & _); congruence).
  destruct (match lastPosition l with Some _ => _ | None => _ end).
  { split; [exact Hinv|done]. }
  pose proof (ReadMessage_effect (topicId rc) w) as Heff.
  pose proof (ReadMessage_consumer (topicId rc) w) as Hcons1.
  destruct (ReadMessage (topicId rc) w) as [[message|kafkaErr] w1];
    destruct Heff as (Hsame1 & Htx1 & Hmsgs1 & _ & _); simpl in Hcons1.
  - (* a message was read *)
    assert (Hincr : int_add (consumed (counters l)) 1 = Z.of_nat (S i)).
    { rewrite int_add_small; [lia|]. unfold is_int, int_min, int_max in *. lia. }
    simpl. rewrite Hincr.
    destruct (Z.eqb_spec (Z.of_nat (S i)) 1) as [Hone|Hmore].
    + (* the first message: the transaction is opened *)
      assert (Hzero : counters l = zeroCounters).
      { destruct (txOpened l); [|by apply Hclosed]. destruct (Hopen eq_refl). lia. }
      pose proof (BeginTransaction_effect w1) as Heff2.
      pose proof (BeginTransaction_consumer w1) as Hcons2.
      destruct (BeginTransaction w1) as [[e|] w2];
        destruct Heff2 as (Hsame2 & _ & _ & Htx2 & Hmsgs2); simpl in Hcons2.
      * split; [apply bounded_zero; lia|].
        split; [eauto using same_committed_trans|].
        split; [eauto using same_consumer_trans|]. split; [done|]. intros _.
        split; [done|by eexists].
      * apply processMessage_tally; simpl; rewrite ?Hincr, ?Hmsgs2; try done; try lia;
          eauto using same_committed_trans, same_consumer_trans.
        rewrite Hzero. by compute.
    + assert (Hwas : txOpened l = true).
      { destruct (txOpened l); [done|]. rewrite (Hclosed eq_refl) in Hcount. simpl in Hcount. lia. }
      destruct (Hopen Hwas) as (Hpos & Htally & Hlen).
      apply processMessage_tally; simpl; rewrite ?Hincr, ?Hmsgs1; try done; try lia;
        eauto using same_committed_trans, same_consumer_trans.
  - (* the read failed *)
    destruct (kafka.Error.Code kafkaErr).
    + split; [|done].
      split; [eauto using same_committed_trans|].
      split; [eauto using same_consumer_trans|]. simpl. rewrite Hmsgs1.
      split; [done|]. split; [done|]. split; done.
    + split; [apply bounded_zero; lia|].
      split; [eauto using same_committed_trans|].
      split; [eauto using same_consumer_trans|]. split; [done|]. intros _.
      split; [done|by eexists].
Qed.

(** The loop, started after [i] iterations with [n] more to go. *)
Lemma loop_tally w0 highOffset n i l w :
  tally_inv w0 i l w -> Z.of_nat (i + n) <= int_max ->
  match loop rc highOffset n l w with
  | (Next l', w') =>
      tally_inv w0 (i + n) l' w' /\ nextBatch l' = nextBatch l /\
      (n <> 0%nat -> retired w0 = false)
  | (Break l', w') =>
      exists j, (i <= j <= i + n)%nat /\ tally_inv w0 j l' w' /\ nextBatch l' = false
  | (Return l' results, w') => tally_return w0 (Z.of_nat (i + n)) results w'
  end.
Proof.
  revert i l w. induction n as [|n IH]; intros i l w Hinv Hmax.
  { simpl. rewrite Nat.add_0_r. done. }
  simpl. pose proof (iteration_tally w0 i highOffset l w Hinv ltac:(lia)) as Hstep.
  destruct (iteration rc highOffset l w) as [[l'|l'|l' results] w'].
  - destruct Hstep as (Hinv' & Hnb & Hlive).
    specialize (IH (S i) l' w' Hinv' ltac:(lia)).
    replace (i + S n)%nat with (S i + n)%nat by lia.
    destruct (loop rc highOffset n l' w') as [[l''|l''|l'' results] w''].
    + destruct IH as (? & ? & ?). split; [done|]. split; [congruence|done].
    + destruct IH as (j & Hj & Hinvj & Hnbj). exists j. split; [lia|done].
    + done.
  - destruct Hstep as (Hinv' & Hnb). exists i. split; [lia|done].
  - destruct Hstep as (Hb & Hrest). split; [|done].
    apply (bounded_weaken (Z.of_nat (S i))); [lia|done].
Qed.

(** The statements after the loop leave the consumer at its position; without
    error they report the counters and [nextBatch] of the loop, and the
    messages of the transaction have become visible. *)
Lemma afterLoop_tally w0 j l w :
  tally_inv w0 j l w ->
  let '(l', results, w') := afterLoop l w in
  bounded (Z.of_nat j) (fst (fst results)) /\ same_consumer w0 w' /\
  position w' = position w /\
  (snd results = None ->
   snd (fst results) = nextBatch l /\ fst (fst results) = counters l /\
   exists batch,
     delivered w' = delivered w0 ++ batch /\
     tallied (counters l) (Z.of_nat (length batch))).
Proof.
  intros Hinv. pose proof (tally_inv_bounded _ _ _ _ Hinv) as Hbounded.
  destruct Hinv as (Hsame & Hcons & Hcount & Hret & Hclosed & Hopen).
  assert (Hzero : bounded (Z.of_nat j) zeroCounters) by (apply bounded_zero; lia).
  unfold afterLoop. destruct (txOpened l) eqn:Htx; simpl.
  2:{ split; [done|]. split; [done|]. split; [done|]. intros _.
      split; [done|]. split; [done|]. exists []. rewrite app_nil_r.
      split; [by destruct Hsame as (_ & _ & ? & _)|].
      rewrite (Hclosed eq_refl). apply tallied_zero. }
  destruct (Hopen eq_refl) as (Hpos & Htally & Hlen).
  pose proof (GetConsumerGroupMetadata_effect w) as Heff1.
  pose proof (GetConsumerGroupMetadata_consumer w) as Hcons1.
  destruct (GetConsumerGroupMetadata w) as [e1 w1]. simpl in Heff1, Hcons1.
  destruct Heff1 as ((_ & _ & Hdel1 & _) & Hpos1 & _ & Hmsgs1 & _).
  destruct e1 as [e1|]; simpl.
  { split; [done|]. split; [eauto using same_consumer_trans|]. by split. }
  destruct (lastPosition l) as [p|]; simpl.
  2:{ split; [done|]. split; [eauto using same_consumer_trans|]. by split. }
  pose proof (SendOffsetsToTransaction_effect
                [kafka.TopicPartition.mk (kafka.TopicPartition.Topic p)
                   (kafka.TopicPartition.Partition p)
                   (int_add (kafka.TopicPartition.Offset p) 1)] w1) as Heff2.
  pose proof (SendOffsetsToTransaction_consumer
                [kafka.TopicPartition.mk (kafka.TopicPartition.Topic p)
                   (kafka.TopicPartition.Partition p)
                   (int_add (kafka.TopicPartition.Offset p) 1)] w1) as Hcons2.
  destruct (SendOffsetsToTransaction _ w1) as [e2 w2]. simpl in Hcons2.
  destruct Heff2 as (((_ & _ & Hdel2 & _) & Hpos2 & _ & Hmsgs2 & _) & _).
  destruct e2 as [e2|]; simpl.
  { split; [done|]. split; [eauto using same_consumer_trans|]. split; [congruence|done]. }
  pose proof (CommitTransaction_effect w2) as Heff3.
  pose proof (CommitTransaction_consumer w2) as Hcons3.
  destruct (CommitTransaction w2) as [[e3|] w3]; simpl in Hcons3; simpl.
  - destruct Heff3 as (_ & Hpos3 & _).
    split; [done|]. split; [eauto using same_consumer_trans|]. split; [congruence|done].
  - destruct Heff3 as (_ & _ & Hpos3 & _ & _ & _ & Hdel3 & _).
    split; [done|]. split; [eauto using same_consumer_trans|]. split; [congruence|].
    intros _. split; [done|]. split; [done|]. exists (txMessages w).
    destruct Hsame as (_ & _ & Hdel & _). split; [|done].
    rewrite Hdel3. congruence.
Qed.

Lemma cleanup_consumer l results w : same_consumer w (snd (cleanup l results w)).
Proof.
  unfold cleanup. destruct results as [[c nb] [e|]]; [|done]. simpl.
  by destruct (firstPosition l) as [p|]; destruct (txOpened l).
Qed.

(** What [cleanup] returns: the results as they are when there is no error,
    and [nextBatch=false] with the same counters and error otherwise. *)
Lemma cleanup_results l c nb e w :
  fst (cleanup l (c, nb, e) w)
  = (c, match e with Some _ => false | None => nb end, e) /\
  (e = None -> snd (cleanup l (c, nb, e) w) = w).
Proof. unfold cleanup. by destruct e. Qed.

(** The accounting of a batch: its counters, the messages it has made visible,
    and when it reports [nextBatch=true]. *)
Lemma processBatchImpl_tally (retryBatchSize : Z) (w : World) :
  retryBatchSize <= int_max ->
  let '((c, nb, e), w') := processBatchImpl rc retryBatchSize w in
  bounded (Z.max 0 retryBatchSize) c /\ same_consumer w w' /\
  (e = None ->
   exists batch,
     delivered w' = delivered w ++ batch /\
     Z.of_nat (length batch) = deadLettered c + notReadyReadded c + retryScheduled c) /\
  (nb = true -> retired w = false -> e = None /\ consumed c = Z.max 0 retryBatchSize).
Proof.
  intros Hsize. unfold processBatchImpl.
  pose proof (QueryWatermarkOffsets_effect (topicId rc) 0 w) as Heff0.
  pose proof (QueryWatermarkOffsets_consumer (topicId rc) 0 w) as Hcons0.
  destruct (QueryWatermarkOffsets (topicId rc) 0 w) as [[[low highOffset] e0] w0].
  simpl in Heff0, Hcons0. destruct Heff0 as ((Hret0 & _ & Hdel0 & _) & _).
  set (l0 := with_nextBatch true
               (with_err (as_error e0) (mkLocals None None false zeroCounters false None))).
  assert (Hinv0 : tally_inv w0 0 l0 w0).
  { split; [done|]. split; [done|]. split; [done|]. split; [done|]. split; [done|].
    intros [=]. }
  assert (Hmax : Z.of_nat (Z.to_nat retryBatchSize) = Z.max 0 retryBatchSize) by lia.
  pose proof (loop_tally w0 highOffset (Z.to_nat retryBatchSize) 0 l0 w0 Hinv0
                ltac:(simpl; unfold int_max in *; lia))
    as Hloop.
  simpl Nat.add in Hloop. rewrite Hmax in Hloop.
  assert (Hafter : forall j l w1,
            (j <= Z.to_nat retryBatchSize)%nat -> tally_inv w0 j l w1 ->
            (nextBatch l = true -> j = Z.to_nat retryBatchSize) ->
            let '(l', results, w2) := afterLoop l w1 in
            let '((c, nb, e), w') := cleanup l' results w2 in
            bounded (Z.max 0 retryBatchSize) c /\ same_consumer w w' /\
            (e = None ->
             exists batch,
               delivered w' = delivered w ++ batch /\
               Z.of_nat (length batch)
               = deadLettered c + notReadyReadded c + retryScheduled c) /\
            (nb = true -> retired w = false -> e = None /\ consumed c = Z.max 0 retryBatchSize)).
  { intros j l w1 Hj Hinv Hfull.
    pose proof (afterLoop_tally w0 j l w1 Hinv) as Hpost.
    destruct (afterLoop l w1) as [[l' [[c nb] e]] w2]. simpl in Hpost.
    destruct Hpost as (Hb & Hcons & _ & Hnone).
    pose proof (cleanup_consumer l' (c, nb, e) w2) as Hcons2.
    pose proof (cleanup_results l' c nb e w2) as [Hres Hworld].
    destruct (cleanup l' (c, nb, e) w2) as [[[c' nb'] e'] w']. simpl in Hcons2, Hres, Hworld.
    injection Hres as -> -> ->.
    split; [apply (bounded_weaken (Z.of_nat j)); [lia|done]|].
    split; [eauto using same_consumer_trans|]. split.
    - intros ->. destruct (Hnone eq_refl) as (_ & -> & batch & Hdel & Ht).
      rewrite (Hworld eq_refl). exists batch. split; [congruence|].
      destruct Ht as (_ & _ & _ & _ & _ & _ & Hsum). lia.
    - destruct e as [e|]; [done|]. intros -> _. split; [done|].
      destruct (Hnone eq_refl) as (Hnb & -> & _).
      destruct Hinv as (_ & _ & Hcount & _). rewrite Hcount.
      rewrite (Hfull (eq_sym Hnb)). lia. }
  destruct (loop rc highOffset (Z.to_nat retryBatchSize) l0 w0) as [[l|l|l results] w1].
  - destruct Hloop as (Hinv & Hnb & _).
    pose proof (Hafter (Z.to_nat retryBatchSize) l w1 ltac:(lia) Hinv ltac:(done)) as Hpost.
    by destruct (afterLoop l w1) as [[l' results] w2].
  - destruct Hloop as (j & Hj & Hinv & Hnb).
    pose proof (Hafter j l w1 ltac:(lia) Hinv ltac:(congruence)) as Hpost.
    by destruct (afterLoop l w1) as [[l' results] w2].
  - destruct Hloop as (Hb & Hsame & Hcons & Hnone & Hlive).
    destruct results as [[c nb] e].
    pose proof (cleanup_consumer l (c, nb, e) w1) as Hcons2.
    pose proof (cleanup_results l c nb e w1) as [Hres Hworld].
    destruct (cleanup l (c, nb, e) w1) as [[[c' nb'] e'] w']. simpl in *.
    injection Hres as -> -> ->.
    split; [done|]. split; [eauto using same_consumer_trans|]. split.
    + intros ->. rewrite (Hworld eq_refl), (Hnone eq_refl). exists [].
      rewrite app_nil_r. destruct Hsame as (_ & _ & Hdel & _). split; [congruence|done].
    + destruct e as [e|]; [done|]. intros -> Hr.
      destruct (Hlive ltac:(congruence)) as [[=] _].
Qed.

End RetryTallyProperties.

(** ** The retry consumer: what a batch reports *)

Section RetryBatchExtras.
Context {utils : bulker.Utils} {helpers : Helpers}.
Variable rc : AbstractBatchConsumer.


(** A batch on a consumer whose partition is paused reads nothing: its one
    read times out, and it ends without error, with zero counters and
    [nextBatch=false]. *)
Lemma processBatchImpl_paused (retryBatchSize : Z) (w : World) :
  1 <= retryBatchSize -> retired w = false -> fetchPaused w = true ->
  watermarks (script w) = [] -> readFaults (script w) = [] ->
  exists w',
    processBatchImpl rc retryBatchSize w = ((zeroCounters, false, None), w') /\
    same_committed w w' /\ same_consumer w w' /\ position w' = position w /\
    inTransaction w' = inTransaction w /\
    calls w' = calls w ++ [CallQueryWatermarkOffsets (topicId rc) 0; CallReadMessage].
Proof.
  intros Hsize Hlive Hpaused Hmarks Hreads.
  unfold processBatchImpl, QueryWatermarkOffsets. simpl. rewrite Hmarks.
  destruct (Z.to_nat retryBatchSize) as [|n] eqn:Hn; [lia|].
  simpl. unfold iteration. simpl. rewrite Hlive. unfold ReadMessage. simpl.
  rewrite Hreads. simpl. rewrite Hpaused. simpl.
  eexists. split; [reflexivity|]. simpl. rewrite <- app_assoc. by repeat split.
Qed.

(** A failed [resume] leaves the consumer paused. *)
Lemma resume_failed (w : World) (outcome : ResumeOutcome) (rest : list ResumeOutcome) :
  paused w = true -> resumeOutcomes (script w) = outcome :: rest ->
  outcome = ResumeAssignmentFailed \/ outcome = ResumeTimeout ->
  paused (resume w) = true /\ fetchPaused (resume w) = fetchPaused w /\
  retired (resume w) = retired w /\ position (resume w) = position w /\
  same_committed w (resume w) /\ same_consumer w (resume w) /\
  inTransaction (resume w) = inTransaction w /\
  watermarks (script (resume w)) = watermarks (script w) /\
  readFaults (script (resume w)) = readFaults (script w) /\
  calls (resume w) = calls w ++ [CallAssignment].
Proof.
  intros Hpaused Houtcomes Hfailed. unfold resume. rewrite Hpaused. simpl.
  rewrite Houtcomes. by destruct Hfailed as [-> | ->].
Qed.

(** X17: When [resume] fails at the start of a run (the request for the assignment
    fails, or the pause loop does not take the token in time), the error is
    only logged: the batch runs on the paused consumer, reads nothing, and the
    run of the retry consumer ends after this one batch with zero counters and
    without error, the consumer staying paused at its position. *)
Theorem retry_ConsumeAll_resume_failure_is_silent (fuel : nat) (w : World) (d : Destination)
    (outcome : ResumeOutcome) (rest : list ResumeOutcome) :
  retired w = false -> paused w = true -> fetchPaused w = true ->
  repository w = Some d -> destinationId_of d = destinationId rc ->
  1 <= snd (effectiveBatchSizes rc (streamOptions d)) ->
  watermarks (script w) = [] -> readFaults (script w) = [] ->
  resumeOutcomes (script w) = outcome :: rest ->
  outcome = ResumeAssignmentFailed \/ outcome = ResumeTimeout ->
  exists w',
    ConsumeAll rc (retryBatchFunc rc) (S fuel) w = Some ((zeroCounters, None), w') /\
    same_committed w w' /\ position w' = position w /\
    paused w' = true /\ fetchPaused w' = true /\ idle w' = true /\
    produced (calls w') = produced (calls w) /\
    In (CallConsumerRuns "success") (calls w').
Proof.
  intros Hlive Hpaused Hfetch Hrepo Hid Hsize Hmarks Hreads Houtcomes Hfailed.
  unfold ConsumeAll. rewrite Hlive. unfold LeaseDestination.
  cbn [repository record_call with_flags]. rewrite Hrepo, Hid, String.eqb_refl.
  destruct (effectiveBatchSizes rc (streamOptions d)) as [maxBatchSize retryBatchSize].
  simpl in Hsize.
  set (w1 := with_leaseCount _ _).
  assert (Hw1 : paused w1 = true /\ resumeOutcomes (script w1) = outcome :: rest /\
                retired w1 = false /\ fetchPaused w1 = true /\
                watermarks (script w1) = [] /\ readFaults (script w1) = [] /\
                same_committed w w1 /\ position w1 = position w /\
                produced (calls w1) = produced (calls w)).
  { subst w1. simpl. rewrite produced_app, app_nil_r. by repeat split. }
  destruct Hw1 as (Hp1 & Ho1 & Hr1 & Hf1 & Hm1 & Hrd1 & Hsame1 & Hpos1 & Hprod1).
  destruct (resume_failed w1 outcome rest Hp1 Ho1 Hfailed)
    as (Hp2 & Hf2 & Hr2 & Hpos2 & Hsame2 & _ & _ & Hm2 & Hrd2 & Hcalls2).
  destruct (processBatchImpl_paused retryBatchSize (resume w1) Hsize)
    as (w3 & Hbatch & Hsame3 & Hcons3 & Hpos3 & _ & Hcalls3); try congruence.
  cbn [batchLoop]. rewrite Hr1. unfold processBatch, retryBatchFunc. rewrite Hbatch.
  cbn [negb]. eexists. split; [reflexivity|].
  destruct Hcons3 as (Hr3 & _ & Hp3 & _ & _ & _ & Hf3 & _).
  unfold Release, pause. simpl. rewrite Hr3, Hr2, Hr1, Hp3, Hp2. simpl.
  split.
  { apply (same_committed_trans _ w1); [done|]. apply (same_committed_trans _ (resume w1));
      [done|]. destruct Hsame3 as (? & ? & ? & ?). by repeat split. }
  split; [congruence|]. split; [congruence|]. split; [congruence|]. split; [done|].
  split.
  { rewrite !produced_app, Hcalls3, produced_app, Hcalls2, produced_app. simpl.
    rewrite !app_nil_r. done. }
  apply in_or_app. right. by left.
Qed.

End RetryBatchExtras.

(** ** A run of the batch consumer *)

Lemma wrap_wrap_sub (a b : Z) : wrap (wrap a - b) = wrap (a - b).
Proof.
  unfold wrap. f_equal.
  replace ((a + 2 ^ 63) mod 2 ^ 64 - 2 ^ 63 - b + 2 ^ 63)
    with ((a + 2 ^ 63) mod 2 ^ 64 - b) by lia.
  rewrite Zminus_mod_idemp_l. f_equal. lia.
Qed.

Lemma lease_release (n : Z) : is_int n -> int_sub (int_add n 1) 1 = n.
Proof.
  intros Hn. unfold int_sub, int_add. rewrite wrap_wrap_sub.
  replace (n + 1 - 1) with n by lia. by apply wrap_id.
Qed.

Section RunProperties.
Context {utils : bulker.Utils}.
Variable bc : AbstractBatchConsumer.
Variable batchFunc : BatchFunction.

(** What [resume] leaves as it is. *)
Lemma resume_frame (w : World) :
  retired (resume w) = retired w /\ idle (resume w) = idle w /\
  closed (resume w) = closed w /\ repository (resume w) = repository w /\
  leaseCount (resume w) = leaseCount w /\ log (resume w) = log w /\
  position (resume w) = position w /\ watermarks (script (resume w)) = watermarks (script w).
Proof.
  unfold resume. destruct (negb (paused w)); [done|].
  by destruct (resumeOutcomes _) as [|[| [e|] |] rest].
Qed.

Lemma batchLoop_failed fuel destination batchNumber maxBatchSize retryBatchSize counters w :
  failed counters = 0 ->
  match batchLoop batchFunc fuel destination batchNumber maxBatchSize retryBatchSize counters w with
  | Some ((c, _), _) => failed c = 0
  | None => True
  end.
Proof.
  revert batchNumber counters w. induction fuel as [|fuel IH]; intros batchNumber counters w Hf;
    [done|].
  simpl. destruct (retired w); [done|].
  destruct (processBatch batchFunc destination batchNumber maxBatchSize retryBatchSize w)
    as [[[batchStats nb] err2] w'].
  destruct (negb nb); [done|]. by apply IH.
Qed.

(** X11: The totals of a run never count a failed message, whatever the batch
    function reports: [accumulate] leaves [failed] at the zero of the named
    result, so the run's metric and log line never mention it. *)
Theorem ConsumeAll_never_counts_failed (fuel : nat) (w : World) :
  match ConsumeAll bc batchFunc fuel w with
  | Some ((counters, _), _) =>
      failed counters = 0 /\
      (forall amount, ("failed"%string, amount) ∉ countersMetric counters)
  | None => True
  end.
Proof.
  assert (Hmetric : forall c, failed c = 0 ->
            forall amount, ("failed"%string, amount) ∉ countersMetric c).
  { intros c Hf amount. unfold countersMetric, counterFields. simpl. rewrite Hf. simpl.
    repeat (match goal with |- context [if ?b then _ else _] => destruct b end); simpl;
      rewrite ?not_elem_of_cons; repeat split; try discriminate; apply not_elem_of_nil. }
  unfold ConsumeAll. destruct (retired w); [by split; [|apply Hmetric]|].
  destruct (LeaseDestination _ _) as [[destination|] w1]; [|by split; [|apply Hmetric]].
  destruct (effectiveBatchSizes bc _) as [maxBatchSize retryBatchSize].
  pose proof (batchLoop_failed fuel destination 1 maxBatchSize retryBatchSize zeroCounters w1
                eq_refl) as Hloop.
  destruct (batchLoop _ _ _ _ _ _ _ _) as [[[c e] w2]|]; [|done].
  simpl. split; [done|by apply Hmetric].
Qed.

(** X12: A run on a consumer whose destination is not in the repository retires the
    consumer and, since the deferred function finds it idle and retired, closes
    it; the batch function is not called. *)
Theorem ConsumeAll_destination_not_found (fuel : nat) (w : World) :
  retired w = false ->
  (forall d, repository w = Some d -> destinationId_of d <> destinationId bc) ->
  exists w',
    ConsumeAll bc batchFunc fuel w
    = Some ((zeroCounters, Some (ErrDestinationNotFound (destinationId bc))), w') /\
    retired w' = true /\ idle w' = true /\ closed w' = true /\ paused w' = paused w /\
    leaseCount w' = leaseCount w /\ position w' = position w /\
    fetchPaused w' = fetchPaused w /\
    calls w' = calls w ++ [CallLeaseDestination (destinationId bc); CallCloseConsumer;
                           CallCountersMetric zeroCounters; CallConsumerRuns "fail"].
Proof.
  intros Hlive Hmissing. unfold ConsumeAll. rewrite Hlive.
  unfold LeaseDestination. simpl.
  assert (Hnone : forall d, repository w = Some d ->
                            String.eqb (destinationId_of d) (destinationId bc) = false).
  { intros d Hd. apply String.eqb_neq. by apply Hmissing. }
  destruct (repository w) as [d|] eqn:Hrepo; [rewrite (Hnone d eq_refl)|];
    (eexists; split; [reflexivity|]); simpl; rewrite <- !app_assoc; by repeat split.
Qed.

(** X13: When a run returns, the consumer is idle again, and it is paused, or
    closed when it has been retired meanwhile. *)
Theorem ConsumeAll_leaves_idle (fuel : nat) (w : World) :
  retired w = false ->
  match ConsumeAll bc batchFunc fuel w with
  | Some (_, w') => idle w' = true /\ (if retired w' then closed w' = true else paused w' = true)
  | None => True
  end.
Proof.
  intros Hlive.
  assert (Hdeferred : forall results w1,
            let w' := snd (consumeAllDeferred results w1) in
            idle w' = true /\ (if retired w' then closed w' = true else paused w' = true)).
  { intros results w1. unfold consumeAllDeferred, pause. simpl.
    destruct (retired w1) eqn:Hr; simpl; [done|].
    by destruct (paused w1) eqn:Hp. }
  unfold ConsumeAll. rewrite Hlive.
  destruct (LeaseDestination _ _) as [[destination|] w1]; [|apply Hdeferred].
  destruct (effectiveBatchSizes bc _) as [maxBatchSize retryBatchSize].
  destruct (batchLoop _ _ _ _ _ _ _ _) as [[results w2]|]; [|done]. apply Hdeferred.
Qed.

End RunProperties.

(** ** A run of the retry consumer *)

Section RetryRunProperties.
Context {utils : bulker.Utils} {helpers : Helpers}.
Variable rc : AbstractBatchConsumer.

Lemma processBatch_consumer destination batchNum batchSize retryBatchSize w :
  retryBatchSize <= int_max ->
  let w' := snd (processBatch (retryBatchFunc rc) destination batchNum batchSize
                   retryBatchSize w) in
  retired w' = retired w /\ repository w' = repository w /\ leaseCount w' = leaseCount w /\
  log w' = log w.
Proof.
  intros Hsize. unfold processBatch, retryBatchFunc.
  pose proof (processBatchImpl_tally rc retryBatchSize (resume w) Hsize) as Htally.
  pose proof (resume_frame w) as (Hr & _ & _ & Hrepo & Hlease & Hlog & _).
  destruct (processBatchImpl rc retryBatchSize (resume w)) as [[[c nb] e] w'].
  destruct Htally as (_ & (? & ? & ? & ? & ? & ? & ? & ?) & _). simpl.
  repeat split; congruence.
Qed.

Lemma batchLoop_consumer fuel destination batchNumber maxBatchSize retryBatchSize counters w :
  retryBatchSize <= int_max ->
  match batchLoop (retryBatchFunc rc) fuel destination batchNumber maxBatchSize
          retryBatchSize counters w with
  | Some (_, w') =>
      retired w' = retired w /\ repository w' = repository w /\ leaseCount w' = leaseCount w
  | None => True
  end.
Proof.
  intros Hsize. revert batchNumber counters w.
  induction fuel as [|fuel IH]; intros batchNumber counters w; [done|].
  simpl. destruct (retired w) eqn:Hretired; [done|].
  pose proof (processBatch_consumer destination batchNumber maxBatchSize retryBatchSize w Hsize)
    as Hbatch.
  destruct (processBatch _ _ _ _ _ _) as [[[batchStats nb] err2] w1]. simpl in Hbatch.
  destruct Hbatch as (Hr & Hrepo & Hlease & _).
  destruct (negb nb); [split; [congruence|done]|].
  specialize (IH (int_add batchNumber 1) (accumulate counters batchStats) w1).
  destruct (batchLoop _ _ _ _ _ _ _ _) as [[results w2]|]; [|done].
  destruct IH as (? & ? & ?). repeat split; congruence.
Qed.

(** X14: Whenever a run of the retry consumer returns, the lease it has taken on the
    destination is released, the repository is as before, and the consumer has
    been retired only if its destination was not found. *)
Theorem retry_ConsumeAll_releases_lease (fuel : nat) (w : World) :
  is_int (leaseCount w) ->
  (forall d, repository w = Some d ->
             snd (effectiveBatchSizes rc (streamOptions d)) <= int_max) ->
  match ConsumeAll rc (retryBatchFunc rc) fuel w with
  | Some (_, w') =>
      leaseCount w' = leaseCount w /\ repository w' = repository w /\
      (retired w' = true ->
       retired w = true \/
       forall d, repository w = Some d -> destinationId_of d <> destinationId rc)
  | None => True
  end.
Proof.
  intros Hint Hsize.
  assert (Hdeferred : forall results w1 res w',
            consumeAllDeferred results w1 = (res, w') ->
            leaseCount w' = leaseCount w1 /\ repository w' = repository w1 /\
            retired w' = retired w1).
  { intros results w1 res w'. unfold consumeAllDeferred, pause. simpl. intros [= _ <-].
    destruct (retired w1); simpl; [done|]. by destruct (paused w1). }
  unfold ConsumeAll. destruct (retired w) eqn:Hretired; [by split; [|split; [|left]]|].
  unfold LeaseDestination. cbn [repository record_call with_flags].
  destruct (repository w) as [d|] eqn:Hrepo.
  2:{ destruct (consumeAllDeferred _ _) as [res w'] eqn:Hd.
      apply Hdeferred in Hd as (Hl & Hr & _). simpl in Hl, Hr.
      split; [done|]. split; [congruence|]. intros _. right. by intros d [=]. }
  destruct (String.eqb_spec (destinationId_of d) (destinationId rc)) as [Hid|Hid].
  2:{ destruct (consumeAllDeferred _ _) as [res w'] eqn:Hd.
      apply Hdeferred in Hd as (Hl & Hr & _). simpl in Hl, Hr.
      split; [done|]. split; [congruence|]. intros _. right. by intros d' [= <-]. }
  specialize (Hsize d eq_refl).
  destruct (effectiveBatchSizes rc (streamOptions d)) as [maxBatchSize retryBatchSize].
  simpl in Hsize.
  set (w1 := with_leaseCount _ _).
  pose proof (batchLoop_consumer fuel d 1 maxBatchSize retryBatchSize zeroCounters w1 Hsize)
    as Hloop.
  destruct (batchLoop _ _ _ _ _ _ _ _) as [[results w2]|]; [|done].
  destruct Hloop as (Hr2 & Hrepo2 & Hlease2).
  destruct (consumeAllDeferred _ _) as [res w'] eqn:Hd.
  apply Hdeferred in Hd as (Hl & Hr & Hret). unfold Release in Hl, Hr, Hret.
  simpl in Hl, Hr, Hret. subst w1. simpl in Hr2, Hrepo2, Hlease2.
  split; [|split].
  - rewrite Hl, Hlease2. by apply lease_release.
  - congruence.
  - rewrite Hret, Hr2. done.
Qed.

(** A batch of the retry consumer with a batch size of zero or less reads
    nothing and reports [nextBatch=true]. *)
Lemma processBatchImpl_empty (retryBatchSize : Z) (w : World) :
  retryBatchSize <= 0 -> watermarks (script w) = [] ->
  processBatchImpl rc retryBatchSize w
  = ((zeroCounters, true, None),
     record_call (CallQueryWatermarkOffsets (topicId rc) 0) w).
Proof.
  intros Hsize Hquiet. unfold processBatchImpl, QueryWatermarkOffsets. simpl.
  rewrite Hquiet. by replace (Z.to_nat retryBatchSize) with 0%nat by lia.
Qed.

Lemma batchLoop_spins destination maxBatchSize retryBatchSize fuel batchNumber counters w :
  retryBatchSize <= 0 -> retired w = false -> watermarks (script w) = [] ->
  batchLoop (retryBatchFunc rc) fuel destination batchNumber maxBatchSize retryBatchSize
    counters w = None.
Proof.
  intros Hsize. revert batchNumber counters w.
  induction fuel as [|fuel IH]; intros batchNumber counters w Hlive Hquiet; [done|].
  simpl. rewrite Hlive. unfold processBatch, retryBatchFunc.
  pose proof (resume_frame w) as (Hr & _ & _ & _ & _ & _ & _ & Hw).
  rewrite processBatchImpl_empty by (done || congruence). simpl.
  apply IH; simpl; congruence.
Qed.

(** X15: A retry consumer whose effective retry batch size is zero or less never
    finishes a run (unless it is retired from outside or the query of the
    watermark fails): every batch reads nothing and asks for a next batch. *)
Theorem retry_ConsumeAll_spins (fuel : nat) (w : World) (d : Destination) :
  retired w = false -> watermarks (script w) = [] ->
  repository w = Some d -> destinationId_of d = destinationId rc ->
  snd (effectiveBatchSizes rc (streamOptions d)) <= 0 ->
  ConsumeAll rc (retryBatchFunc rc) fuel w = None.
Proof.
  intros Hlive Hquiet Hrepo Hid Hsize. unfold ConsumeAll. rewrite Hlive.
  unfold LeaseDestination. cbn [repository record_call with_flags].
  rewrite Hrepo, Hid, String.eqb_refl.
  destruct (effectiveBatchSizes rc (streamOptions d)) as [maxBatchSize retryBatchSize].
  simpl in Hsize. by rewrite batchLoop_spins.
Qed.




End RetryRunProperties.

(** ** The retry consumer: redelivery *)

Lemma Atoi_value_is_int (s : string) : is_int (fst (Atoi s)).
Proof.
  unfold Atoi.
  destruct (match s with
            | String c rest => if Ascii.eqb c "+" then (false, rest)
                               else if Ascii.eqb c "-" then (true, rest) else (false, s)
            | EmptyString => (false, s)
            end) as [neg digits].
  destruct (NilZero.uint_of_string digits) as [d|]; [|by compute].
  set (m := if neg then - Z.of_uint d else Z.of_uint d).
  destruct (Z.ltb_spec m int_min); [by compute|].
  destruct (Z.ltb_spec int_max m); [by compute|]. simpl. split; lia.
Qed.

Lemma GetKafkaIntHeader_value_is_int (message : kafka.Message.t) (name : string) :
  is_int (fst (GetKafkaIntHeader message name)).
Proof.
  unfold GetKafkaIntHeader. destruct (String.eqb _ ""); [by compute|apply Atoi_value_is_int].
Qed.

Section RedeliveryProperties.
Context {helpers : Helpers}.
Variable rc : AbstractBatchConsumer.

(** X18: [isTimeToRetry] answers yes exactly when the [retry_time] header cannot be
    parsed, is unset (the zero time), or lies strictly before the current time;
    a deadline equal to the current time is not yet due. *)
Theorem isTimeToRetry_iff (message : kafka.Message.t) (w : World) :
  let retryTime := fst (GetKafkaTimeHeader message retryTimeHeader) in
  let parseErr := snd (GetKafkaTimeHeader message retryTimeHeader) in
  let now := Z.of_N (clock (script w) (clockReads (script w))) in
  (fst (isTimeToRetry message w) = true
   <-> parseErr <> None \/ retryTime = 0 \/ retryTime < now) /\
  (fst (isTimeToRetry message w) = false
   <-> parseErr = None /\ retryTime <> 0 /\ now <= retryTime) /\
  (parseErr <> None \/ retryTime = 0 -> snd (isTimeToRetry message w) = w).
Proof.
  intros retryTime parseErr now. subst retryTime parseErr now. unfold isTimeToRetry.
  destruct (GetKafkaTimeHeader message retryTimeHeader) as [retryTime [e|]]; simpl.
  { split; [split; [by left|done]|]. split; [|done]. split; [done|]. by intros [[=] _]. }
  unfold IsZero. destruct (Z.eqb_spec retryTime 0) as [Hz|Hnz]; simpl.
  { split; [split; [right; by left|done]|]. split; [|done]. split; [done|]. by intros (_ & ? & _). }
  unfold After.
  destruct (Z.ltb_spec retryTime (Z.of_N (clock (script w) (clockReads (script w)))));
    (split; [split|split; [split|]]); try done.
  - right. by right.
  - intros (_ & _ & ?). lia.
  - by intros [?|?].
  - intros [?|[?|?]]; [done|done|lia].
  - by intros [?|?].
Qed.

Lemma reclassify_ready (message : kafka.Message.t) (retries : Z) (w : World) :
  retries < MessagesRetryCount (config rc) ->
  fst (isTimeToRetry message w) = true ->
  reclassify rc message (GetKafkaHeader message originalTopicHeader) retries w
  = (kafka.Message.mk
       (kafka.TopicPartition.mk (GetKafkaHeader message originalTopicHeader)
          kafka.PartitionAny 0)
       (kafka.Message.Value message) (kafka.Message.Key message)
       [kafka.Header.mk originalTopicHeader (GetKafkaHeader message originalTopicHeader);
        kafka.Header.mk retriesCountHeader (Itoa (int_add retries 1))],
     incr_retryScheduled zeroCounters, snd (isTimeToRetry message w)).
Proof.
  intros Hlt Hready. unfold reclassify.
  destruct (Z.leb_spec (MessagesRetryCount (config rc)) retries); [lia|].
  destruct (isTimeToRetry message w) as [ready w1]. simpl in Hready. by subst ready.
Qed.

(** X19: A message that is due for redelivery (it has an [original_topic], a
    [retries] header below [MessagesRetryCount], and [isTimeToRetry] says yes)
    is handed to [Produce] addressed to its original topic, with key and value
    unchanged, with the [retries] header incremented by one and without a
    [retry_time] header; when [Produce] accepts it the [retryScheduled] counter
    grows by one. *)
Theorem ready_message_rescheduled (message : kafka.Message.t) (retries : Z)
    (l : Locals) (w : World) :
  GetKafkaHeader message originalTopicHeader <> ""%string ->
  GetKafkaIntHeader message retriesCountHeader = (retries, None) ->
  retries < MessagesRetryCount (config rc) ->
  MessagesRetryCount (config rc) <= int_max ->
  fst (isTimeToRetry message w) = true ->
  exists out,
    let counted := accumulate (counters l) (incr_retryScheduled zeroCounters) in
    processMessage rc message l w
    = match Produce out (snd (isTimeToRetry message w)) with
      | (Some _, w') => (Return l (counters l, false, Some ErrProduce), w')
      | (None, w') => (Next (with_counters counted l), w')
      end /\
    kafka.Message.TopicPartition out
    = kafka.TopicPartition.mk (GetKafkaHeader message originalTopicHeader)
        kafka.PartitionAny 0 /\
    kafka.Message.Key out = kafka.Message.Key message /\
    kafka.Message.Value out = kafka.Message.Value message /\
    GetKafkaHeader out originalTopicHeader = GetKafkaHeader message originalTopicHeader /\
    GetKafkaIntHeader out retriesCountHeader = (retries + 1, None) /\
    GetKafkaHeader out retryTimeHeader = ""%string /\
    retryScheduled counted = int_add (retryScheduled (counters l)) 1 /\
    deadLettered counted = int_add (deadLettered (counters l)) 0 /\
    notReadyReadded counted = int_add (notReadyReadded (counters l)) 0.
Proof.
  intros Htopic Hretries Hlt Hmax Hready.
  pose proof (GetKafkaIntHeader_is_int _ _ _ Hretries) as [Hlo Hhi].
  assert (Hnext : int_add retries 1 = retries + 1).
  { apply int_add_small. unfold is_int in *. lia. }
  eexists. cbv zeta. split.
  { rewrite (processMessage_reclassified _ _ _ _ _ Htopic Hretries).
    by rewrite (reclassify_ready _ _ _ Hlt Hready). }
  split; [reflexivity|]. split; [reflexivity|]. split; [reflexivity|]. split; [reflexivity|].
  split.
  { apply retries_header_roundtrip; [unfold is_int in *; lia|]. by rewrite Hnext. }
  split; [reflexivity|]. split; [reflexivity|]. split; reflexivity.
Qed.

(** X20: The round trip through the retry topic: the message that the failure path
    of a stream consumer writes for a failed message with [retries] attempts
    carries the topic of the stream consumer as [original_topic] and the same
    [retries]; the retry consumer that reads it does not skip it, and once it is
    due hands it to [Produce] addressed to the topic of the stream consumer,
    with the key and value of the failed message and [retries + 1]. *)
Theorem retry_round_trip (sc : StreamConsumer.t) (message redelivery : kafka.Message.t)
    (l : Locals) (w : World) :
  let retries := fst (GetKafkaIntHeader message retriesCountHeader) in
  let failed := snd (fst (StreamConsumer.retryMessage sc message)) in
  StreamConsumer.topicId sc <> ""%string ->
  retries < MessagesRetryCount (config rc) ->
  MessagesRetryCount (config rc) <= int_max ->
  kafka.Message.Headers redelivery = kafka.Message.Headers failed ->
  kafka.Message.Key redelivery = kafka.Message.Key failed ->
  kafka.Message.Value redelivery = kafka.Message.Value failed ->
  fst (isTimeToRetry redelivery w) = true ->
  GetKafkaHeader redelivery originalTopicHeader = StreamConsumer.topicId sc /\
  GetKafkaIntHeader redelivery retriesCountHeader = (retries, None) /\
  exists out,
    processMessage rc redelivery l w
    = match Produce out (snd (isTimeToRetry redelivery w)) with
      | (Some _, w') => (Return l (counters l, false, Some ErrProduce), w')
      | (None, w') =>
          (Next (with_counters (accumulate (counters l) (incr_retryScheduled zeroCounters)) l),
           w')
      end /\
    kafka.TopicPartition.Topic (kafka.Message.TopicPartition out) = StreamConsumer.topicId sc /\
    kafka.Message.Key out = kafka.Message.Key message /\
    kafka.Message.Value out = kafka.Message.Value message /\
    GetKafkaIntHeader out retriesCountHeader = (retries + 1, None).
Proof.
  intros retries failed Htopic Hlt Hmax Hheaders Hkey Hvalue Hready.
  pose proof (GetKafkaIntHeader_value_is_int message retriesCountHeader) as Hint.
  fold retries in Hint.
  assert (Hfailed : kafka.Message.Headers failed
                    = [kafka.Header.mk retriesCountHeader (Itoa retries);
                       kafka.Header.mk originalTopicHeader (StreamConsumer.topicId sc);
                       kafka.Header.mk retryTimeHeader
                         (ToISOFormat (RetryBackOffTime (StreamConsumer.config sc)
                                         (int_add retries 1)))] /\
                    kafka.Message.Key failed = kafka.Message.Key message /\
                    kafka.Message.Value failed = kafka.Message.Value message).
  { subst failed retries. unfold StreamConsumer.retryMessage.
    destruct (GetKafkaIntHeader message retriesCountHeader) as [r e]. simpl.
    by destruct (_ <=? r). }
  destruct Hfailed as (Hh & Hk & Hv).
  assert (Horiginal : GetKafkaHeader redelivery originalTopicHeader = StreamConsumer.topicId sc).
  { unfold GetKafkaHeader. by rewrite Hheaders, Hh. }
  assert (Hretries : GetKafkaIntHeader redelivery retriesCountHeader = (retries, None)).
  { apply retries_header_roundtrip; [done|]. unfold GetKafkaHeader. by rewrite Hheaders, Hh. }
  split; [done|]. split; [done|].
  assert (Hnext : int_add retries 1 = retries + 1).
  { apply int_add_small. unfold is_int in *. lia. }
  assert (Hpresent : GetKafkaHeader redelivery originalTopicHeader <> ""%string)
    by (by rewrite Horiginal).
  eexists. split.
  { rewrite (processMessage_reclassified _ _ _ _ _ Hpresent Hretries).
    by rewrite (reclassify_ready _ _ _ Hlt Hready). }
  split; [exact Horiginal|]. split; [simpl; congruence|]. split; [simpl; congruence|].
  apply retries_header_roundtrip; [unfold is_int in *; lia|]. by rewrite Hnext.
Qed.

End RedeliveryProperties.

(** ** The retry consumer without faults *)

Lemma ReadMessage_quiet topic w :
  quiet (script w) -> fetchPaused w = false ->
  0 <= position w < Z.of_nat (length (log w)) -> position w < int_max ->
  exists message w',
    ReadMessage topic w = (inl message, w') /\
    kafka.Message.TopicPartition message = kafka.TopicPartition.mk topic 0 (position w) /\
    position w' = position w + 1 /\ quiet (script w') /\ same_consumer w w'.
Proof.
  intros (Hw & Hr & Hb & Hp & Hm & Hs & Hc & Ho) Hfetch Hrange Hmax.
  unfold ReadMessage. simpl. rewrite Hr. simpl. rewrite Hfetch. unfold fetch. simpl.
  destruct (Z.ltb_spec (position w) 0); [lia|].
  destruct (log w !! Z.to_nat (position w)) as [record|] eqn:Hlookup.
  2:{ apply lookup_ge_None in Hlookup. lia. }
  eexists _, _. split; [reflexivity|]. simpl. split; [done|].
  split; [apply int_add_small; unfold is_int, int_min, int_max in *; lia|].
  split; [by repeat split|]. by repeat split.
Qed.

Lemma ReadMessage_quiet_end topic w :
  quiet (script w) -> position w = Z.of_nat (length (log w)) ->
  exists w',
    ReadMessage topic w = (inr timedOut, w') /\
    position w' = position w /\ quiet (script w') /\ same_consumer w w'.
Proof.
  intros (Hw & Hr & Hb & Hp & Hm & Hs & Hc & Ho) Hend.
  unfold ReadMessage. simpl. rewrite Hr. simpl.
  destruct (fetchPaused w) eqn:Hfetch.
  { eexists. split; [reflexivity|]. simpl. split; [done|]. split; by repeat split. }
  unfold fetch. simpl. destruct (Z.ltb_spec (position w) 0); [lia|].
  destruct (log w !! Z.to_nat (position w)) as [record|] eqn:Hlookup.
  { apply lookup_lt_Some in Hlookup. lia. }
  eexists. split; [reflexivity|]. simpl. split; [done|]. split; by repeat split.
Qed.

Lemma BeginTransaction_quiet w :
  quiet (script w) ->
  exists w',
    BeginTransaction w = (None, w') /\ position w' = position w /\
    quiet (script w') /\ same_consumer w w'.
Proof.
  intros (Hw & Hr & Hb & Hp & Hm & Hs & Hc & Ho). unfold BeginTransaction. simpl.
  rewrite Hb. simpl. eexists. split; [reflexivity|]. simpl. split; [done|].
  split; by repeat split.
Qed.

Lemma Produce_quiet message w :
  quiet (script w) ->
  exists w',
    Produce message w = (None, w') /\ position w' = position w /\
    quiet (script w') /\ same_consumer w w'.
Proof.
  intros (Hw & Hr & Hb & Hp & Hm & Hs & Hc & Ho). unfold Produce. simpl.
  rewrite Hp. simpl. eexists. split; [reflexivity|]. simpl. split; [done|].
  split; by repeat split.
Qed.

Lemma commit_quiet offsets w :
  quiet (script w) ->
  exists w1 w2 w3,
    GetConsumerGroupMetadata w = (None, w1) /\
    SendOffsetsToTransaction offsets w1 = (None, w2) /\
    CommitTransaction w2 = (None, w3) /\
    position w3 = position w /\ quiet (script w3) /\ same_consumer w w3.
Proof.
  intros (Hw & Hr & Hb & Hp & Hm & Hs & Hc & Ho).
  unfold GetConsumerGroupMetadata, SendOffsetsToTransaction, CommitTransaction. simpl.
  rewrite Hm. simpl. rewrite Hs. simpl. rewrite Hc. simpl.
  eexists _, _, _. split; [reflexivity|]. split; [reflexivity|]. split; [reflexivity|].
  simpl. split; [done|]. split; by repeat split.
Qed.

Section QuietRetryProperties.
Context {utils : bulker.Utils} {helpers : Helpers}.
Variable rc : AbstractBatchConsumer.

Lemma reclassify_quiet message originalTopic retries w :
  quiet (script w) ->
  let '(out, singleCount, w') := reclassify rc message originalTopic retries w in
  position w' = position w /\ quiet (script w') /\ same_consumer w w'.
Proof.
  intros Hquiet. unfold reclassify. destruct (_ <=? _); [done|].
  unfold isTimeToRetry. destruct (GetKafkaTimeHeader _ _) as [t [e|]]; [done|].
  destruct (IsZero t); [done|]. simpl.
  destruct Hquiet as (? & ? & ? & ? & ? & ? & ? & ?).
  destruct (After _ _); simpl; by repeat split.
Qed.

(** Without faults the loop body after the transaction is open always reaches
    the closing brace. *)
Lemma processMessage_quiet message l w :
  quiet (script w) -> is_int (consumed (counters l)) ->
  exists l' w',
    processMessage rc message l w = (Next l', w') /\
    position w' = position w /\ quiet (script w') /\ same_consumer w w' /\
    consumed (counters l') = consumed (counters l) /\
    nextBatch l' = nextBatch l /\ err l' = err l /\
    lastPosition l' = lastPosition l /\ txOpened l' = txOpened l.
Proof.
  intros Hquiet Hint.
  assert (Hskip : exists l' w',
             (Next l, w) = (Next l', w') /\
             position w' = position w /\ quiet (script w') /\ same_consumer w w' /\
             consumed (counters l') = consumed (counters l) /\
             nextBatch l' = nextBatch l /\ err l' = err l /\
             lastPosition l' = lastPosition l /\ txOpened l' = txOpened l).
  { eexists _, _. split; [reflexivity|]. split; [done|]. split; [exact Hquiet|].
    by repeat split. }
  unfold processMessage.
  destruct (String.eqb _ ""); [exact Hskip|].
  destruct (GetKafkaIntHeader _ _) as [retries [e|]]; [exact Hskip|].
  pose proof (reclassify_quiet message (GetKafkaHeader message originalTopicHeader) retries w
                Hquiet) as Hre.
  pose proof (reclassify_effect rc message (GetKafkaHeader message originalTopicHeader) retries w)
    as Heff.
  destruct (reclassify _ _ _ _ _) as [[out singleCount] w1].
  destruct Hre as (Hpos1 & Hquiet1 & Hcons1). destruct Heff as (Hsc & _).
  destruct (Produce_quiet out w1 Hquiet1) as (w2 & -> & Hpos2 & Hquiet2 & Hcons2).
  eexists _, _. split; [reflexivity|]. split; [congruence|]. split; [done|].
  split; [eauto using same_consumer_trans|]. split; [|done].
  simpl. rewrite Hsc. by apply int_add_0_r.
Qed.

(** One iteration without faults: it stops at the end of the log, and reads
    the next record otherwise. *)
Lemma iteration_quiet w0 i l w :
  quiet_inv rc w0 true i l w -> retired w0 = false -> fetchPaused w0 = false ->
  0 <= position w0 -> position w0 + Z.of_nat i <= Z.of_nat (length (log w0)) ->
  Z.of_nat (length (log w0)) <= int_max ->
  match iteration rc (Z.of_nat (length (log w0))) l w with
  | (Next l', w') =>
      position w0 + Z.of_nat i < Z.of_nat (length (log w0)) /\ quiet_inv rc w0 true (S i) l' w'
  | (Break l', w') =>
      position w0 + Z.of_nat i = Z.of_nat (length (log w0)) /\ quiet_inv rc w0 false i l' w'
  | (Return _ _, _) => False
  end.
Proof.
  intros (Hcons & Hquiet & Hpos & Hcount & Hnb & Herr & Hzero & Hsome) Hlive Hfetch Hp0 Hle Hlen.
  pose proof Hcons as (Hr & _ & _ & _ & _ & _ & Hf & Hlog).
  unfold iteration. rewrite Hr, Hlive.
  assert (Hsub : int_sub (Z.of_nat (length (log w0))) 1 = Z.of_nat (length (log w0)) - 1).
  { unfold int_sub. apply wrap_id. unfold is_int, int_min, int_max in *. lia. }
  destruct (decide (position w0 + Z.of_nat i = Z.of_nat (length (log w0)))) as [Hend|Hmore].
  - (* the end of the log *)
    destruct (decide (i = 0%nat)) as [->|Hnz].
    + destruct (Hzero eq_refl) as (Hlast & Hclosed). rewrite Hlast.
      destruct (ReadMessage_quiet_end (topicId rc) w Hquiet ltac:(rewrite Hlog; lia))
        as (w1 & -> & Hpos1 & Hquiet1 & Hcons1).
      simpl. split; [done|]. split; [eauto using same_consumer_trans|]. split; [done|].
      split; [congruence|]. by repeat split.
    + destruct (Hsome Hnz) as (Hlast & Hopen). rewrite Hlast. simpl. rewrite Hsub.
      destruct (Z.eqb_spec (position w0 + Z.of_nat i - 1) (Z.of_nat (length (log w0)) - 1));
        [|lia].
      split; [done|]. split; [done|]. split; [done|]. by repeat split.
  - (* a record is left *)
    assert (Hcheck : match lastPosition l with
                     | Some p => kafka.TopicPartition.Offset p
                                 =? int_sub (Z.of_nat (length (log w0))) 1
                     | None => false
                     end = false).
    { destruct (decide (i = 0%nat)) as [->|Hnz]; [by destruct (Hzero eq_refl) as (-> & _)|].
      destruct (Hsome Hnz) as (-> & _). simpl. rewrite Hsub. apply Z.eqb_neq. lia. }
    rewrite Hcheck.
    destruct (ReadMessage_quiet (topicId rc) w Hquiet ltac:(congruence)
                ltac:(rewrite Hlog; lia) ltac:(lia))
      as (message & w1 & -> & Htp & Hpos1 & Hquiet1 & Hcons1).
    assert (Hincr : int_add (consumed (counters l)) 1 = Z.of_nat (S i)).
    { rewrite int_add_small; [lia|]. unfold is_int, int_min, int_max in *. lia. }
    simpl. rewrite Hincr.
    assert (Hfinal : forall l1 w2,
              position w2 = position w1 -> quiet (script w2) -> same_consumer w1 w2 ->
              consumed (counters l1) = Z.of_nat (S i) -> nextBatch l1 = true ->
              err l1 = None ->
              lastPosition l1 = Some (kafka.Message.TopicPartition message) ->
              txOpened l1 = true ->
              match processMessage rc message l1 w2 with
              | (Next l', w') =>
                  position w0 + Z.of_nat i < Z.of_nat (length (log w0)) /\
                  quiet_inv rc w0 true (S i) l' w'
              | (Break l', w') =>
                  position w0 + Z.of_nat i = Z.of_nat (length (log w0)) /\
                  quiet_inv rc w0 false i l' w'
              | (Return _ _, _) => False
              end).
    { intros l1 w2 Hp2 Hq2 Hc2 Hcount1 Hnb1 Herr1 Hlast1 Hopen1.
      destruct (processMessage_quiet message l1 w2 Hq2
                  ltac:(rewrite Hcount1; unfold is_int, int_min, int_max in *; lia))
        as (l' & w' & -> & Hp3 & Hq3 & Hc3 & Hcount3 & Hnb3 & Herr3 & Hlast3 & Hopen3).
      split; [lia|].
      split; [eauto using same_consumer_trans|]. split; [done|].
      split; [lia|]. split; [congruence|]. split; [congruence|]. split; [congruence|].
      split; [done|]. intros _. split; [|congruence].
      rewrite Hlast3, Hlast1, Htp. do 2 f_equal. lia. }
    destruct (Z.eqb_spec (Z.of_nat (S i)) 1) as [Hone|Hmany].
    + destruct (BeginTransaction_quiet w1 Hquiet1) as (w2 & -> & Hpos2 & Hquiet2 & Hcons2).
      by apply Hfinal.
    + apply Hfinal; try done. simpl.
      destruct (decide (i = 0%nat)) as [->|Hnz]; [done|]. by destruct (Hsome Hnz).
Qed.

Lemma loop_quiet w0 n i l w :
  quiet_inv rc w0 true i l w -> retired w0 = false -> fetchPaused w0 = false ->
  0 <= position w0 -> position w0 + Z.of_nat i <= Z.of_nat (length (log w0)) ->
  Z.of_nat (length (log w0)) <= int_max ->
  match loop rc (Z.of_nat (length (log w0))) n l w with
  | (Next l', w') =>
      position w0 + Z.of_nat (i + n) <= Z.of_nat (length (log w0)) /\
      quiet_inv rc w0 true (i + n) l' w'
  | (Break l', w') =>
      exists j, (i <= j < i + n)%nat /\
                position w0 + Z.of_nat j = Z.of_nat (length (log w0)) /\
                quiet_inv rc w0 false j l' w'
  | (Return _ _, _) => False
  end.
Proof.
  intros Hinv Hlive Hfetch Hp0 Hle Hlen. revert i l w Hinv Hle.
  induction n as [|n IH]; intros i l w Hinv Hle.
  { simpl. by rewrite Nat.add_0_r. }
  simpl. pose proof (iteration_quiet w0 i l w Hinv Hlive Hfetch Hp0 Hle Hlen) as Hstep.
  destruct (iteration rc _ l w) as [[l'|l'|l' results] w']; [|by exists i; split; [lia|]|done].
  destruct Hstep as (Hlt & Hinv'). specialize (IH (S i) l' w' Hinv' ltac:(lia)).
  replace (i + S n)%nat with (S i + n)%nat by lia.
  destruct (loop rc _ n l' w') as [[l''|l''|l'' results] w'']; [done| |done].
  destruct IH as (j & Hj & Hrest). exists j. split; [lia|done].
Qed.

(** A batch without faults consumes the records from the position on, up to the
    batch size or the end of the log, commits them, and asks for a next batch
    exactly when it has stopped for the batch size. *)
Lemma processBatchImpl_quiet (retryBatchSize : Z) (w : World) :
  retired w = false -> fetchPaused w = false -> quiet (script w) ->
  0 <= position w <= Z.of_nat (length (log w)) -> Z.of_nat (length (log w)) <= int_max ->
  let remaining := Z.of_nat (length (log w)) - position w in
  let taken := Z.max 0 (Z.min retryBatchSize remaining) in
  exists c w',
    processBatchImpl rc retryBatchSize w = ((c, retryBatchSize <=? remaining, None), w') /\
    consumed c = taken /\ position w' = position w + taken /\
    quiet (script w') /\ same_consumer w w'.
Proof.
  intros Hlive Hfetch Hquiet Hrange Hlen remaining taken.
  unfold processBatchImpl, QueryWatermarkOffsets.
  pose proof Hquiet as (Hmarks & _). cbn [script record_call]. rewrite Hmarks.
  cbn [log record_call].
  set (w0 := record_call (CallQueryWatermarkOffsets (topicId rc) 0) w).
  set (l0 := with_nextBatch true
               (with_err (as_error None) (mkLocals None None false zeroCounters false None))).
  assert (Hinv0 : quiet_inv rc w0 true 0 l0 w0).
  { split; [done|]. split; [exact Hquiet|]. split; [simpl; lia|]. by repeat split. }
  pose proof (loop_quiet w0 (Z.to_nat retryBatchSize) 0 l0 w0 Hinv0 Hlive Hfetch
                ltac:(simpl; lia) ltac:(simpl; lia) Hlen) as Hloop.
  change (log w0) with (log w) in Hloop. change (position w0) with (position w) in Hloop.
  simpl Nat.add in Hloop.
  assert (Hafter : forall nb j l w1,
            quiet_inv rc w0 nb j l w1 ->
            exists c w',
              (let '(l', results, w2) := afterLoop l w1 in cleanup l' results w2)
              = ((c, nb, None), w') /\
              consumed c = Z.of_nat j /\ position w' = position w + Z.of_nat j /\
              quiet (script w') /\ same_consumer w w').
  { intros nb j l w1 (Hcons & Hq & Hpos & Hcount & Hnb & Herr & Hzero & Hsome).
    unfold afterLoop. destruct (decide (j = 0%nat)) as [->|Hnz].
    - destruct (Hzero eq_refl) as (_ & Hclosed). rewrite Hclosed. simpl. rewrite Hnb, Herr.
      eexists _, _. split; [reflexivity|]. split; [done|]. split; [done|]. split; [done|].
      exact Hcons.
    - destruct (Hsome Hnz) as (Hlast & Hopen). rewrite Hopen. simpl.
      destruct (commit_quiet
                  [kafka.TopicPartition.mk (topicId rc) 0
                     (int_add (position w + Z.of_nat j - 1) 1)] w1 Hq)
        as (w2 & w3 & w4 & Hmeta & Hsend & Hcommit & Hpos4 & Hq4 & Hcons4).
      rewrite Hmeta. simpl. rewrite Hlast. simpl. rewrite Hsend. simpl. rewrite Hcommit.
      simpl. rewrite Hnb.
      eexists _, _. split; [reflexivity|]. split; [done|].
      split; [by rewrite Hpos4, Hpos|].
      split; [done|]. eauto using same_consumer_trans. }
  destruct (loop rc _ (Z.to_nat retryBatchSize) l0 w0) as [[l|l|l results] w1]; [| |done].
  - destruct Hloop as (Hle & Hinv).
    destruct (Hafter _ _ _ _ Hinv) as (c & w' & Hrun & Hcount & Hpos & Hq & Hcons).
    exists c, w'. rewrite Hrun.
    destruct (Z.leb_spec retryBatchSize remaining); [|unfold remaining in *; lia].
    split; [done|]. split; [unfold taken, remaining in *; lia|].
    split; [unfold taken, remaining in *; lia|]. split; [done|]. exact Hcons.
  - destruct Hloop as (j & Hj & Hend & Hinv).
    destruct (Hafter _ _ _ _ Hinv) as (c & w' & Hrun & Hcount & Hpos & Hq & Hcons).
    exists c, w'. rewrite Hrun.
    destruct (Z.leb_spec retryBatchSize remaining); [unfold remaining in *; lia|].
    split; [done|]. split; [unfold taken, remaining in *; lia|].
    split; [unfold taken, remaining in *; lia|]. split; [done|]. exact Hcons.
Qed.

(** X21: A batch of the retry consumer in which no client call fails, on a consumer
    that is neither retired nor paused: it returns no error, it has consumed
    the records from the position on up to the batch size or the end of the
    log, whichever comes first, the position has advanced by that number, and
    it asks for a next batch exactly when the batch size does not exceed the
    number of records that were left, so also when the batch has just reached
    the end of the log. *)
Theorem retry_batch_without_faults (retryBatchSize : Z) (w : World) :
  retired w = false -> fetchPaused w = false -> quiet (script w) ->
  0 <= position w <= Z.of_nat (length (log w)) -> Z.of_nat (length (log w)) <= int_max ->
  let remaining := Z.of_nat (length (log w)) - position w in
  let '((c, nb, e), w') := processBatchImpl rc retryBatchSize w in
  e = None /\
  consumed c = Z.max 0 (Z.min retryBatchSize remaining) /\
  position w' = position w + consumed c /\
  (nb = true <-> retryBatchSize <= remaining).
Proof.
  intros Hlive Hfetch Hquiet Hrange Hlen remaining.
  destruct (processBatchImpl_quiet retryBatchSize w Hlive Hfetch Hquiet Hrange Hlen)
    as (c & w' & -> & Hc & Hp & _).
  split; [done|]. split; [done|]. split; [by rewrite Hc|].
  fold remaining. by destruct (Z.leb_spec retryBatchSize remaining); split; try lia.
Qed.





End QuietRetryProperties.

(** ** The further properties on the sample inputs *)


(** [Options_replay] at the options built by [WithPartition] and
    [WithPrimaryKey]. *)
Lemma Options_replay_witness :
  let so :=
    bulker.Add
      (bulker.Add (bulker.mkStreamOptions None [])
         (bulker.WithPartition (H := bulker.sampleUtils) "p1"))
      (bulker.WithPrimaryKey ["id"]%string) in
  bulker.valuesMap so = replay (bulker.Options so).
Proof.
  intros so. apply (Options_replay so). subst so. apply built_Add, built_Add, built_zero.
Defined.



(** [ConsumeAll_destination_not_found] at a repository without destination. *)
Lemma ConsumeAll_destination_not_found_witness :
  exists w',
    ConsumeAll (H := bulker.sampleUtils) sampleConsumer
      (retryBatchFunc (H := sampleHelpers) sampleConsumer) 3
      (worldWith None [readyRecord] quietScript)
    = Some ((zeroCounters, Some (ErrDestinationNotFound (destinationId sampleConsumer))), w') /\
    retired w' = true /\ idle w' = true /\ closed w' = true /\
    paused w' = paused (worldWith None [readyRecord] quietScript) /\
    leaseCount w' = leaseCount (worldWith None [readyRecord] quietScript) /\
    position w' = position (worldWith None [readyRecord] quietScript) /\
    fetchPaused w' = fetchPaused (worldWith None [readyRecord] quietScript) /\
    calls w'
    = calls (worldWith None [readyRecord] quietScript)
      ++ [CallLeaseDestination (destinationId sampleConsumer); CallCloseConsumer;
          CallCountersMetric zeroCounters; CallConsumerRuns "fail"].
Proof.
  apply (ConsumeAll_destination_not_found (utils := bulker.sampleUtils) sampleConsumer
           (retryBatchFunc (H := sampleHelpers) sampleConsumer) 3
           (worldWith None [readyRecord] quietScript)).
  - reflexivity.
  - intros d Hd. discriminate Hd.
Defined.

(** [ConsumeAll_leaves_idle] at a run over one record. *)
Lemma ConsumeAll_leaves_idle_witness :
  match ConsumeAll (H := bulker.sampleUtils) sampleConsumer
          (retryBatchFunc (H := sampleHelpers) sampleConsumer) 3
          (sampleWorld [readyRecord] quietScript) with
  | Some (_, w') => idle w' = true /\ (if retired w' then closed w' = true else paused w' = true)
  | None => True
  end.
Proof.
  apply (ConsumeAll_leaves_idle (utils := bulker.sampleUtils) sampleConsumer
           (retryBatchFunc (H := sampleHelpers) sampleConsumer) 3
           (sampleWorld [readyRecord] quietScript)).
  reflexivity.
Defined.

(** [retry_ConsumeAll_releases_lease] at a run over two records. *)
Lemma retry_ConsumeAll_releases_lease_witness :
  match ConsumeAll (H := bulker.sampleUtils) sampleConsumer
          (retryBatchFunc (H := sampleHelpers) sampleConsumer) 3
          (sampleWorld [readyRecord; exhaustedRecord] quietScript) with
  | Some (_, w') =>
      leaseCount w' = leaseCount (sampleWorld [readyRecord; exhaustedRecord] quietScript) /\
      repository w' = repository (sampleWorld [readyRecord; exhaustedRecord] quietScript) /\
      (retired w' = true ->
       retired (sampleWorld [readyRecord; exhaustedRecord] quietScript) = true \/
       forall d,
         repository (sampleWorld [readyRecord; exhaustedRecord] quietScript) = Some d ->
         destinationId_of d <> destinationId sampleConsumer)
  | None => True
  end.
Proof.
  apply (retry_ConsumeAll_releases_lease (utils := bulker.sampleUtils)
           (helpers := sampleHelpers) sampleConsumer 3
           (sampleWorld [readyRecord; exhaustedRecord] quietScript)).
  - split; vm_compute; discriminate.
  - intros d Hd. injection Hd as <-. vm_compute. discriminate.
Defined.

(** [retry_ConsumeAll_spins] at the destination with [batchSize = 3], whose
    retry batch size is 0. *)
Lemma retry_ConsumeAll_spins_witness :
  snd (effectiveBatchSizes (H := bulker.sampleUtils) sampleConsumer
         (streamOptions smallBatchDestination)) = 0 /\
  ConsumeAll (H := bulker.sampleUtils) sampleConsumer
    (retryBatchFunc (H := sampleHelpers) sampleConsumer) 1000
    (worldWith (Some smallBatchDestination) [readyRecord] quietScript) = None.
Proof.
  split; [reflexivity|].
  apply (retry_ConsumeAll_spins (utils := bulker.sampleUtils) (helpers := sampleHelpers)
           sampleConsumer 1000
           (worldWith (Some smallBatchDestination) [readyRecord] quietScript)
           smallBatchDestination).
  - reflexivity.
  - reflexivity.
  - reflexivity.
  - reflexivity.
  - vm_compute. discriminate.
Defined.


(** [retry_ConsumeAll_resume_failure_is_silent] at a paused consumer whose
    [resume] times out. *)
Lemma retry_ConsumeAll_resume_failure_is_silent_witness :
  let w :=
    pause (with_script (mkScript [] [] [] [] [] [] [] [ResumeTimeout]
                          (fun _ => Z.to_N instant_2025) 0)
             (sampleWorld [readyRecord] quietScript)) in
  exists w',
    ConsumeAll (H := bulker.sampleUtils) sampleConsumer
      (retryBatchFunc (H := sampleHelpers) sampleConsumer) 1 w
    = Some ((zeroCounters, None), w') /\
    same_committed w w' /\ position w' = position w /\
    paused w' = true /\ fetchPaused w' = true /\ idle w' = true /\
    produced (calls w') = produced (calls w) /\
    In (CallConsumerRuns "success") (calls w').
Proof.
  intros w.
  apply (retry_ConsumeAll_resume_failure_is_silent (utils := bulker.sampleUtils)
           (helpers := sampleHelpers) sampleConsumer 0 w sampleDestination ResumeTimeout []).
  - reflexivity.
  - reflexivity.
  - reflexivity.
  - reflexivity.
  - reflexivity.
  - vm_compute. discriminate.
  - reflexivity.
  - reflexivity.
  - reflexivity.
  - by right.
Defined.

(** [ready_message_rescheduled] at a record with [retries = 1] whose deadline
    of 2024 has passed in 2025. *)
Lemma ready_message_rescheduled_witness :
  let message := messageAt sampleRetryTopic 0 readyRecord in
  let w := sampleWorld [] quietScript in
  let l := initialLocals in
  exists out,
    let counted := accumulate (counters l) (incr_retryScheduled zeroCounters) in
    processMessage (H := sampleHelpers) sampleConsumer message l w
    = match Produce out (snd (isTimeToRetry (H := sampleHelpers) message w)) with
      | (Some _, w') => (Return l (counters l, false, Some ErrProduce), w')
      | (None, w') => (Next (with_counters counted l), w')
      end /\
    kafka.Message.TopicPartition out
    = kafka.TopicPartition.mk (GetKafkaHeader message originalTopicHeader)
        kafka.PartitionAny 0 /\
    kafka.Message.Key out = kafka.Message.Key message /\
    kafka.Message.Value out = kafka.Message.Value message /\
    GetKafkaHeader out originalTopicHeader = GetKafkaHeader message originalTopicHeader /\
    GetKafkaIntHeader out retriesCountHeader = (1 + 1, None) /\
    GetKafkaHeader out retryTimeHeader = ""%string /\
    retryScheduled counted = int_add (retryScheduled (counters l)) 1 /\
    deadLettered counted = int_add (deadLettered (counters l)) 0 /\
    notReadyReadded counted = int_add (notReadyReadded (counters l)) 0.
Proof.
  intros message w l.
  apply (ready_message_rescheduled (helpers := sampleHelpers) sampleConsumer message 1 l w).
  - discriminate.
  - reflexivity.
  - reflexivity.
  - vm_compute. discriminate.
  - reflexivity.
Defined.

(** [retry_round_trip] at a message that fails for the first time and that the
    retry consumer reads after its deadline. *)
Lemma retry_round_trip_witness :
  let failed :=
    snd (fst (StreamConsumer.retryMessage (H := sampleHelpers) sampleStreamConsumer
                freshMessage)) in
  let redelivery :=
    kafka.Message.mk (kafka.TopicPartition.mk sampleRetryTopic 0 0)
      (kafka.Message.Value failed) (kafka.Message.Key failed) (kafka.Message.Headers failed) in
  let w := sampleWorld [] lateScript in
  GetKafkaHeader redelivery originalTopicHeader = StreamConsumer.topicId sampleStreamConsumer /\
  GetKafkaIntHeader redelivery retriesCountHeader
  = (fst (GetKafkaIntHeader freshMessage retriesCountHeader), None) /\
  exists out,
    processMessage (H := sampleHelpers) sampleConsumer redelivery initialLocals w
    = match Produce out (snd (isTimeToRetry (H := sampleHelpers) redelivery w)) with
      | (Some _, w') =>
          (Return initialLocals (counters initialLocals, false, Some ErrProduce), w')
      | (None, w') =>
          (Next (with_counters
                   (accumulate (counters initialLocals) (incr_retryScheduled zeroCounters))
                   initialLocals), w')
      end /\
    kafka.TopicPartition.Topic (kafka.Message.TopicPartition out)
    = StreamConsumer.topicId sampleStreamConsumer /\
    kafka.Message.Key out = kafka.Message.Key freshMessage /\
    kafka.Message.Value out = kafka.Message.Value freshMessage /\
    GetKafkaIntHeader out retriesCountHeader
    = (fst (GetKafkaIntHeader freshMessage retriesCountHeader) + 1, None).
Proof.
  intros failed redelivery w.
  apply (retry_round_trip (helpers := sampleHelpers) sampleConsumer sampleStreamConsumer
           freshMessage redelivery initialLocals w).
  - discriminate.
  - reflexivity.
  - vm_compute. discriminate.
  - reflexivity.
  - reflexivity.
  - reflexivity.
  - reflexivity.
Defined.

(** [retry_batch_without_faults] at a batch of size two over two records. *)
Lemma retry_batch_without_faults_witness :
  let w := sampleWorld [readyRecord; exhaustedRecord] quietScript in
  let '((c, nb, e), w') := processBatchImpl (H := sampleHelpers) sampleConsumer 2 w in
  e = None /\
  consumed c = Z.max 0 (Z.min 2 (Z.of_nat (length (log w)) - position w)) /\
  position w' = position w + consumed c /\
  (nb = true <-> 2 <= Z.of_nat (length (log w)) - position w).
Proof.
  intros w.
  apply (retry_batch_without_faults (helpers := sampleHelpers) sampleConsumer 2 w).
  - reflexivity.
  - reflexivity.
  - by repeat split.
  - vm_compute. by split; discriminate.
  - vm_compute. discriminate.
Defined.

